(** * Behavioural cloning trainer ([imitation/algorithms/bc.py])

    A shallow embedding of [set_tf_vars] and of the [BCTrainer] class.

    The Python module drives three external libraries: the TensorFlow 1
    graph-and-session runtime, stable-baselines policies and its [Dataset]
    iterator, and [cloudpickle].  They are represented by an explicit
    [world] that every operation threads:

    - the graph's TRAINABLE_VARIABLES collection, in creation order, the
      current variable scope, and whether the graph holds operations other
      than these variables;
    - the values each session holds for the variables;
    - the files written by [cloudpickle.dump];
    - the random state, the optimiser's slots, and logs of what the training
      loop did (optimiser steps, progress-bar reports, callback calls).

    Python exceptions are values of type [exn]; a computation returns either
    an exception or a result, together with the world it leaves behind (side
    effects made before a raise stay in place, as in Python).

    Conventions:

    - variables are identified by their graph-unique names; only trainable
      variables are tracked (the optimiser's slot variables live in
      [adam_slots]);
    - arrays and variables have a shape and a numeric element type; a
      variable that is assigned an array holds it in its own element type;
    - the methods of a trainer run in the graph that holds the trainer's
      operations;
    - whether a path can be written is the file system's answer
      ([os_write_error]), except for the empty path, which never can;
      serialising a record does not fail;
    - a trainer object is a record that [train] and [set_expert_dataset]
      return updated;
    - expert observations and actions have the types the policy's
      placeholders expect, so feeding a batch to the training operation
      does not fail;
    - an [on_epoch_end] callback observes the locals it is given; its calls
      are recorded, its own side effects are not modelled. *)

From Stdlib Require Import ZArith.
From Stdlib Require QArith.
From stdpp Require Import base strings list gmap pretty.

Local Open Scope string_scope.
Local Open Scope list_scope.

(** ** Arrays, variables and policies *)

(** The element types of the arrays and variables the module handles. *)
Inductive np_dtype := float32 | float64 | int32 | int64.

#[global] Instance np_dtype_eq_dec : EqDecision np_dtype.
Proof. solve_decision. Defined.

(** A numpy array: its shape, the bit patterns of its entries in row-major
    order, and its element type.  Equality of [data] is bit-identity of the
    entries. *)
Record ndarray := NdArray {
  shape : list nat;
  data : list Z;
  dtype : np_dtype
}.

#[global] Instance ndarray_eq_dec : EqDecision ndarray.
Proof. solve_decision. Defined.

(** A [tf.Variable]: graph-unique name, static shape and element type. *)
Record tf_var := TfVar {
  var_name : string;
  var_shape : list nat;
  var_dtype : np_dtype
}.

#[global] Instance tf_var_eq_dec : EqDecision tf_var.
Proof. solve_decision. Defined.

(** A [tf.Session] handle. *)
Definition session := nat.

(** The gym environment, as far as the trainer reads it. *)
Record gym_env := GymEnv { observation_space : list nat; action_space : nat }.

(** The keyword arguments [_build_tf_graph] stores in [self.policy_kwargs]. *)
Record policy_kwargs := PolicyKwargs {
  ob_space : list nat;
  ac_space : nat;
  n_batch : option nat;
  n_env : nat;
  n_steps : nat
}.

(** A policy class (a subclass of [ActorCriticPolicy]).  What the trainer
    depends on is the ordered list of trainable parameters its constructor
    declares: their names relative to the enclosing variable scope, and
    their shapes. *)
Record policy_class := PolicyClass {
  class_name : string;
  param_decls : policy_kwargs -> list tf_var
}.

(** A constructed policy object. *)
Record policy := Policy {
  pol_class : policy_class;
  pol_sess : session;
  pol_kwargs : policy_kwargs;
  pol_scope : string;
  pol_variables : list tf_var
}.

(** The dictionary [save_policy] pickles. *)
Record pickle := Pickle {
  pk_class : policy_class;
  pk_kwargs : policy_kwargs;
  pk_params : list ndarray
}.

(** Subclasses of [tf.train.Optimizer]. *)
Inductive optimizer_class :=
| AdamOptimizer
| GradientDescentOptimizer
| MomentumOptimizer
| RMSPropOptimizer
| AdagradOptimizer.

(** An optimiser object: its class and the keyword arguments it was
    constructed with (values as bit patterns). *)
Record optimizer := Optimizer {
  opt_class : optimizer_class;
  opt_kwargs : gmap string Z
}.

(** The graph node [opt.minimize(loss)]: the optimiser, and the scope of the
    policy whose negative log-likelihood is the loss. *)
Record train_op := Minimize {
  op_optimizer : optimizer;
  op_loss_of : string
}.

(** One expert transition; behavioural cloning reads [obs] and [acts]. *)
Record transition := Transition {
  tr_obs : list Z;
  tr_act : Z;
  tr_next_obs : list Z;
  tr_rew : Z
}.

(** One row of the [Dataset]: an aligned (observation, action) pair. *)
Definition sample : Type := list Z * Z.

(** ** Exceptions *)

Inductive exn :=
| AssertionError (msg : string)
| AttributeError (msg : string)
| TypeError (msg : string)
| ValueError (msg : string)
| ZeroDivisionError (msg : string)
| FileNotFoundError (path : string)
| FailedPreconditionError (var : string)
| RuntimeError (msg : string)
| OSError (msg : string).

Definition xor_msg : string := "must give either `tf_vars` xor `scope` kwargs".

(** [f"{len(tf_vars)} tf variables but {len(values)} values supplied"] *)
Definition count_msg (n_vars n_values : nat) : string :=
  pretty n_vars +:+ " tf variables but " +:+ pretty n_values +:+ " values supplied".

Definition no_session_msg : string := "must supply session or have one in context".

Definition empty_graph_msg : string :=
  "The Session graph is empty.  Add operations to the graph before calling run().".

(** ** Variable scopes *)

(** The name of the scope opened by [tf.variable_scope(name)] inside the
    scope [outer], and of a variable [name] created inside [outer]. *)
Definition scope_join (outer name : string) : string :=
  match outer with
  | EmptyString => name
  | _ => outer +:+ "/" +:+ name
  end.

(** [re.match(scope, name)] for a scope without regular-expression
    metacharacters: [scope] is an initial segment of [name].  This is the
    filter [tf.get_collection(key, scope=scope)] applies. *)
Fixpoint scope_matches (scope name : string) : bool :=
  match scope, name with
  | EmptyString, _ => true
  | String a scope', String b name' =>
      if Ascii.eqb a b then scope_matches scope' name' else false
  | String _ _, EmptyString => false
  end.

(** ** The external runtime

    Floating-point arithmetic, the random number generator, element
    conversion, variable initialisers and the optimiser step are supplied
    by numpy and TensorFlow, and the answer to a request to write a file by
    the operating system.  They are the operations of a [Runtime]. *)
Class Runtime := {
  (** floating-point scalars with [*], [+] and the literals [0.9], [0.1] *)
  float : Type;
  fmul : float -> float -> float;
  fadd : float -> float -> float;
  f0_9 : float;
  f0_1 : float;
  (** random state; [np_random_shuffle n] draws an ordering of [0..n-1] *)
  rng : Type;
  np_random_shuffle : nat -> rng -> list nat * rng;
  (** the initial value a variable's initialiser produces *)
  initial_value : tf_var -> rng -> ndarray * rng;
  (** the optimiser's slot variables *)
  opt_state : Type;
  opt_init : opt_state;
  (** one run of [[train_op, log_loss]] on a batch: new parameter values,
      new slots, and the batch loss *)
  run_train_op : train_op -> policy_class -> policy_kwargs -> list sample ->
                 list ndarray -> opt_state -> list ndarray * opt_state * float;
  (** [np.asarray(x, dtype=...)] on the entries of an array: conversion
      from one element type to another *)
  np_cast : np_dtype -> np_dtype -> list Z -> list Z;
  (** which of several uninitialised variables a failing [sess.run]
      reports: an index into the list of their names *)
  tf_reported : list string -> nat;
  (** the operating system: what creating the parent directories of a path
      and opening the path for writing raises, if anything, given the files
      that exist *)
  os_write_error : gmap string pickle -> string -> option exn
}.

(** What the trainer relies on from the runtime. *)
Class RuntimeLaws (RT : Runtime) : Prop := {
  np_random_shuffle_perm : forall n r, (np_random_shuffle n r).1 ≡ₚ seq 0 n;
  initial_value_shape : forall v r, shape (initial_value v r).1 = var_shape v
}.

(** The initialisers produce arrays of the variables' element type. *)
Class InitialValueTyped (RT : Runtime) : Prop :=
  initial_value_dtype : forall v r, dtype (initial_value v r).1 = var_dtype v.

(** What the progress bars are told. *)
Inductive progress_event `{Runtime} :=
| BatchLoss (loss : float)          (* [tq_iter.set_postfix(loss=...)] *)
| EpochLossEwma (loss_ewma : float) (* [epoch_iter.set_postfix(loss_ewma=...)] *).

(** The part of [locals()] handed to [on_epoch_end]. *)
Record epoch_locals `{Runtime} := EpochLocals {
  loc_epoch_num : nat;
  loc_total_batches : Z;
  loc_loss_ewma : float
}.

Record world `{Runtime} := World {
  trainable_variables : list tf_var;
  variable_scope : string;
  default_session : option session;
  var_values : gmap (session * string) ndarray;
  files : gmap string pickle;
  np_random : rng;
  adam_slots : opt_state;
  steps_log : list (list sample);
  progress_log : list progress_event;
  callback_log : list epoch_locals;
  (** whether the graph holds operations other than the trainable
      variables (placeholders, losses, ...) *)
  graph_has_ops : bool
}.

Arguments BatchLoss {_} _.
Arguments EpochLossEwma {_} _.
Arguments EpochLocals {_} _ _ _.
Arguments World {_} _ _ _ _ _ _ _ _ _ _ _.

Section Model.
Context `{RT : Runtime}.

(** ** Computations: state and exceptions *)

Definition M (A : Type) : Type := world -> (exn + A) * world.

Definition ret {A} (a : A) : M A := fun w => (inr a, w).

Definition raise {A} (e : exn) : M A := fun w => (inl e, w).

Definition bind {A B} (m : M A) (k : A -> M B) : M B :=
  fun w => match m w with
           | (inl e, w') => (inl e, w')
           | (inr a, w') => k a w'
           end.

Definition get : M world := fun w => (inr w, w).

Definition modify (f : world -> world) : M unit := fun w => (inr tt, f w).

Definition assert (b : bool) (msg : string) : M unit :=
  if b then ret tt else raise (AssertionError msg).

End Model.

Notation "x <- c1 ;; c2" := (bind c1 (fun x => c2))
  (at level 100, c1 at next level, right associativity).
Notation "c1 ;; c2" := (bind c1 (fun _ => c2))
  (at level 100, right associativity).

(** ** The TensorFlow runtime, as the module uses it *)

Section TensorFlow.
Context `{RT : Runtime}.

Definition set_trainable_variables (x : list tf_var) (w : world) : world :=
  World x (variable_scope w) (default_session w) (var_values w) (files w)
        (np_random w) (adam_slots w) (steps_log w) (progress_log w)
        (callback_log w) (graph_has_ops w).

Definition set_variable_scope (x : string) (w : world) : world :=
  World (trainable_variables w) x (default_session w) (var_values w)
        (files w) (np_random w) (adam_slots w) (steps_log w)
        (progress_log w) (callback_log w) (graph_has_ops w).

Definition set_var_values (x : gmap (session * string) ndarray) (w : world) : world :=
  World (trainable_variables w) (variable_scope w) (default_session w) x
        (files w) (np_random w) (adam_slots w) (steps_log w)
        (progress_log w) (callback_log w) (graph_has_ops w).

Definition set_files (x : gmap string pickle) (w : world) : world :=
  World (trainable_variables w) (variable_scope w) (default_session w)
        (var_values w) x (np_random w) (adam_slots w) (steps_log w)
        (progress_log w) (callback_log w) (graph_has_ops w).

Definition set_np_random (x : rng) (w : world) : world :=
  World (trainable_variables w) (variable_scope w) (default_session w)
        (var_values w) (files w) x (adam_slots w) (steps_log w)
        (progress_log w) (callback_log w) (graph_has_ops w).

Definition set_adam_slots (x : opt_state) (w : world) : world :=
  World (trainable_variables w) (variable_scope w) (default_session w)
        (var_values w) (files w) (np_random w) x (steps_log w)
        (progress_log w) (callback_log w) (graph_has_ops w).

Definition set_steps_log (x : list (list sample)) (w : world) : world :=
  World (trainable_variables w) (variable_scope w) (default_session w)
        (var_values w) (files w) (np_random w) (adam_slots w) x
        (progress_log w) (callback_log w) (graph_has_ops w).

Definition set_progress_log (x : list progress_event) (w : world) : world :=
  World (trainable_variables w) (variable_scope w) (default_session w)
        (var_values w) (files w) (np_random w) (adam_slots w) (steps_log w)
        x (callback_log w) (graph_has_ops w).

Definition set_callback_log (x : list epoch_locals) (w : world) : world :=
  World (trainable_variables w) (variable_scope w) (default_session w)
        (var_values w) (files w) (np_random w) (adam_slots w) (steps_log w)
        (progress_log w) x (graph_has_ops w).

Definition set_graph_has_ops (x : bool) (w : world) : world :=
  World (trainable_variables w) (variable_scope w) (default_session w)
        (var_values w) (files w) (np_random w) (adam_slots w) (steps_log w)
        (progress_log w) (callback_log w) x.

(** Monadic map over a list, left to right. *)
Fixpoint mapM {A B} (f : A -> M B) (l : list A) : M (list B) :=
  match l with
  | [] => ret []
  | x :: l' => y <- f x ;; ys <- mapM f l' ;; ret (y :: ys)
  end.

(** [tf.get_default_session()] *)
Definition get_default_session : M (option session) :=
  w <- get ;; ret (default_session w).

(** [tf.get_variable_scope().name] *)
Definition get_variable_scope : M string :=
  w <- get ;; ret (variable_scope w).

(** [with tf.variable_scope(name): body].  The scope that was current on
    entry is current again on exit, also when [body] raises. *)
Definition with_variable_scope {A} (name : string) (body : M A) : M A :=
  fun w =>
    let outer := variable_scope w in
    let '(r, w') := body (set_variable_scope (scope_join outer name) w) in
    (r, set_variable_scope outer w').

(** [tf.get_collection(tf.GraphKeys.TRAINABLE_VARIABLES, scope=scope)]: the
    trainable variables whose name [scope] matches, in creation order. *)
Definition get_collection (scope : string) : M (list tf_var) :=
  w <- get ;;
  ret (List.filter (fun v => scope_matches scope (var_name v))
                   (trainable_variables w)).

Definition already_exists_msg (name : string) : string :=
  "Variable " +:+ name +:+ " already exists, disallowed.".

(** [tf.get_variable(name, shape)] with [reuse=False], the way
    stable-baselines policies create their parameters: the variable is
    named after the current scope, it must not exist yet, and it joins the
    TRAINABLE_VARIABLES collection. *)
Definition get_variable (decl : tf_var) : M tf_var :=
  w <- get ;;
  let v := TfVar (scope_join (variable_scope w) (var_name decl))
                 (var_shape decl) (var_dtype decl) in
  if bool_decide (var_name v ∈ var_name <$> trainable_variables w)
  then raise (ValueError (already_exists_msg (var_name v)))
  else modify (set_trainable_variables (trainable_variables w ++ [v])) ;;
       ret v.

(** [klass(sess=sess, **kwargs)]: calling a policy class first adds the
    policy's input placeholders to the graph, then builds its parameters in
    the current variable scope. *)
Definition new_policy (klass : policy_class) (sess : session)
    (kwargs : policy_kwargs) : M policy :=
  modify (set_graph_has_ops true) ;;
  scope <- get_variable_scope ;;
  vars <- mapM get_variable (param_decls klass kwargs) ;;
  ret (Policy klass sess kwargs scope vars).

(** Reading one variable in a session; an uninitialised variable raises. *)
Definition read_variable (sess : session) (v : tf_var) : M ndarray :=
  w <- get ;;
  match var_values w !! (sess, var_name v) with
  | Some a => ret a
  | None => raise (FailedPreconditionError (var_name v))
  end.

(** The variables among [vars] that have no value in session [sess]. *)
Definition uninitialised (sess : session) (vars : list tf_var) (w : world)
  : list tf_var :=
  List.filter (fun v => bool_decide (var_values w !! (sess, var_name v) = None))
              vars.

(** [sess.run(vars)] for variables of a graph that holds operations (a
    trainer's graph always does).  When some of the variables are
    uninitialised the run raises on one of them, and which one is
    TensorFlow's choice ([tf_reported], read modulo their number);
    otherwise it returns the values in the order of [vars]. *)
Definition sess_run_read (sess : session) (vars : list tf_var)
  : M (list ndarray) :=
  w <- get ;;
  let missing := uninitialised sess vars w in
  match missing !! (tf_reported (var_name <$> missing) mod length missing) with
  | Some v => raise (FailedPreconditionError (var_name v))
  | None => mapM (read_variable sess) vars
  end.

(** [np.asarray(a, dtype=dt)], which a session applies to every array it
    is fed: an array of element type [dt] is taken as it is, an array of
    another (numeric) element type is converted entry by entry. *)
Definition astype (dt : np_dtype) (a : ndarray) : ndarray :=
  if decide (dtype a = dt) then a
  else NdArray (shape a) (np_cast (dtype a) dt (data a)) dt.

(** The effect of running [tf.assign(var, value)] for each pair: the
    variable takes the value, in the variable's element type.  (The pairs
    are run from left to right; TensorFlow fixes no order, which matters
    only when a variable occurs twice.) *)
Definition assign_all (sess : session) (prs : list (tf_var * ndarray))
    (vals : gmap (session * string) ndarray)
  : gmap (session * string) ndarray :=
  foldl (fun m '(v, a) => <[(sess, var_name v) := astype (var_dtype v) a]> m)
        vals prs.

Definition feed_shape_msg : string := "Cannot feed value of incompatible shape".

(** The session's graph holds no operation at all. *)
Definition graph_is_empty (w : world) : bool :=
  bool_decide (trainable_variables w = []) && negb (graph_has_ops w).

(** [sess.run(assign_ops, feed_dict={ph: value ...})] where placeholder [i]
    has the shape and the element type of variable [i].  A run in a graph
    without operations raises [RuntimeError]; that can only be when there
    is no variable to assign, since the variables and their placeholders
    are operations of the graph.  Feeds are validated before any operation
    runs: an array whose shape is not the placeholder's raises [ValueError]
    and nothing is assigned.  A fed array is converted to the placeholder's
    element type, so the variable holds the converted array. *)
Definition sess_run_assign (sess : session) (tf_vars : list tf_var)
    (values : list ndarray) : M unit :=
  w <- get ;;
  if bool_decide (tf_vars = []) && graph_is_empty w
  then raise (RuntimeError empty_graph_msg)
  else
    let prs := zip tf_vars values in
    if forallb (fun '(v, a) => bool_decide (shape a = var_shape v)) prs
    then modify (fun w => set_var_values (assign_all sess prs (var_values w)) w)
    else raise (ValueError feed_shape_msg).

End TensorFlow.

(** ** [set_tf_vars] *)

Section SetTfVars.
Context `{RT : Runtime}.

Definition set_tf_vars (values : list ndarray) (scope : option string)
    (tf_vars : option (list tf_var)) (sess : option session) : M unit :=
  tf_vars <- match scope with
             | Some s =>
                 assert (bool_decide (tf_vars = None)) xor_msg ;;
                 get_collection s
             | None =>
                 match tf_vars with
                 | Some vs => ret vs
                 | None => raise (AssertionError xor_msg)
                 end
             end ;;
  assert (bool_decide (length tf_vars = length values))
         (count_msg (length tf_vars) (length values)) ;;
  sess <- match sess with
          | Some s => ret (Some s)
          | None => get_default_session
          end ;;
  match sess with
  | None => raise (AssertionError no_session_msg)
  | Some s => sess_run_assign s tf_vars values
  end.

End SetTfVars.

(** ** The expert dataset ([stable_baselines.common.dataset.Dataset]) *)

Section ExpertDataset.
Context `{RT : Runtime}.

(** The rows of the dataset in their current (shuffled) order. *)
Record dataset := Dataset { rows : list sample }.

Definition n_samples (d : dataset) : nat := length (rows d).

(** [count] consecutive slices of [size] rows. *)
Fixpoint batches {A} (count size : nat) (l : list A) : list (list A) :=
  match count with
  | O => []
  | S c => take size l :: batches c size (drop size l)
  end.

(** [data[perm]]: the rows in the order [perm] lists their indices. *)
Definition reorder (perm : list nat) (l : list sample) : list sample :=
  (fun i => default ([], 0%Z) (l !! i)) <$> perm.

(** Modelled from the spec: [Dataset.iterate_once], which lives in
    stable-baselines.  One pass reshuffles the whole dataset and yields
    floor(N/B) batches of consecutive rows of the shuffled order; the
    trailing partial batch is dropped. *)
Definition iterate_once (d : dataset) (batch_size : Z)
  : M (dataset * list (list sample)) :=
  w <- get ;;
  let '(perm, r) := np_random_shuffle (n_samples d) (np_random w) in
  modify (set_np_random r) ;;
  let d' := Dataset (reorder perm (rows d)) in
  ret (d', batches (Z.to_nat (Z.of_nat (n_samples d) / batch_size))
                   (Z.to_nat batch_size) (rows d')).

(** [Dataset({"obs": expert_demos.obs, "act": expert_demos.acts},
    shuffle=True)] *)
Definition new_dataset (expert_demos : list transition) : dataset :=
  Dataset ((fun tr => (tr_obs tr, tr_act tr)) <$> expert_demos).

End ExpertDataset.

(** ** [BCTrainer] *)

Section Trainer.
Context `{RT : Runtime}.

(** The attributes of a trainer object. *)
Record BCTrainer := Build_BCTrainer {
  self_env : gym_env;
  self_policy_class : policy_class;
  self_batch_size : Z;
  self_expert_dataset : option dataset;
  self_sess : session;
  self_policy_kwargs : policy_kwargs;
  self_policy : policy;
  self_policy_variables : list tf_var;
  self_train_op : train_op
}.

Definition with_expert_dataset (d : option dataset) (t : BCTrainer)
  : BCTrainer :=
  Build_BCTrainer (self_env t) (self_policy_class t) (self_batch_size t) d
    (self_sess t) (self_policy_kwargs t) (self_policy t)
    (self_policy_variables t) (self_train_op t).

(** [BCTrainer.set_expert_dataset] *)
Definition set_expert_dataset (t : BCTrainer) (expert_demos : list transition)
  : BCTrainer :=
  with_expert_dataset (Some (new_dataset expert_demos)) t.

(** [BCTrainer._build_tf_graph]: the keyword arguments, the policy, the
    policy's trainable variables and the training operation. *)
Definition _build_tf_graph (env : gym_env) (klass : policy_class)
    (sess : session)
  : M (policy_kwargs * policy * list tf_var * train_op) :=
  with_variable_scope "bc_supervised_loss" (
    built <- with_variable_scope "model" (
      let kwargs := PolicyKwargs (observation_space env) (action_space env)
                                 None 1 1000 in
      pol <- new_policy klass sess kwargs ;;
      inner_scope <- get_variable_scope ;;
      vars <- get_collection inner_scope ;;
      ret (kwargs, pol, vars)) ;;
    let '(kwargs, pol, vars) := built in
    (* FIXME in the source: the optimiser class and arguments given to the
       constructor are not used here. *)
    let opt := Optimizer AdamOptimizer ∅ in
    ret (kwargs, pol, vars, Minimize opt (pol_scope pol))).

(** Running one variable's initialiser in a session. *)
Definition run_initializer (sess : session)
    (acc : gmap (session * string) ndarray * rng) (v : tf_var)
  : gmap (session * string) ndarray * rng :=
  let '(a, r') := initial_value v acc.2 in
  (<[(sess, var_name v) := a]> acc.1, r').

(** [sess.run(tf.global_variables_initializer())]: every variable of the
    graph takes a fresh initial value and the optimiser's slots are reset. *)
Definition global_variables_initializer (sess : session) : M unit :=
  modify (fun w =>
    let '(vals, r) :=
      foldl (run_initializer sess) (var_values w, np_random w)
            (trainable_variables w) in
    set_adam_slots opt_init (set_np_random r (set_var_values vals w))).

Definition need_session_msg : string :=
  "need to construct this within a session scope".

(** [BCTrainer.__init__] *)
Definition BCTrainer_init (env : gym_env)
    (expert_demos : option (list transition))
    (policy_class : policy_class) (batch_size : Z)
    (optimiser_cls : optimizer_class) (optimiser_kwargs : option (gmap string Z))
    (name_scope : option string) (reuse : bool) : M BCTrainer :=
  let expert_dataset :=
    match expert_demos with
    | Some demos => Some (new_dataset demos)
    | None => None
    end in
  sess <- get_default_session ;;
  match sess with
  | None => raise (AssertionError need_session_msg)
  | Some sess =>
      built <- _build_tf_graph env policy_class sess ;;
      let '(kwargs, pol, vars, op) := built in
      global_variables_initializer sess ;;
      ret (Build_BCTrainer env policy_class batch_size expert_dataset sess
             kwargs pol vars op)
  end.

(** [sess.run([self._train_op, self._log_loss], feed_dict=...)]: one
    optimiser step on the batch; returns the batch loss. *)
Definition sess_run_train (t : BCTrainer) (batch : list sample) : M float :=
  params <- sess_run_read (self_sess t) (self_policy_variables t) ;;
  w <- get ;;
  let '(params', slots', loss) :=
    run_train_op (self_train_op t) (self_policy_class t)
                 (self_policy_kwargs t) batch params (adam_slots w) in
  modify (fun w =>
    set_steps_log (steps_log w ++ [batch])
      (set_adam_slots slots'
        (set_var_values
           (assign_all (self_sess t)
              (zip (self_policy_variables t) params') (var_values w)) w))) ;;
  ret loss.

(** The update of [loss_ewma] in the body of the batch loop. *)
Definition ewma_update (loss_ewma : option float) (loss : float)
  : option float :=
  match loss_ewma with
  | None => Some loss
  | Some e => Some (fadd (fmul f0_9 e) (fmul f0_1 loss))
  end.

(** The body of [for batch_dict in tq_iter]. *)
Definition train_batch (t : BCTrainer) (loss_ewma : option float)
    (batch : list sample) : M (option float) :=
  loss <- sess_run_train t batch ;;
  modify (fun w => set_progress_log (progress_log w ++ [BatchLoss loss]) w) ;;
  ret (ewma_update loss_ewma loss).

Fixpoint for_batches (t : BCTrainer) (batch_iter : list (list sample))
    (loss_ewma : option float) : M (option float) :=
  match batch_iter with
  | [] => ret loss_ewma
  | batch :: rest =>
      loss_ewma' <- train_batch t loss_ewma batch ;;
      for_batches t rest loss_ewma'
  end.

Definition none_n_samples_msg : string :=
  "'NoneType' object has no attribute 'n_samples'".

Definition format_none_msg : string := "must be real number, not NoneType".

(** [a // b] on Python integers. *)
Definition floordiv (a b : Z) : M Z :=
  if (b =? 0)%Z
  then raise (ZeroDivisionError "integer division or modulo by zero")
  else ret (a / b)%Z.

(** ["% 3.4f" % x]: formatting [None] raises [TypeError]. *)
Definition format_loss (x : option float) : M float :=
  match x with
  | Some e => ret e
  | None => raise (TypeError format_none_msg)
  end.

(** The observers given as [on_epoch_end]: they are handed the loop's
    locals; their calls are recorded in the world's [callback_log]. *)
Definition callback : Type := epoch_locals -> unit.

(** The body of [for epoch_num in epoch_iter]. *)
Definition train_epoch (on_epoch_end : option callback) (t : BCTrainer)
    (epoch_num : nat) : M BCTrainer :=
  d <- match self_expert_dataset t with
       | None => raise (AttributeError none_n_samples_msg)
       | Some d => ret d
       end ;;
  total_batches <- floordiv (Z.of_nat (n_samples d)) (self_batch_size t) ;;
  it <- iterate_once d (self_batch_size t) ;;
  let '(d', batch_iter) := it in
  loss_ewma <- for_batches t batch_iter None ;;
  e <- format_loss loss_ewma ;;
  modify (fun w =>
    set_progress_log (progress_log w ++ [EpochLossEwma e]) w) ;;
  match on_epoch_end with
  | Some _ =>
      modify (fun w =>
        set_callback_log
          (callback_log w ++ [EpochLocals epoch_num total_batches e]) w)
  | None => ret tt
  end ;;
  ret (with_expert_dataset (Some d') t).

Fixpoint for_epochs (on_epoch_end : option callback) (t : BCTrainer)
    (epoch_iter : list nat) : M BCTrainer :=
  match epoch_iter with
  | [] => ret t
  | epoch_num :: rest =>
      t' <- train_epoch on_epoch_end t epoch_num ;;
      for_epochs on_epoch_end t' rest
  end.

(** [BCTrainer.train]; returns the trainer as the call leaves it (its
    dataset has been reshuffled). *)
Definition train (t : BCTrainer) (n_epochs : Z)
    (on_epoch_end : option callback) : M BCTrainer :=
  for_epochs on_epoch_end t (seq 0 (Z.to_nat n_epochs)).

(** [os.makedirs(dirname, exist_ok=True)] for a non-empty [dirname] and
    [open(policy_path, "wb")]: the empty path cannot be opened; for any
    other path the operating system decides ([os_write_error]) whether the
    directories can be created and the file opened for writing. *)
Definition open_for_writing (policy_path : string) : M unit :=
  w <- get ;;
  if bool_decide (policy_path = "")
  then raise (FileNotFoundError policy_path)
  else match os_write_error (files w) policy_path with
       | Some e => raise e
       | None => ret tt
       end.

(** [BCTrainer.save_policy] *)
Definition save_policy (t : BCTrainer) (policy_path : string) : M unit :=
  policy_params <- sess_run_read (self_sess t) (self_policy_variables t) ;;
  let data := Pickle (self_policy_class t) (self_policy_kwargs t)
                     policy_params in
  open_for_writing policy_path ;;
  modify (fun w => set_files (<[policy_path := data]> (files w)) w).

Definition supply_session_msg : string :=
  "must supply session via kwarg or context mgr".

(** [BCTrainer.reconstruct_policy] *)
Definition reconstruct_policy (policy_path : string) (sess : option session)
  : M policy :=
  sess <- match sess with
          | Some s => ret s
          | None =>
              d <- get_default_session ;;
              match d with
              | Some s => ret s
              | None => raise (AssertionError supply_session_msg)
              end
          end ;;
  w <- get ;;
  loaded_pickle <- match files w !! policy_path with
                   | Some p => ret p
                   | None => raise (FileNotFoundError policy_path)
                   end ;;
  let klass := pk_class loaded_pickle in
  let kwargs := pk_kwargs loaded_pickle in
  built <- with_variable_scope "reconstructed_policy" (
    rv_pol <- new_policy klass sess kwargs ;;
    inner_scope <- get_variable_scope ;;
    ret (rv_pol, inner_scope)) ;;
  let '(rv_pol, inner_scope) := built in
  let param_values := pk_params loaded_pickle in
  set_tf_vars param_values (Some inner_scope) None (Some sess) ;;
  ret rv_pol.

End Trainer.

(** ** Notions the statements use *)

Section Notions.
Context `{RT : Runtime}.

(** The destination variables of a [set_tf_vars] call that gives exactly one
    of [scope] and [tf_vars]. *)
Definition destination (scope : option string)
    (tf_vars : option (list tf_var)) (w : world) : option (list tf_var) :=
  match scope, tf_vars with
  | Some s, None =>
      Some (List.filter (fun v => scope_matches s (var_name v))
                        (trainable_variables w))
  | None, Some vs => Some vs
  | _, _ => None
  end.

(** The session a call runs in: the one supplied, else the default one. *)
Definition session_for (sess : option session) (w : world) : option session :=
  match sess with
  | Some s => Some s
  | None => default_session w
  end.

(** The key under which a session stores a variable's value. *)
Definition slot (s : session) (v : tf_var) : session * string :=
  (s, var_name v).

(** Every policy variable of the trainer has a value in the trainer's
    session (they have been initialised). *)
Definition vars_initialised (t : BCTrainer) (w : world) : Prop :=
  Forall (fun v => is_Some (var_values w !! slot (self_sess t) v))
         (self_policy_variables t).

(** The variable a policy constructor creates in [scope] for one of its
    declared parameters. *)
Definition in_scope (scope : string) (decl : tf_var) : tf_var :=
  TfVar (scope_join scope (var_name decl)) (var_shape decl) (var_dtype decl).

(** No trainable variable of the graph is matched by [scope]. *)
Definition scope_unused (scope : string) (w : world) : Prop :=
  Forall (fun v => scope_matches scope (var_name v) = false)
         (trainable_variables w).

(** The scope [reconstruct_policy] builds the policy in, seen from the
    world in which it is called. *)
Definition reconstructed_scope (w : world) : string :=
  scope_join (variable_scope w) "reconstructed_policy".

(** The trainer's policy variables are, one for one, shape for shape and
    element type for element type, the parameters its policy class
    declares for its keyword arguments, and these have distinct names. *)
Definition policy_variables_declared (t : BCTrainer) : Prop :=
  Forall2 (fun v d => var_shape v = var_shape d /\ var_dtype v = var_dtype d)
          (self_policy_variables t)
          (param_decls (self_policy_class t) (self_policy_kwargs t)) /\
  NoDup (var_name <$> param_decls (self_policy_class t) (self_policy_kwargs t)).

(** Every policy variable of the trainer holds, in the trainer's session,
    an array of the variable's shape. *)
Definition values_well_shaped (t : BCTrainer) (w : world) : Prop :=
  Forall (fun v => shape <$> var_values w !! slot (self_sess t) v
                   = Some (var_shape v))
         (self_policy_variables t).

(** Every policy variable of the trainer holds, in the trainer's session,
    an array of the variable's element type. *)
Definition values_well_typed (t : BCTrainer) (w : world) : Prop :=
  Forall (fun v => dtype <$> var_values w !! slot (self_sess t) v
                   = Some (var_dtype v))
         (self_policy_variables t).

(** The file system lets [path] be written: the path is not empty, its
    directories can be created and the file opened for writing. *)
Definition path_writable (path : string) (w : world) : Prop :=
  path <> "" /\ os_write_error (files w) path = None.

(** The recurrence of the moving average as the specification words it:
    new_ewma = 0.9 * old_ewma + 0.1 * new_loss. *)
Definition ewma_step (old_ewma new_loss : float) : float :=
  fadd (fmul f0_9 old_ewma) (fmul f0_1 new_loss).

(** The moving average of the losses [l1 .. lk]: the recurrence folded over
    [l2 .. lk] starting from [l1]; there is none for no loss at all. *)
Definition ewma_of_losses (losses : list float) : option float :=
  match losses with
  | [] => None
  | l1 :: rest => Some (foldl ewma_step l1 rest)
  end.

(** Two worlds with the same graph, variable scope, default session and
    files. *)
Definition same_graph (w w' : world) : Prop :=
  trainable_variables w' = trainable_variables w /\
  variable_scope w' = variable_scope w /\
  default_session w' = default_session w /\
  files w' = files w.

(** In every session, every value other than those of the variables [vars]
    in session [s] is the same in [w'] as in [w]. *)
Definition values_agree_outside (s : session) (vars : list tf_var)
    (w w' : world) : Prop :=
  forall k : session * string,
    k ∉ slot s <$> vars -> var_values w' !! k = var_values w !! k.

(** What training may change: nothing of the graph, the scope, the default
    session or the files, and no value other than those of the variables
    [vars] in session [s]. *)
Definition training_frame (s : session) (vars : list tf_var) (w w' : world)
  : Prop :=
  same_graph w w' /\ values_agree_outside s vars w w'.

(** The entries the callback log gains when the epochs numbered [epochs]
    end with the moving averages [ewmas]: one per epoch if there is a
    callback, none otherwise. *)
Definition callback_entries (cb : option callback) (total_batches : Z)
    (epochs : list nat) (ewmas : list float) : list epoch_locals :=
  match cb with
  | Some _ =>
      zip_with (fun n e => EpochLocals n total_batches e) epochs ewmas
  | None => []
  end.

End Notions.

(** ** A small concrete instance

    A runtime on which the model runs: exact rationals for the floating-point
    scalars, a counter for the random state, a shuffle that reverses the
    rows, an optimiser step that adds one to every parameter entry, a
    conversion that halves an entry when it narrows to a 32-bit element
    type, a session that reports the last of the uninitialised variables,
    and a file system in which only the root directory cannot be written.
    The policy is a network with one hidden layer of four units for two
    observation dimensions and two discrete actions. *)

Module Demo.

#[export] Instance runtime : Runtime := {|
  float := QArith_base.Q;
  fmul := QArith_base.Qmult;
  fadd := QArith_base.Qplus;
  f0_9 := QArith_base.Qmake 9 10;
  f0_1 := QArith_base.Qmake 1 10;
  rng := nat;
  np_random_shuffle := fun n r => (rev (seq 0 n), S r);
  initial_value := fun v r =>
    (NdArray (var_shape v)
             (replicate (foldr Nat.mul 1 (var_shape v)) (Z.of_nat r))
             (var_dtype v), S r);
  opt_state := nat;
  opt_init := 0;
  run_train_op := fun _ _ _ batch params slots =>
    ((fun a => NdArray (shape a) (Z.succ <$> data a) (dtype a)) <$> params,
     S slots,
     QArith_base.Qmake (Z.of_nat (length batch + slots)) 1);
  np_cast := fun from to l =>
    match to with
    | float32 | int32 => Z.div2 <$> l
    | float64 | int64 => l
    end;
  tf_reported := fun names => length names - 1;
  os_write_error := fun _ path =>
    if String.eqb path "/" then Some (OSError "[Errno 21] Is a directory: '/'")
    else None
|}.

Definition mlp : policy_class :=
  PolicyClass "MlpPolicy" (fun kw =>
    [ TfVar "model/pi_fc0/w" [foldr Nat.mul 1 (ob_space kw); 4] float32;
      TfVar "model/pi_fc0/b" [4] float32;
      TfVar "model/pi/w" [4; ac_space kw] float32;
      TfVar "model/pi/b" [ac_space kw] float32 ]).

Definition env : gym_env := GymEnv [2] 2.

(** A fresh graph with session [0] as the default session. *)
Definition world0 : world :=
  World [] "" (Some 0) ∅ ∅ 0 0 [] [] [] false.

(** The same graph with no default session. *)
Definition world_no_session : world :=
  World [] "" None ∅ ∅ 0 0 [] [] [] false.

(** [n] expert transitions. *)
Definition demos (n : nat) : list transition :=
  (fun i => Transition [Z.of_nat i; 0%Z] (Z.of_nat (i mod 2)) [0%Z; 0%Z] 0%Z)
    <$> seq 0 n.

(** What a run returned, if it did not raise. *)
Definition outcome {A} (r : (exn + A) * world) : option A :=
  match r.1 with inr a => Some a | inl _ => None end.

(** What a run raised, if it did. *)
Definition raised {A} (r : (exn + A) * world) : option exn :=
  match r.1 with inl e => Some e | inr _ => None end.

(** [BCTrainer(env, expert_demos=demos(n), policy_class=mlp,
    batch_size=b)] in the fresh graph. *)
Definition init_run (n : nat) (b : Z) : (exn + BCTrainer) * world :=
  BCTrainer_init env (Some (demos n)) mlp b AdamOptimizer None None false
                 world0.

Definition kwargs : policy_kwargs := PolicyKwargs [2] 2 None 1 1000.

Definition trainer_scope : string := "bc_supervised_loss/model".

(** The trainer [init_run n b] returns, and the world it leaves. *)
Definition trainer (n : nat) (b : Z) : BCTrainer :=
  let vars := (fun d => TfVar (scope_join trainer_scope (var_name d))
                              (var_shape d) (var_dtype d)) <$> param_decls mlp kwargs in
  Build_BCTrainer env mlp b (Some (new_dataset (demos n))) 0 kwargs
    (Policy mlp 0 kwargs trainer_scope vars) vars
    (Minimize (Optimizer AdamOptimizer ∅) trainer_scope).

Definition world1 (n : nat) (b : Z) : world := (init_run n b).2.

(** The trainer and the world after [trainer.train(n_epochs=1)] on four
    samples in batches of two. *)
Definition trained_run : (exn + BCTrainer) * world :=
  train (trainer 4 2) 1 None (world1 4 2).

Definition trained : BCTrainer := default (trainer 4 2) (outcome trained_run).

Definition trained_world : world := trained_run.2.

(** The trainer constructed with [expert_demos=None]. *)
Definition trainer_no_demos (b : Z) : BCTrainer :=
  let t := trainer 0 b in
  Build_BCTrainer (self_env t) (self_policy_class t) (self_batch_size t) None
    (self_sess t) (self_policy_kwargs t) (self_policy t)
    (self_policy_variables t) (self_train_op t).

(** The world after [trainer.save_policy("policy.pkl")]. *)
Definition saved_world : world :=
  (save_policy (trainer 4 2) "policy.pkl" (world1 4 2)).2.

(** The record that call writes. *)
Definition saved_record : pickle :=
  Pickle mlp kwargs [NdArray [2; 4] (replicate 8 0%Z) float32;
                     NdArray [4] (replicate 4 1%Z) float32;
                     NdArray [4; 2] (replicate 8 2%Z) float32;
                     NdArray [2] (replicate 2 3%Z) float32].

(** A file whose record lists three arrays for the four parameters of
    [mlp]. *)
Definition short_record : pickle :=
  Pickle mlp kwargs [NdArray [2; 4] (replicate 8 0%Z) float32;
                     NdArray [4] (replicate 4 0%Z) float32;
                     NdArray [4; 2] (replicate 8 0%Z) float32].

Definition world_short_record : world :=
  World [] "" (Some 0) ∅ {[ "short.pkl" := short_record ]} 0 0 [] [] []
        false.

(** Two variables and arrays for them. *)
Definition var_w : tf_var := TfVar "pi/w" [2; 2] float32.
Definition var_b : tf_var := TfVar "pi/b" [2] float32.
Definition arr_w : ndarray := NdArray [2; 2] [1%Z; 2%Z; 3%Z; 4%Z] float32.
Definition arr_b : ndarray := NdArray [2] [5%Z; 6%Z] float32.

(** The first [reconstruct_policy("policy.pkl")] after the save, and the
    policy it returns. *)
Definition first_reconstruction : (exn + policy) * world :=
  reconstruct_policy "policy.pkl" None saved_world.

Definition reconstructed : policy :=
  Policy mlp 0 kwargs "reconstructed_policy"
         (in_scope "reconstructed_policy" <$> param_decls mlp kwargs).

(** A graph that already holds a variable, with a value in session [0]. *)
Definition var_other : tf_var := TfVar "other/w" [2] float32.

Definition world_other : world :=
  World [var_other] "" (Some 0) {[ (0, "other/w") := arr_b ]} ∅ 0 0 [] [] []
        false.

(** The world the constructor leaves when called in [world_other]. *)
Definition world_other_init : world :=
  (BCTrainer_init env (Some (demos 4)) mlp 2 AdamOptimizer None None false
                  world_other).2.

(** A callback. *)
Definition observer : callback := fun _ => tt.

(** The first parameter [mlp] declares, and the others. *)
Definition mlp_first : tf_var := TfVar "model/pi_fc0/w" [2; 4] float32.

Definition mlp_rest : list tf_var :=
  [TfVar "model/pi_fc0/b" [4] float32; TfVar "model/pi/w" [4; 2] float32;
   TfVar "model/pi/b" [2] float32].

(** An array of the shape of [var_w] with 64-bit entries, and a second
    array of the shape of [var_b]. *)
Definition arr_w64 : ndarray := NdArray [2; 2] [1%Z; 2%Z; 3%Z; 4%Z] float64.
Definition arr_b2 : ndarray := NdArray [2] [7%Z; 8%Z] float32.

(** A graph that holds [var_w] and [var_b], with session [0] as the
    default session. *)
Definition world_pi : world :=
  World [var_w; var_b] "" (Some 0) ∅ ∅ 0 0 [] [] [] false.

(** A graph that holds a variable whose name begins with the name of the
    scope in which a trainer builds its policy, the constructor call in
    that graph, and the trainer it returns. *)
Definition var_aux : tf_var :=
  TfVar "bc_supervised_loss/model_aux/w" [2] float32.

Definition world_aux : world :=
  World [var_aux] "" (Some 0) ∅ ∅ 0 0 [] [] [] false.

Definition init_run_aux : (exn + BCTrainer) * world :=
  BCTrainer_init env (Some (demos 4)) mlp 2 AdamOptimizer None None false
                 world_aux.

Definition trainer_aux : BCTrainer :=
  let t := trainer 4 2 in
  Build_BCTrainer (self_env t) (self_policy_class t) (self_batch_size t)
    (self_expert_dataset t) (self_sess t) (self_policy_kwargs t)
    (self_policy t) (var_aux :: self_policy_variables t) (self_train_op t).

(** A graph that holds a variable whose name begins with the name of the
    reconstruction scope, with a value in session [0], and a file whose
    record lists five arrays for the four parameters of [mlp]. *)
Definition var_old : tf_var := TfVar "reconstructed_policy_old/w" [2] float32.

Definition long_record : pickle :=
  Pickle mlp kwargs [arr_b2;
                     NdArray [2; 4] (replicate 8 0%Z) float32;
                     NdArray [4] (replicate 4 1%Z) float32;
                     NdArray [4; 2] (replicate 8 2%Z) float32;
                     NdArray [2] (replicate 2 3%Z) float32].

Definition world_old : world :=
  World [var_old] "" (Some 0) {[ (0, "reconstructed_policy_old/w") := arr_b ]}
        {[ "long.pkl" := long_record ]} 0 0 [] [] [] false.

End Demo.

(** * Properties *)

Section MonadFacts.
Context `{RT : Runtime}.

Lemma bind_inr {A B} (m : M A) (k : A -> M B) w a w' :
  m w = (inr a, w') -> bind m k w = k a w'.
Proof. intros E. unfold bind. now rewrite E. Qed.

Lemma bind_inl {A B} (m : M A) (k : A -> M B) w e w' :
  m w = (inl e, w') -> bind m k w = (inl e, w').
Proof. intros E. unfold bind. now rewrite E. Qed.

Lemma assert_true msg w : assert true msg w = (inr tt, w).
Proof. reflexivity. Qed.

Lemma assert_false msg w : assert false msg w = (inl (AssertionError msg), w).
Proof. reflexivity. Qed.

End MonadFacts.

Section SetTfVarsFacts.
Context `{RT : Runtime}.

Lemma assign_all_cons (s : session) (v : tf_var) (a : ndarray)
    (prs : list (tf_var * ndarray)) (m : gmap (session * string) ndarray) :
  assign_all s ((v, a) :: prs) m
  = assign_all s prs (<[slot s v := astype (var_dtype v) a]> m).
Proof. reflexivity. Qed.

Lemma astype_same (dt : np_dtype) (a : ndarray) :
  dtype a = dt -> astype dt a = a.
Proof. intros Heq. unfold astype. now rewrite decide_True. Qed.

Lemma astype_shape (dt : np_dtype) (a : ndarray) :
  shape (astype dt a) = shape a.
Proof. unfold astype. now destruct (decide _). Qed.

Lemma astype_dtype (dt : np_dtype) (a : ndarray) :
  dtype (astype dt a) = dt.
Proof. unfold astype. now destruct (decide _). Qed.

Lemma assign_all_other (s : session) (prs : list (tf_var * ndarray))
    (m : gmap (session * string) ndarray) (k : session * string) :
  k ∉ (slot s <$> prs.*1) -> assign_all s prs m !! k = m !! k.
Proof.
  revert m. induction prs as [|[v a] prs IH]; intros m Hk; [done|].
  rewrite !fmap_cons in Hk. apply not_elem_of_cons in Hk as [Hne Hk].
  rewrite assign_all_cons, IH by done. now apply lookup_insert_ne.
Qed.

Lemma assign_all_lookup (s : session) (prs : list (tf_var * ndarray))
    (m : gmap (session * string) ndarray) (i : nat) (v : tf_var)
    (a : ndarray) :
  NoDup (var_name <$> prs.*1) ->
  prs !! i = Some (v, a) ->
  assign_all s prs m !! slot s v = Some (astype (var_dtype v) a).
Proof.
  revert m i. induction prs as [|[v0 a0] prs IH]; intros m i Hnd Hi; [done|].
  rewrite !fmap_cons in Hnd. apply NoDup_cons in Hnd as [Hnotin Hnd].
  rewrite assign_all_cons.
  destruct i as [|i]; cbn in Hi.
  - inversion Hi; subst.
    rewrite assign_all_other; [apply lookup_insert_eq|].
    intros Hin. apply Hnotin.
    apply list_elem_of_fmap in Hin as (v' & Heq & Hin).
    apply list_elem_of_fmap. exists v'. split; [|done].
    unfold slot in Heq. cbn. congruence.
  - eapply IH; eauto.
Qed.

Lemma shapes_checked (vars : list tf_var) (values : list ndarray) :
  Forall2 (fun v a => shape a = var_shape v) vars values ->
  forallb (fun '(v, a) => bool_decide (shape a = var_shape v))
          (zip vars values) = true.
Proof.
  induction 1 as [|v a vars values Hva _ IH]; [done|].
  cbn. rewrite IH. now rewrite bool_decide_eq_true_2.
Qed.

(** The common prefix of every [set_tf_vars] run whose destination resolves:
    the two [assert]s on the keyword arguments pass. *)
Lemma set_tf_vars_resolved values scope tf_vars sess w dest :
  destination scope tf_vars w = Some dest ->
  set_tf_vars values scope tf_vars sess w =
    (assert (bool_decide (length dest = length values))
            (count_msg (length dest) (length values)) ;;
     sess <- match sess with
             | Some s => ret (Some s)
             | None => get_default_session
             end ;;
     match sess with
     | None => raise (AssertionError no_session_msg)
     | Some s => sess_run_assign s dest values
     end) w.
Proof.
  unfold destination, set_tf_vars.
  destruct scope as [s|], tf_vars as [vs|]; intros Hd; inversion Hd; subst;
    reflexivity.
Qed.

(** The single [sess.run] of [set_tf_vars], in a graph that holds
    operations or for at least one variable, fed arrays of the variables'
    shapes. *)
Lemma sess_run_assign_run (s : session) (dest : list tf_var)
    (values : list ndarray) (w : world) :
  (dest = [] -> graph_is_empty w = false) ->
  Forall2 (fun v a => shape a = var_shape v) dest values ->
  sess_run_assign s dest values w =
    (inr tt,
     set_var_values (assign_all s (zip dest values) (var_values w)) w).
Proof.
  intros Hgraph Hsh. unfold sess_run_assign, bind at 1, get.
  assert (bool_decide (dest = []) && graph_is_empty w = false) as ->.
  { destruct dest as [|v dest]; [|reflexivity].
    rewrite bool_decide_eq_true_2 by done. cbn. now apply Hgraph. }
  now rewrite (shapes_checked _ _ Hsh).
Qed.

(** The same run for no variable in a graph without operations. *)
Lemma sess_run_assign_empty (s : session) (values : list ndarray) (w : world) :
  graph_is_empty w = true ->
  sess_run_assign s [] values w = (inl (RuntimeError empty_graph_msg), w).
Proof.
  intros Hempty. unfold sess_run_assign, bind at 1, get.
  now rewrite Hempty.
Qed.

Lemma resolve_default_session (sess : option session) (w : world) :
  (match sess with
   | Some s0 => ret (Some s0)
   | None => get_default_session
   end) w = (inr (session_for sess w), w).
Proof. now destruct sess. Qed.

Lemma set_tf_vars_mismatch_run (values : list ndarray) (scope : option string)
    (tf_vars : option (list tf_var)) (sess : option session) (w : world)
    (dest : list tf_var) :
  destination scope tf_vars w = Some dest ->
  length dest ≠ length values ->
  set_tf_vars values scope tf_vars sess w =
    (inl (AssertionError (count_msg (length dest) (length values))), w).
Proof.
  intros Hd Hne. rewrite (set_tf_vars_resolved _ _ _ _ _ _ Hd).
  unfold bind. now rewrite bool_decide_eq_false_2.
Qed.

End SetTfVarsFacts.

Section SetTfVarsClaims.
Context `{RT : Runtime}.

(** C8.  Whenever the number of supplied value arrays differs from the number
    of destination variables, [set_tf_vars] raises on the count assertion
    (the spec's ShapeMismatchError), whatever the arrays contain and whether
    or not a session is available, and leaves the world, hence every
    variable, as it was. *)
Theorem set_tf_vars_count_mismatch (values : list ndarray)
    (scope : option string) (tf_vars : option (list tf_var))
    (sess : option session) (w : world) (dest : list tf_var) :
  destination scope tf_vars w = Some dest ->
  length dest ≠ length values ->
  set_tf_vars values scope tf_vars sess w =
    (inl (AssertionError (count_msg (length dest) (length values))), w).
Proof.
  intros Hd Hne. now apply set_tf_vars_mismatch_run.
Qed.

(** The effect of a successful [set_tf_vars]: with a session at hand, as
    many arrays as destination variables, every array of its variable's
    shape, pairwise distinct destination variables, and a graph that holds
    operations when there is no variable to assign, the call returns,
    variable [i] holds array [i] in the variable's element type, every
    other variable of every session keeps its value, and nothing else in
    the world changes. *)
Lemma set_tf_vars_effect (values : list ndarray) (scope : option string)
    (tf_vars : option (list tf_var)) (sess : option session) (w : world)
    (dest : list tf_var) (s : session) :
  destination scope tf_vars w = Some dest ->
  session_for sess w = Some s ->
  (dest = [] -> graph_is_empty w = false) ->
  Forall2 (fun v a => shape a = var_shape v) dest values ->
  NoDup (var_name <$> dest) ->
  exists w',
    set_tf_vars values scope tf_vars sess w = (inr tt, w') /\
    (forall i v a, dest !! i = Some v -> values !! i = Some a ->
                   var_values w' !! slot s v = Some (astype (var_dtype v) a)) /\
    (forall k, k ∉ slot s <$> dest -> var_values w' !! k = var_values w !! k) /\
    w' = set_var_values (var_values w') w.
Proof.
  intros Hd Hs Hgraph Hsh Hnd.
  pose proof (Forall2_length _ _ _ Hsh) as Hlen.
  exists (set_var_values (assign_all s (zip dest values) (var_values w)) w).
  assert (Hfst : (zip dest values).*1 = dest) by (apply fst_zip; lia).
  split; [|split; [|split]].
  - rewrite (set_tf_vars_resolved _ _ _ _ _ _ Hd).
    unfold bind. rewrite bool_decide_eq_true_2 by done. cbn.
    rewrite resolve_default_session, Hs.
    now apply sess_run_assign_run.
  - intros i v a Hv Ha. cbn.
    apply (assign_all_lookup s (zip dest values) _ i); [now rewrite Hfst|].
    apply lookup_zip_with_Some. eauto.
  - intros k Hk. cbn. apply assign_all_other. now rewrite Hfst.
  - reflexivity.
Qed.

(** C2 (amended).  [set_tf_vars] called with N arrays for N pairwise
    distinct destination variables (given by scope or by list), each array
    of the shape and of the element type of its variable, with a session
    supplied or in context, and in a graph that is not empty when N = 0,
    succeeds; afterwards variable [i] holds exactly array [i] and no other
    variable is modified. *)
Theorem set_tf_vars_assigns (values : list ndarray) (scope : option string)
    (tf_vars : option (list tf_var)) (sess : option session) (w : world)
    (dest : list tf_var) (s : session) :
  destination scope tf_vars w = Some dest ->
  length dest = length values ->
  session_for sess w = Some s ->
  Forall2 (fun v a => shape a = var_shape v) dest values ->
  Forall2 (fun v a => dtype a = var_dtype v) dest values ->
  NoDup (var_name <$> dest) ->
  (dest = [] -> graph_is_empty w = false) ->
  exists w',
    set_tf_vars values scope tf_vars sess w = (inr tt, w') /\
    (forall i v a, dest !! i = Some v -> values !! i = Some a ->
                   var_values w' !! slot s v = Some a) /\
    (forall k, k ∉ slot s <$> dest -> var_values w' !! k = var_values w !! k).
Proof.
  intros Hd _ Hs Hsh Hty Hnd Hgraph.
  destruct (set_tf_vars_effect values scope tf_vars sess w dest s)
    as (w' & Hrun & Hset & Hother & _); eauto.
  exists w'. split; [exact Hrun|]. split; [|exact Hother].
  intros i v a Hv Ha. rewrite (Hset i v a Hv Ha). f_equal.
  apply astype_same. exact (Forall2_lookup_lr _ _ _ _ _ _ Hty Hv Ha).
Qed.

End SetTfVarsClaims.

(** ** The dataset iterator *)

Section DatasetFacts.
Context `{RT : Runtime}.

Lemma batches_length {A} (count size : nat) (l : list A) :
  length (batches count size l) = count.
Proof.
  revert l. induction count as [|c IH]; intros l; cbn; [done|].
  now rewrite IH.
Qed.

Lemma batches_sizes {A} (count size : nat) (l : list A) :
  count * size <= length l ->
  Forall (fun b => length b = size) (batches count size l).
Proof.
  revert l. induction count as [|c IH]; intros l Hle; cbn; [constructor|].
  constructor.
  - rewrite length_take. lia.
  - apply IH. rewrite length_drop. lia.
Qed.

Lemma full_batches_fit (n : nat) (b : Z) :
  (0 < b)%Z -> Z.to_nat (Z.of_nat n / b) * Z.to_nat b <= n.
Proof.
  intros Hb.
  assert (0 <= Z.of_nat n / b)%Z by (apply Z.div_pos; lia).
  assert (b * (Z.of_nat n / b) <= Z.of_nat n)%Z by (apply Z.mul_div_le; lia).
  nia.
Qed.

Lemma iterate_once_run (d : dataset) (b : Z) (w : world) :
  iterate_once d b w =
    (inr (Dataset (reorder (np_random_shuffle (n_samples d) (np_random w)).1
                           (rows d)),
          batches (Z.to_nat (Z.of_nat (n_samples d) / b)) (Z.to_nat b)
            (reorder (np_random_shuffle (n_samples d) (np_random w)).1
                     (rows d))),
     set_np_random (np_random_shuffle (n_samples d) (np_random w)).2 w).
Proof.
  unfold iterate_once, bind, get.
  now destruct (np_random_shuffle (n_samples d) (np_random w)) as [perm r].
Qed.

Lemma reorder_n_samples `{!RuntimeLaws RT} (d : dataset) (r : rng) :
  length (reorder (np_random_shuffle (n_samples d) r).1 (rows d)) = n_samples d.
Proof.
  unfold reorder. rewrite length_fmap.
  rewrite (Permutation_length (np_random_shuffle_perm (n_samples d) r)).
  apply length_seq.
Qed.

End DatasetFacts.

(** ** The training loop *)

Section TrainFacts.
Context `{RT : Runtime}.

Lemma assign_all_is_Some (s : session) (prs : list (tf_var * ndarray))
    (m : gmap (session * string) ndarray) (k : session * string) :
  is_Some (m !! k) -> is_Some (assign_all s prs m !! k).
Proof.
  revert m. induction prs as [|[v a] prs IH]; intros m Hk; [done|].
  rewrite assign_all_cons. apply IH.
  rewrite lookup_insert. now case_decide.
Qed.

Lemma mapM_cons {A B} (f : A -> M B) (x : A) (l : list A) :
  mapM f (x :: l) = (y <- f x ;; ys <- mapM f l ;; ret (y :: ys)).
Proof. reflexivity. Qed.

Lemma read_variable_run (s : session) (v : tf_var) (a : ndarray) (w : world) :
  var_values w !! slot s v = Some a -> read_variable s v w = (inr a, w).
Proof.
  intros Ha. unfold read_variable, bind, get. unfold slot in Ha.
  now rewrite Ha.
Qed.

Lemma uninitialised_nil (s : session) (vars : list tf_var) (w : world) :
  Forall (fun v => is_Some (var_values w !! slot s v)) vars ->
  uninitialised s vars w = [].
Proof.
  induction 1 as [|v vars [a Ha] _ IH]; [reflexivity|].
  unfold uninitialised in *. cbn. unfold slot in Ha. rewrite Ha.
  rewrite bool_decide_eq_false_2 by discriminate. exact IH.
Qed.

(** With every variable initialised, the run reads them in order. *)
Lemma sess_run_read_initialised (s : session) (vars : list tf_var)
    (w : world) :
  Forall (fun v => is_Some (var_values w !! slot s v)) vars ->
  sess_run_read s vars w = mapM (read_variable s) vars w.
Proof.
  intros Hinit. unfold sess_run_read, bind at 1, get.
  now rewrite (uninitialised_nil _ _ _ Hinit).
Qed.

Lemma sess_run_read_run (s : session) (vars : list tf_var) (w : world) :
  Forall (fun v => is_Some (var_values w !! slot s v)) vars ->
  exists vals,
    sess_run_read s vars w = (inr vals, w) /\
    Forall2 (fun v a => var_values w !! slot s v = Some a) vars vals.
Proof.
  intros Hinit. rewrite (sess_run_read_initialised _ _ _ Hinit).
  induction Hinit as [|v vars [a Ha] _ (vals & Hrun & Hvals)].
  - exists []. split; [reflexivity|constructor].
  - exists (a :: vals). split; [|now constructor].
    rewrite mapM_cons.
    rewrite (bind_inr _ _ _ _ _ (read_variable_run _ _ _ _ Ha)).
    now rewrite (bind_inr _ _ _ _ _ Hrun).
Qed.

Lemma sess_run_train_run (t : BCTrainer) (batch : list sample) (w : world) :
  vars_initialised t w ->
  exists loss w',
    sess_run_train t batch w = (inr loss, w') /\
    steps_log w' = steps_log w ++ [batch] /\
    progress_log w' = progress_log w /\
    callback_log w' = callback_log w /\
    np_random w' = np_random w /\
    vars_initialised t w'.
Proof.
  intros Hinit.
  destruct (sess_run_read_run _ _ _ Hinit) as (params & Hread & _).
  unfold sess_run_train.
  rewrite (bind_inr _ _ _ _ _ Hread). unfold bind at 1, get.
  destruct (run_train_op _ _ _ batch params (adam_slots w))
    as [[params' slots'] loss].
  eexists loss, _. split; [reflexivity|]. cbn.
  repeat split.
  unfold vars_initialised in *. cbn.
  eapply Forall_impl; [exact Hinit|]. intros v Hv.
  now apply assign_all_is_Some.
Qed.

Lemma foldl_ewma_update_Some (e : float) (losses : list float) :
  foldl ewma_update (Some e) losses = Some (foldl ewma_step e losses).
Proof.
  revert e. induction losses as [|l ls IH]; intros e; [done|].
  cbn. apply IH.
Qed.

Lemma foldl_ewma_update_None (losses : list float) :
  foldl ewma_update None losses = ewma_of_losses losses.
Proof.
  destruct losses as [|l ls]; [done|]. cbn. apply foldl_ewma_update_Some.
Qed.

(** The batch loop runs to completion on any list of batches: one optimiser
    step and one progress report per batch, and the moving average is the
    fold of [ewma_update] over the losses the steps returned. *)
Lemma for_batches_run (t : BCTrainer) (bs : list (list sample))
    (e0 : option float) (w : world) :
  vars_initialised t w ->
  exists losses w',
    for_batches t bs e0 w = (inr (foldl ewma_update e0 losses), w') /\
    length losses = length bs /\
    steps_log w' = steps_log w ++ bs /\
    progress_log w' = progress_log w ++ (BatchLoss <$> losses) /\
    callback_log w' = callback_log w /\
    np_random w' = np_random w /\
    vars_initialised t w'.
Proof.
  revert e0 w. induction bs as [|b bs IH]; intros e0 w Hinit.
  - exists [], w. cbn. rewrite !app_nil_r. now repeat split.
  - destruct (sess_run_train_run t b w Hinit)
      as (loss & w1 & Hstep & Hsteps1 & Hprog1 & Hcb1 & Hrng1 & Hinit1).
    assert (Hinit1' : vars_initialised t
              (set_progress_log (progress_log w1 ++ [BatchLoss loss]) w1))
      by exact Hinit1.
    destruct (IH (ewma_update e0 loss) _ Hinit1')
      as (losses & w' & Hrun & Hlen & Hsteps & Hprog & Hcb & Hrng & Hinit').
    exists (loss :: losses), w'.
    split; [|split; [|split; [|split; [|split; [|split]]]]].
    + cbn. unfold bind at 1. unfold train_batch.
      rewrite (bind_inr _ _ _ _ _ Hstep). cbn. exact Hrun.
    + cbn. now rewrite Hlen.
    + rewrite Hsteps. cbn. rewrite Hsteps1. now rewrite <- app_assoc.
    + rewrite Hprog. cbn. rewrite Hprog1. now rewrite <- app_assoc.
    + rewrite Hcb. cbn. exact Hcb1.
    + rewrite Hrng. cbn. exact Hrng1.
    + exact Hinit'.
Qed.

End TrainFacts.

Section EpochFacts.
Context `{RT : Runtime} `{!RuntimeLaws RT}.

(** One epoch on a dataset of at least one full batch. *)
Lemma train_epoch_run (cb : option callback) (t : BCTrainer) (d : dataset)
    (n : nat) (w : world) :
  self_expert_dataset t = Some d ->
  (0 < self_batch_size t <= Z.of_nat (n_samples d))%Z ->
  vars_initialised t w ->
  exists d' l1 ls steps w',
    train_epoch cb t n w = (inr (with_expert_dataset (Some d') t), w') /\
    n_samples d' = n_samples d /\
    steps_log w' = steps_log w ++ steps /\
    length steps = Z.to_nat (Z.of_nat (n_samples d) / self_batch_size t) /\
    Forall (fun b => length b = Z.to_nat (self_batch_size t)) steps /\
    length (l1 :: ls) = length steps /\
    progress_log w' =
      progress_log w ++ (BatchLoss <$> l1 :: ls) ++
        [EpochLossEwma (foldl ewma_step l1 ls)] /\
    vars_initialised t w'.
Proof.
  intros Hd [Hpos Hle] Hinit.
  set (B := self_batch_size t) in *. set (N := n_samples d) in *.
  set (r := np_random_shuffle N (np_random w)).
  set (rows' := reorder r.1 (rows d)).
  set (bs := batches (Z.to_nat (Z.of_nat N / B)) (Z.to_nat B) rows').
  assert (Hrows : length rows' = N) by apply reorder_n_samples.
  assert (Hcount : length bs = Z.to_nat (Z.of_nat N / B))
    by apply batches_length.
  assert (Hsizes : Forall (fun b => length b = Z.to_nat B) bs).
  { apply batches_sizes. rewrite Hrows. now apply full_batches_fit. }
  assert (Hinit1 : vars_initialised t (set_np_random r.2 w)) by exact Hinit.
  destruct (for_batches_run t bs None _ Hinit1)
    as (losses & w1 & Hrun & Hlen & Hsteps & Hprog & Hcb & _ & Hinit').
  assert (Hone : (0 < Z.of_nat N / B)%Z) by (apply Z.div_str_pos; lia).
  destruct losses as [|l1 ls]; [cbn in Hlen; lia|].
  rewrite foldl_ewma_update_None in Hrun. cbn [ewma_of_losses] in Hrun.
  assert (Hbody : forall w2 : world,
    (match cb with
     | Some _ =>
         modify (fun w =>
           set_callback_log
             (callback_log w ++
                [EpochLocals n (Z.of_nat N / B) (foldl ewma_step l1 ls)]) w)
     | None => ret tt
     end ;; ret (with_expert_dataset (Some (Dataset rows')) t)) w2 =
    (inr (with_expert_dataset (Some (Dataset rows')) t),
     match cb with
     | Some _ =>
         set_callback_log
           (callback_log w2 ++
              [EpochLocals n (Z.of_nat N / B) (foldl ewma_step l1 ls)]) w2
     | None => w2
     end)) by (intros w2; destruct cb; reflexivity).
  eexists (Dataset rows'), l1, ls, bs, _.
  split; [|split; [|split; [|split; [|split; [|split; [|split]]]]]].
  - unfold train_epoch. rewrite Hd. unfold bind at 1. cbn [ret].
    unfold floordiv. fold B N.
    destruct (Z.eqb_spec B 0) as [?|_]; [lia|].
    unfold bind at 1. cbn [ret].
    unfold bind at 1. rewrite iterate_once_run. fold N r rows' bs B.
    rewrite (bind_inr _ _ _ _ _ Hrun).
    unfold bind at 1. cbn [format_loss ret].
    unfold bind at 1. cbn [modify].
    apply Hbody.
  - exact Hrows.
  - destruct cb; cbn; exact Hsteps.
  - exact Hcount.
  - exact Hsizes.
  - exact Hlen.
  - destruct cb; cbn; rewrite Hprog; now rewrite <- app_assoc.
  - destruct cb; exact Hinit'.
Qed.

(** Any number of epochs. *)
Lemma for_epochs_run (cb : option callback) (epochs : list nat) :
  forall (t : BCTrainer) (d : dataset) (w : world),
  self_expert_dataset t = Some d ->
  (0 < self_batch_size t <= Z.of_nat (n_samples d))%Z ->
  vars_initialised t w ->
  exists t' w' steps,
    for_epochs cb t epochs w = (inr t', w') /\
    steps_log w' = steps_log w ++ steps /\
    length steps =
      length epochs * Z.to_nat (Z.of_nat (n_samples d) / self_batch_size t) /\
    Forall (fun b => length b = Z.to_nat (self_batch_size t)) steps.
Proof.
  induction epochs as [|n epochs IH]; intros t d w Hd Hb Hinit.
  - exists t, w, []. cbn. rewrite app_nil_r. repeat split. constructor.
  - destruct (train_epoch_run cb t d n w Hd Hb Hinit)
      as (d' & l1 & ls & steps1 & w1 & Hrun1 & Hn & Hsteps1 & Hlen1 & Hsz1
          & _ & _ & Hinit1).
    destruct (IH (with_expert_dataset (Some d') t) d' w1)
      as (t' & w' & steps & Hrun & Hsteps & Hlen & Hsz).
    { reflexivity. }
    { cbn. now rewrite Hn. }
    { exact Hinit1. }
    exists t', w', (steps1 ++ steps). split; [|split; [|split]].
    + cbn. now rewrite (bind_inr _ _ _ _ _ Hrun1).
    + rewrite Hsteps, Hsteps1. now rewrite <- app_assoc.
    + rewrite length_app, Hlen1, Hlen. cbn. now rewrite Hn.
    + apply Forall_app. split; [exact Hsz1|exact Hsz].
Qed.

(** C3.  With an expert dataset of N samples and a batch size B,
    0 < B <= N, [train] with [n_epochs = k] returns after exactly
    k * floor(N/B) optimiser steps, each fed a batch of exactly B
    (observation, action) pairs; a trailing partial batch is therefore
    never used. *)
Theorem train_step_count (t : BCTrainer) (d : dataset) (k : Z)
    (cb : option callback) (w : world) :
  self_expert_dataset t = Some d ->
  (0 < self_batch_size t <= Z.of_nat (n_samples d))%Z ->
  vars_initialised t w ->
  exists t' w' steps,
    train t k cb w = (inr t', w') /\
    steps_log w' = steps_log w ++ steps /\
    length steps =
      Z.to_nat k * Z.to_nat (Z.of_nat (n_samples d) / self_batch_size t) /\
    Forall (fun b => Z.of_nat (length b) = self_batch_size t) steps.
Proof.
  intros Hd Hb Hinit.
  destruct (for_epochs_run cb (seq 0 (Z.to_nat k)) t d w Hd Hb Hinit)
    as (t' & w' & steps & Hrun & Hsteps & Hlen & Hsz).
  exists t', w', steps. split; [exact Hrun|]. split; [exact Hsteps|].
  split; [now rewrite length_seq in Hlen|].
  eapply Forall_impl; [exact Hsz|]. cbn. intros b Hlb. lia.
Qed.

(** C4.  Within an epoch the moving average follows
    new_ewma = 0.9 * old_ewma + 0.1 * new_loss and is seeded with the first
    batch's loss: when the batches of the epoch returned the losses
    [l1 .. lk], the value reported at the end of the epoch is that
    recurrence folded over [l2 .. lk] from [l1]. *)
Theorem loss_ewma_recurrence (t : BCTrainer) (d : dataset) (n : nat)
    (cb : option callback) (w : world) :
  self_expert_dataset t = Some d ->
  (0 < self_batch_size t <= Z.of_nat (n_samples d))%Z ->
  vars_initialised t w ->
  exists t' w' losses e,
    train_epoch cb t n w = (inr t', w') /\
    length losses = Z.to_nat (Z.of_nat (n_samples d) / self_batch_size t) /\
    progress_log w' =
      progress_log w ++ (BatchLoss <$> losses) ++ [EpochLossEwma e] /\
    ewma_of_losses losses = Some e.
Proof.
  intros Hd Hb Hinit.
  destruct (train_epoch_run cb t d n w Hd Hb Hinit)
    as (d' & l1 & ls & steps & w' & Hrun & _ & _ & Hlen & _ & Hll & Hprog & _).
  exists (with_expert_dataset (Some d') t), w', (l1 :: ls),
         (foldl ewma_step l1 ls).
  split; [exact Hrun|]. split; [now rewrite Hll|]. split; [exact Hprog|].
  reflexivity.
Qed.

End EpochFacts.

Section TrainFailures.
Context `{RT : Runtime}.

Lemma train_first_epoch_raises (t : BCTrainer) (k : Z) (cb : option callback)
    (w : world) (e : exn) (w' : world) :
  (1 <= k)%Z ->
  train_epoch cb t 0 w = (inl e, w') ->
  train t k cb w = (inl e, w').
Proof.
  intros Hk Hrun. unfold train.
  destruct (Z.to_nat k) as [|k'] eqn:Ek; [lia|].
  cbn. now rewrite (bind_inl _ _ _ _ _ Hrun).
Qed.

Lemma train_no_epoch (t : BCTrainer) (k : Z) (cb : option callback)
    (w : world) :
  (k <= 0)%Z -> train t k cb w = (inr t, w).
Proof.
  intros Hk. unfold train.
  now replace (Z.to_nat k) with 0 by lia.
Qed.

(** C10.  With a dataset of fewer samples than the batch size, [train] with
    [n_epochs >= 1] raises in its first epoch: the pass yields no batch, the
    batch loop leaves [loss_ewma] at [None], and formatting it for the
    end-of-epoch report raises [TypeError].  No optimiser step is made,
    nothing is reported and the callback is not called. *)
Theorem train_small_dataset_raises (t : BCTrainer) (d : dataset) (k : Z)
    (cb : option callback) (w : world) :
  self_expert_dataset t = Some d ->
  (Z.of_nat (n_samples d) < self_batch_size t)%Z ->
  (1 <= k)%Z ->
  exists d' w',
    iterate_once d (self_batch_size t) w = (inr (d', []), w') /\
    for_batches t [] None w' = (inr None, w') /\
    train t k cb w = (inl (TypeError format_none_msg), w') /\
    steps_log w' = steps_log w /\
    progress_log w' = progress_log w /\
    callback_log w' = callback_log w.
Proof.
  intros Hd Hlt Hk.
  assert (Hzero : (Z.of_nat (n_samples d) / self_batch_size t = 0)%Z)
    by (apply Z.div_small; lia).
  assert (Hit : iterate_once d (self_batch_size t) w =
    (inr (Dataset (reorder (np_random_shuffle (n_samples d) (np_random w)).1
                           (rows d)), []),
     set_np_random (np_random_shuffle (n_samples d) (np_random w)).2 w)).
  { rewrite iterate_once_run. now rewrite Hzero. }
  eexists _, _. split; [exact Hit|]. split; [reflexivity|].
  split; [|now repeat split].
  apply train_first_epoch_raises; [exact Hk|].
  unfold train_epoch. rewrite Hd. unfold bind at 1. cbn [ret].
  unfold floordiv.
  destruct (Z.eqb_spec (self_batch_size t) 0) as [?|_]; [lia|].
  unfold bind at 1. cbn [ret].
  now rewrite (bind_inr _ _ _ _ _ Hit).
Qed.

Lemma _build_tf_graph_op (env : gym_env) (klass : policy_class)
    (sess : session) (w : world) kwargs pol vars op (w' : world) :
  _build_tf_graph env klass sess w = (inr (kwargs, pol, vars, op), w') ->
  op = Minimize (Optimizer AdamOptimizer ∅) (pol_scope pol).
Proof.
  unfold _build_tf_graph, with_variable_scope at 1.
  unfold bind at 1.
  destruct (with_variable_scope "model" _ _) as [[e|[[kw p] vs]] w1];
    cbn; intros Heq; inversion Heq; subst; reflexivity.
Qed.

(** What a successful constructor call did. *)
Lemma BCTrainer_init_inv (env : gym_env) (demos : option (list transition))
    (klass : policy_class) (B : Z) (oc : optimizer_class)
    (ok : option (gmap string Z)) (ns : option string) (reuse : bool)
    (w : world) (t : BCTrainer) (w' : world) :
  BCTrainer_init env demos klass B oc ok ns reuse w = (inr t, w') ->
  exists sess kwargs pol vars op w1,
    default_session w = Some sess /\
    _build_tf_graph env klass sess w = (inr (kwargs, pol, vars, op), w1) /\
    global_variables_initializer sess w1 = (inr tt, w') /\
    t = Build_BCTrainer env klass B (new_dataset <$> demos) sess kwargs pol
          vars op.
Proof.
  unfold BCTrainer_init, get_default_session.
  unfold bind at 1, bind at 1, get. cbn [ret].
  destruct (default_session w) as [sess|]; [|discriminate].
  unfold bind at 1.
  destruct (_build_tf_graph env klass sess w)
    as [[e|[[[kwargs pol] vars] op]] w1] eqn:Eb; [discriminate|].
  unfold bind at 1. cbn. intros Heq. inversion Heq; subst.
  exists sess, kwargs, pol, vars, op, w1.
  repeat split. now destruct demos.
Qed.

(** C5 (amended).  A trainer constructed with [expert_demos=None], on which
    [set_expert_dataset] has not been called, makes every [train] call with
    [n_epochs >= 1] raise when the missing dataset is dereferenced (an
    [AttributeError], the spec's NoDatasetError) before anything is done:
    the world is unchanged, so no optimiser step was made.  A call with
    [n_epochs <= 0] returns normally, again without any step. *)
Theorem train_without_dataset (env : gym_env) (klass : policy_class) (B : Z)
    (oc : optimizer_class) (ok : option (gmap string Z))
    (ns : option string) (reuse : bool) (w0 : world) (t : BCTrainer)
    (w1 : world) :
  BCTrainer_init env None klass B oc ok ns reuse w0 = (inr t, w1) ->
  forall (k : Z) (cb : option callback) (w : world),
    ((1 <= k)%Z ->
     train t k cb w = (inl (AttributeError none_n_samples_msg), w)) /\
    ((k <= 0)%Z -> train t k cb w = (inr t, w)).
Proof.
  intros Hinit k cb w.
  apply BCTrainer_init_inv in Hinit
    as (sess & kwargs & pol & vars & op & w2 & _ & _ & _ & ->).
  split; intros Hk.
  - now apply train_first_epoch_raises.
  - now apply train_no_epoch.
Qed.

(** C6.  The constructor's [optimiser_cls] and [optimiser_kwargs] have no
    effect: whatever they are, the constructor behaves identically (same
    outcome, same trainer, same world), and the training operation of the
    trainer it returns minimises with [AdamOptimizer] constructed without
    arguments. *)
Theorem optimiser_arguments_unused (env : gym_env)
    (demos : option (list transition)) (klass : policy_class) (B : Z)
    (oc1 oc2 : optimizer_class) (ok1 ok2 : option (gmap string Z))
    (ns : option string) (reuse : bool) (w : world) :
  BCTrainer_init env demos klass B oc1 ok1 ns reuse w =
    BCTrainer_init env demos klass B oc2 ok2 ns reuse w /\
  forall (t : BCTrainer) (w' : world),
    BCTrainer_init env demos klass B oc1 ok1 ns reuse w = (inr t, w') ->
    op_optimizer (self_train_op t) = Optimizer AdamOptimizer ∅.
Proof.
  split; [reflexivity|].
  intros t w' Hinit.
  apply BCTrainer_init_inv in Hinit
    as (sess & kwargs & pol & vars & op & w1 & _ & Hb & _ & ->).
  apply _build_tf_graph_op in Hb. now subst.
Qed.

End TrainFailures.

(** ** Scopes and policy construction *)

Section ScopeFacts.
Context `{RT : Runtime}.

Lemma scope_matches_app (s n : string) : scope_matches s (s +:+ n) = true.
Proof.
  induction s as [|a s IH]; [done|].
  change (scope_matches (String a s) (String a (s +:+ n)) = true).
  cbn [scope_matches]. now rewrite Ascii.eqb_refl.
Qed.

Lemma scope_matches_join (s n : string) :
  scope_matches s (scope_join s n) = true.
Proof.
  destruct s as [|a s]; [done|]. unfold scope_join.
  apply scope_matches_app.
Qed.

Lemma scope_join_inj (s n1 n2 : string) :
  scope_join s n1 = scope_join s n2 -> n1 = n2.
Proof.
  destruct s as [|a s]; [done|]. unfold scope_join. intros Heq.
  apply (String.app_inj (String a s)) in Heq.
  now apply (String.app_inj "/") in Heq.
Qed.

Lemma in_scope_names_NoDup (s : string) (decls : list tf_var) :
  NoDup (var_name <$> decls) -> NoDup (var_name <$> (in_scope s <$> decls)).
Proof.
  intros Hnd. rewrite <- list_fmap_compose.
  induction decls as [|d decls IH]; [constructor|].
  rewrite fmap_cons in Hnd. apply NoDup_cons in Hnd as [Hnotin Hnd].
  rewrite fmap_cons. apply NoDup_cons. split; [|now apply IH].
  intros Hin. apply Hnotin.
  apply list_elem_of_fmap in Hin as (d' & Heq & Hin).
  apply list_elem_of_fmap. exists d'. split; [|done].
  cbn in Heq. now apply scope_join_inj in Heq.
Qed.

Lemma filter_none {A} (f : A -> bool) (l : list A) :
  Forall (fun x => f x = false) l -> List.filter f l = [].
Proof.
  induction 1 as [|x l Hx _ IH]; [done|]. cbn. now rewrite Hx.
Qed.

Lemma filter_all {A} (f : A -> bool) (l : list A) :
  Forall (fun x => f x = true) l -> List.filter f l = l.
Proof.
  induction 1 as [|x l Hx _ IH]; [done|]. cbn. now rewrite Hx, IH.
Qed.

(** In a graph where [scope] is unused, the variables collected under
    [scope] after a policy was built in it are exactly the policy's. *)
Lemma collect_new_policy (scope : string) (old decls : list tf_var) :
  Forall (fun v => scope_matches scope (var_name v) = false) old ->
  List.filter (fun v => scope_matches scope (var_name v))
              (old ++ (in_scope scope <$> decls))
  = in_scope scope <$> decls.
Proof.
  intros Hold. rewrite List.filter_app, (filter_none _ _ Hold).
  apply filter_all, Forall_fmap, Forall_forall.
  intros d _. apply scope_matches_join.
Qed.

Lemma with_variable_scope_run {A} (name : string) (body : M A) (w : world)
    (r : exn + A) (w' : world) :
  body (set_variable_scope (scope_join (variable_scope w) name) w) = (r, w') ->
  with_variable_scope name body w = (r, set_variable_scope (variable_scope w) w').
Proof. intros Hb. unfold with_variable_scope. now rewrite Hb. Qed.

Lemma get_variable_run (decl : tf_var) (w : world) :
  var_name (in_scope (variable_scope w) decl)
    ∉ var_name <$> trainable_variables w ->
  get_variable decl w =
    (inr (in_scope (variable_scope w) decl),
     set_trainable_variables
       (trainable_variables w ++ [in_scope (variable_scope w) decl]) w).
Proof.
  intros Hnew. unfold get_variable, bind at 1, get.
  fold (in_scope (variable_scope w) decl).
  now rewrite bool_decide_eq_false_2.
Qed.

Lemma get_variable_clash (decl : tf_var) (w : world) :
  var_name (in_scope (variable_scope w) decl)
    ∈ var_name <$> trainable_variables w ->
  get_variable decl w =
    (inl (ValueError
            (already_exists_msg (var_name (in_scope (variable_scope w) decl)))),
     w).
Proof.
  intros Hold. unfold get_variable, bind at 1, get.
  fold (in_scope (variable_scope w) decl).
  now rewrite bool_decide_eq_true_2.
Qed.

(** Building the parameters of a policy whose names are all new. *)
Lemma build_parameters_run (decls : list tf_var) :
  forall w : world,
  NoDup (var_name <$> decls) ->
  Forall (fun d => var_name (in_scope (variable_scope w) d)
                     ∉ var_name <$> trainable_variables w) decls ->
  mapM get_variable decls w =
    (inr (in_scope (variable_scope w) <$> decls),
     set_trainable_variables
       (trainable_variables w ++ (in_scope (variable_scope w) <$> decls)) w).
Proof.
  induction decls as [|d decls IH]; intros w Hnd Hnew.
  - cbn. unfold ret. rewrite app_nil_r. now destruct w.
  - rewrite fmap_cons in Hnd. apply NoDup_cons in Hnd as [Hnotin Hnd].
    apply Forall_cons in Hnew as [Hd Hnew].
    rewrite mapM_cons, (bind_inr _ _ _ _ _ (get_variable_run d w Hd)).
    set (w1 := set_trainable_variables _ w).
    assert (Hrest : mapM get_variable decls w1 =
      (inr (in_scope (variable_scope w) <$> decls),
       set_trainable_variables
         (trainable_variables w1 ++ (in_scope (variable_scope w) <$> decls))
         w1)).
    { apply (IH w1); [exact Hnd|].
      apply Forall_forall. intros d' Hd'. cbn.
      rewrite fmap_app. intros Hin. apply elem_of_app in Hin as [Hin|Hin].
      - rewrite Forall_forall in Hnew. now apply (Hnew d').
      - cbn in Hin. apply list_elem_of_singleton in Hin.
        apply scope_join_inj in Hin. apply Hnotin.
        apply list_elem_of_fmap. now exists d'. }
    rewrite (bind_inr _ _ _ _ _ Hrest). cbn. unfold ret.
    unfold w1, set_trainable_variables. cbn. now rewrite <- app_assoc.
Qed.

(** A policy constructor marks the graph as holding operations and then
    builds its parameters. *)
Lemma new_policy_unfold (klass : policy_class) (sess : session)
    (kwargs : policy_kwargs) (w : world) :
  new_policy klass sess kwargs w =
    (vars <- mapM get_variable (param_decls klass kwargs) ;;
     ret (Policy klass sess kwargs (variable_scope w) vars))
      (set_graph_has_ops true w).
Proof. reflexivity. Qed.

Lemma new_policy_run (klass : policy_class) (sess : session)
    (kwargs : policy_kwargs) (w : world) :
  NoDup (var_name <$> param_decls klass kwargs) ->
  scope_unused (variable_scope w) w ->
  new_policy klass sess kwargs w =
    (inr (Policy klass sess kwargs (variable_scope w)
                 (in_scope (variable_scope w) <$> param_decls klass kwargs)),
     set_trainable_variables
       (trainable_variables w ++
          (in_scope (variable_scope w) <$> param_decls klass kwargs))
       (set_graph_has_ops true w)).
Proof.
  intros Hnd Hfresh. rewrite new_policy_unfold.
  erewrite bind_inr; [reflexivity|].
  apply (build_parameters_run _ (set_graph_has_ops true w)); [exact Hnd|].
  apply Forall_forall. intros d _ Hin.
  apply list_elem_of_fmap in Hin as (v & Heq & Hv).
  unfold scope_unused in Hfresh. rewrite Forall_forall in Hfresh.
  specialize (Hfresh v Hv). rewrite <- Heq in Hfresh. cbn in Hfresh.
  now rewrite scope_matches_join in Hfresh.
Qed.

End ScopeFacts.

(** ** Saving and reconstructing *)

Section PersistenceFacts.
Context `{RT : Runtime}.

Lemma sess_run_read_exact (s : session) (vars : list tf_var)
    (vals : list ndarray) (w : world) :
  Forall2 (fun v a => var_values w !! slot s v = Some a) vars vals ->
  sess_run_read s vars w = (inr vals, w).
Proof.
  intros Hvals. rewrite sess_run_read_initialised.
  - induction Hvals as [|v a vars vals Ha _ IH]; [reflexivity|].
    rewrite mapM_cons.
    rewrite (bind_inr _ _ _ _ _ (read_variable_run _ _ _ _ Ha)).
    now rewrite (bind_inr _ _ _ _ _ IH).
  - induction Hvals as [|v a vars vals Ha _ IH]; constructor; eauto.
Qed.

Lemma resolve_session_run (sess : option session) (w : world) (s : session) :
  session_for sess w = Some s ->
  (match sess with
   | Some s => ret s
   | None =>
       d <- get_default_session ;;
       match d with
       | Some s => ret s
       | None => raise (AssertionError supply_session_msg)
       end
   end) w = (inr s, w).
Proof.
  destruct sess as [s0|]; cbn; intros Hs; [now inversion Hs|].
  unfold get_default_session, bind, get, ret. now rewrite Hs.
Qed.

(** The first half of [reconstruct_policy], in a graph where the scope it
    uses is unused: the policy is built and the scope collects exactly the
    policy's variables. *)
Lemma reconstruct_policy_builds (path : string) (sess : option session)
    (w : world) (s : session) (p : pickle) :
  files w !! path = Some p ->
  session_for sess w = Some s ->
  scope_unused (reconstructed_scope w) w ->
  NoDup (var_name <$> param_decls (pk_class p) (pk_kwargs p)) ->
  let sc := reconstructed_scope w in
  let vars := in_scope sc <$> param_decls (pk_class p) (pk_kwargs p) in
  let w1 := set_trainable_variables (trainable_variables w ++ vars)
              (set_graph_has_ops true w) in
  reconstruct_policy path sess w =
    (set_tf_vars (pk_params p) (Some sc) None (Some s) ;;
     ret (Policy (pk_class p) s (pk_kwargs p) sc vars)) w1 /\
  destination (Some sc) None w1 = Some vars.
Proof.
  intros Hfile Hsess Hfresh Hnd sc vars w1. split.
  - unfold reconstruct_policy.
    rewrite (bind_inr _ _ _ _ _ (resolve_session_run _ _ _ Hsess)).
    unfold bind at 1, get. rewrite Hfile.
    unfold bind at 1. cbn [ret].
    assert (Hbuilt :
      with_variable_scope "reconstructed_policy"
        (rv_pol <- new_policy (pk_class p) s (pk_kwargs p) ;;
         inner_scope <- get_variable_scope ;;
         ret (rv_pol, inner_scope)) w =
      (inr (Policy (pk_class p) s (pk_kwargs p) sc vars, sc), w1)).
    { apply (with_variable_scope_run _ _ w _
               (set_trainable_variables (trainable_variables w ++ vars)
                  (set_graph_has_ops true (set_variable_scope sc w)))).
      erewrite bind_inr; cycle 1.
      { apply new_policy_run; [exact Hnd|exact Hfresh]. }
      reflexivity. }
    now rewrite (bind_inr _ _ _ _ _ Hbuilt).
  - unfold destination, w1. cbn. f_equal.
    apply collect_new_policy. exact Hfresh.
Qed.

End PersistenceFacts.

Section ReconstructionScope.
Context `{RT : Runtime}.

Lemma string_app_assoc (a b c : string) :
  (a +:+ b) +:+ c = a +:+ (b +:+ c).
Proof.
  induction a as [|x a IH]; [done|].
  change (String x ((a +:+ b) +:+ c) = String x (a +:+ (b +:+ c))).
  now rewrite IH.
Qed.

Lemma scope_matches_common_prefix (o x y : string) :
  scope_matches (o +:+ x) (o +:+ y) = scope_matches x y.
Proof.
  induction o as [|a o IH]; [done|].
  change (scope_matches (String a (o +:+ x)) (String a (o +:+ y))
          = scope_matches x y).
  cbn [scope_matches]. now rewrite Ascii.eqb_refl.
Qed.

(** The scope of [reconstruct_policy] matches no variable of the scope in
    which a trainer constructed under the same outer scope builds its
    policy. *)
Lemma reconstructed_scope_misses_trainer (outer name : string) :
  scope_matches
    (scope_join outer "reconstructed_policy")
    (scope_join (scope_join (scope_join outer "bc_supervised_loss") "model")
                name) = false.
Proof.
  destruct outer as [|a o]; [reflexivity|].
  set (p := String a o).
  change (scope_matches (p +:+ "/reconstructed_policy")
            (((p +:+ "/bc_supervised_loss") +:+ "/model") +:+ "/" +:+ name)
          = false).
  rewrite !string_app_assoc, scope_matches_common_prefix. reflexivity.
Qed.

Lemma new_policy_scope (klass : policy_class) (sess : session)
    (kwargs : policy_kwargs) (w : world) (pol : policy) (w' : world) :
  new_policy klass sess kwargs w = (inr pol, w') ->
  pol_scope pol = variable_scope w.
Proof.
  rewrite new_policy_unfold. unfold bind at 1.
  destruct (mapM get_variable (param_decls klass kwargs) _) as [[e|vars] w1];
    [discriminate|].
  cbn. intros Heq. now inversion Heq.
Qed.

(** Whatever the graph holds, a [reconstruct_policy] call that returns has
    built its policy in the scope named [reconstructed_policy]. *)
Lemma reconstruct_policy_scope_inv (path : string) (sess : option session)
    (w : world) (rv : policy) (w' : world) :
  reconstruct_policy path sess w = (inr rv, w') ->
  pol_scope rv = reconstructed_scope w.
Proof.
  unfold reconstruct_policy. unfold bind at 1.
  destruct (match sess with Some s => ret s | None => _ end w)
    as [[e|s] w0] eqn:Es; [discriminate|].
  assert (w0 = w) as ->.
  { destruct sess as [s0|]; [now inversion Es|].
    revert Es. unfold get_default_session, bind, get, ret.
    destruct (default_session w); cbn; intros Heq; now inversion Heq. }
  unfold bind at 1, get.
  destruct (files w !! path) as [p|]; [|discriminate].
  unfold bind at 1. cbn [ret]. unfold bind at 1.
  unfold with_variable_scope, bind at 1.
  destruct (new_policy (pk_class p) s (pk_kwargs p)
              (set_variable_scope
                 (scope_join (variable_scope w) "reconstructed_policy") w))
    as [[e|pol] w1] eqn:Enp; [discriminate|].
  apply new_policy_scope in Enp.
  unfold get_variable_scope, bind at 1, bind at 1, get. cbn [ret].
  unfold bind at 1.
  destruct (set_tf_vars _ _ _ _ _) as [[e|[]] w2]; [discriminate|].
  cbn. intros Heq. inversion Heq; subst. exact Enp.
Qed.

End ReconstructionScope.

Section PersistenceClaims.
Context `{RT : Runtime}.

(** C7 (amended).  When the record read from the file lists a number of
    parameter arrays different from the number of trainable parameters of
    the policy freshly built from the recorded class and keyword arguments,
    [reconstruct_policy], called with a session in a graph in which no
    trainable variable's name begins with the name of the reconstruction
    scope, raises on the count assertion of [set_tf_vars] (the spec's
    RecordCorruptError) and assigns nothing. *)
Theorem reconstruct_policy_count_mismatch (path : string)
    (sess : option session) (w : world) (s : session) (p : pickle) :
  files w !! path = Some p ->
  session_for sess w = Some s ->
  scope_unused (reconstructed_scope w) w ->
  NoDup (var_name <$> param_decls (pk_class p) (pk_kwargs p)) ->
  length (pk_params p) ≠ length (param_decls (pk_class p) (pk_kwargs p)) ->
  exists w',
    reconstruct_policy path sess w =
      (inl (AssertionError
              (count_msg (length (param_decls (pk_class p) (pk_kwargs p)))
                         (length (pk_params p)))), w') /\
    var_values w' = var_values w.
Proof.
  intros Hfile Hsess Hfresh Hnd Hne.
  destruct (reconstruct_policy_builds path sess w s p Hfile Hsess Hfresh Hnd)
    as [Hrun Hdest].
  cbv zeta in Hrun, Hdest.
  eexists. split; [|shelve].
  rewrite Hrun. erewrite bind_inl; cycle 1.
  { apply set_tf_vars_mismatch_run; [exact Hdest|].
    rewrite length_fmap. congruence. }
  now rewrite length_fmap.
  Unshelve. reflexivity.
Qed.

Lemma well_shaped_values (s : session) (vars : list tf_var)
    (m : gmap (session * string) ndarray) :
  Forall (fun v => shape <$> m !! slot s v = Some (var_shape v)) vars ->
  exists vals,
    Forall2 (fun v a => m !! slot s v = Some a) vars vals /\
    Forall2 (fun v a => shape a = var_shape v) vars vals.
Proof.
  induction 1 as [|v vars Hv _ (vals & Hvals & Hshapes)].
  - exists []. split; constructor.
  - destruct (m !! slot s v) as [a|] eqn:Ea; [|discriminate].
    cbn in Hv. inversion Hv.
    exists (a :: vals). split; constructor; auto.
Qed.

Lemma well_typed_values (s : session) (vars : list tf_var)
    (vals : list ndarray) (m : gmap (session * string) ndarray) :
  Forall (fun v => dtype <$> m !! slot s v = Some (var_dtype v)) vars ->
  Forall2 (fun v a => m !! slot s v = Some a) vars vals ->
  Forall2 (fun v a => dtype a = var_dtype v) vars vals.
Proof.
  intros Hty Hvals. induction Hvals as [|v a vars vals Ha _ IH];
    [constructor|].
  apply Forall_cons in Hty as [Hv Hty]. constructor; [|now apply IH].
  rewrite Ha in Hv. now inversion Hv.
Qed.

Lemma shapes_transfer (scope : string) (vars decls : list tf_var)
    (vals : list ndarray) :
  Forall2 (fun v d => var_shape v = var_shape d /\ var_dtype v = var_dtype d)
          vars decls ->
  Forall2 (fun v a => shape a = var_shape v) vars vals ->
  Forall2 (fun v a => shape a = var_shape v) (in_scope scope <$> decls) vals.
Proof.
  intros Hdecl. revert vals.
  induction Hdecl as [|v d vars decls [Hvd _] _ IH]; intros vals Hvals;
    inversion Hvals; subst; [constructor|].
  rewrite fmap_cons. constructor; [cbn; congruence|now apply IH].
Qed.

Lemma dtypes_transfer (scope : string) (vars decls : list tf_var)
    (vals : list ndarray) :
  Forall2 (fun v d => var_shape v = var_shape d /\ var_dtype v = var_dtype d)
          vars decls ->
  Forall2 (fun v a => dtype a = var_dtype v) vars vals ->
  Forall2 (fun v a => dtype a = var_dtype v) (in_scope scope <$> decls) vals.
Proof.
  intros Hdecl. revert vals.
  induction Hdecl as [|v d vars decls [_ Hvd] _ IH]; intros vals Hvals;
    inversion Hvals; subst; [constructor|].
  rewrite fmap_cons. constructor; [cbn; congruence|now apply IH].
Qed.

(** Opening a writable path succeeds and changes nothing. *)
Lemma open_for_writing_run (path : string) (w : world) :
  path_writable path w -> open_for_writing path w = (inr tt, w).
Proof.
  intros [Hne Hos]. unfold open_for_writing, bind at 1, get.
  rewrite bool_decide_eq_false_2 by exact Hne. now rewrite Hos.
Qed.

(** [save_policy] on initialised variables and a writable path. *)
Lemma save_policy_run (t : BCTrainer) (path : string) (w : world)
    (saved : list ndarray) :
  sess_run_read (self_sess t) (self_policy_variables t) w = (inr saved, w) ->
  path_writable path w ->
  save_policy t path w =
    (inr tt,
     set_files (<[path := Pickle (self_policy_class t) (self_policy_kwargs t)
                                 saved]> (files w)) w).
Proof.
  intros Hread Hpath. unfold save_policy.
  rewrite (bind_inr _ _ _ _ _ Hread).
  now rewrite (bind_inr _ _ _ _ _ (open_for_writing_run _ _ Hpath)).
Qed.

(** A graph in which a policy has been built holds operations. *)
Lemma grown_graph_not_empty (vars : list tf_var) (w : world) :
  graph_is_empty
    (set_trainable_variables vars (set_graph_has_ops true w)) = false.
Proof. unfold graph_is_empty. cbn. apply andb_false_r. Qed.

(** [save_policy] followed by [reconstruct_policy] on the same path. *)
Lemma save_then_reconstruct (t : BCTrainer) (path : string)
    (sess : option session) (w : world) (s : session) :
  policy_variables_declared t ->
  values_well_shaped t w ->
  values_well_typed t w ->
  path_writable path w ->
  scope_unused (reconstructed_scope w) w ->
  session_for sess w = Some s ->
  exists saved rv w',
    sess_run_read (self_sess t) (self_policy_variables t) w = (inr saved, w) /\
    (save_policy t path ;; reconstruct_policy path sess) w = (inr rv, w') /\
    pol_class rv = self_policy_class t /\
    pol_kwargs rv = self_policy_kwargs t /\
    sess_run_read s (pol_variables rv) w' = (inr saved, w').
Proof.
  intros [Hdecl Hnd] Hshaped Htyped Hpath Hfresh Hsess.
  destruct (well_shaped_values _ _ _ Hshaped) as (saved & Hvals & Hshapes).
  pose proof (well_typed_values _ _ _ _ Htyped Hvals) as Htypes.
  pose proof (sess_run_read_exact _ _ _ _ Hvals) as Hread.
  set (p := Pickle (self_policy_class t) (self_policy_kwargs t) saved).
  set (ws := set_files (<[path := p]> (files w)) w).
  assert (Hsave : save_policy t path w = (inr tt, ws))
    by now apply save_policy_run.
  assert (Hfile : files ws !! path = Some p) by apply lookup_insert_eq.
  destruct (reconstruct_policy_builds path sess ws s p Hfile Hsess Hfresh Hnd)
    as [Hrun Hdest].
  cbv zeta in Hrun, Hdest. cbn [pk_class pk_kwargs pk_params p] in Hrun, Hdest.
  set (sc := reconstructed_scope ws) in *.
  set (vars := in_scope sc <$>
                 param_decls (self_policy_class t) (self_policy_kwargs t)) in *.
  set (w1 := set_trainable_variables (trainable_variables ws ++ vars)
               (set_graph_has_ops true ws)) in *.
  destruct (set_tf_vars_effect saved (Some sc) None (Some s) w1 vars s)
    as (w' & Hset & Hheld & _ & _).
  { exact Hdest. }
  { reflexivity. }
  { intros _. apply grown_graph_not_empty. }
  { exact (shapes_transfer sc _ _ _ Hdecl Hshapes). }
  { now apply in_scope_names_NoDup. }
  exists saved, (Policy (self_policy_class t) s (self_policy_kwargs t) sc vars), w'.
  split; [exact Hread|]. split; [|split; [reflexivity|split; [reflexivity|]]].
  - rewrite (bind_inr _ _ _ _ _ Hsave), Hrun.
    now rewrite (bind_inr _ _ _ _ _ Hset).
  - apply sess_run_read_exact. cbn [pol_variables].
    pose proof (dtypes_transfer sc _ _ _ Hdecl Htypes) as Hdt. fold vars in Hdt.
    apply Forall2_same_length_lookup. split.
    + unfold vars. rewrite length_fmap.
      rewrite <- (Forall2_length _ _ _ Hdecl).
      exact (Forall2_length _ _ _ Hvals).
    + intros i v a Hv Ha. rewrite (Hheld i v a Hv Ha). f_equal.
      apply astype_same. exact (Forall2_lookup_lr _ _ _ _ _ _ Hdt Hv Ha).
Qed.

(** C1 (amended).  Round trip.  For a trainer whose policy variables are
    exactly the parameters its class declares and are initialised (each
    holds an array of its own shape and element type), [save_policy] on a
    path the file system lets it write, followed by [reconstruct_policy]
    on the same path, run with a session and in a graph that does not use
    the reconstruction scope yet, returns a policy of the trainer's class
    and keyword arguments whose trainable variables hold, in order, exactly
    (bit for bit) the arrays the trainer's policy variables held at save
    time. *)
Theorem save_reconstruct_round_trip (t : BCTrainer) (path : string)
    (sess : option session) (w : world) (s : session) :
  policy_variables_declared t ->
  values_well_shaped t w ->
  values_well_typed t w ->
  path_writable path w ->
  scope_unused (reconstructed_scope w) w ->
  session_for sess w = Some s ->
  exists saved rv w',
    sess_run_read (self_sess t) (self_policy_variables t) w = (inr saved, w) /\
    (save_policy t path ;; reconstruct_policy path sess) w = (inr rv, w') /\
    pol_class rv = self_policy_class t /\
    pol_kwargs rv = self_policy_kwargs t /\
    sess_run_read s (pol_variables rv) w' = (inr saved, w').
Proof.
  intros Hdecl Hshaped Htyped Hpath Hfresh Hsess.
  now apply save_then_reconstruct.
Qed.

(** A [reconstruct_policy] call in a graph that does not use its scope, on
    a record whose arrays fit the parameters its class declares, returns
    the policy built in that scope, holding the recorded arrays in the
    parameters' element types. *)
Lemma reconstruct_policy_run (path : string) (sess : option session)
    (w : world) (s : session) (p : pickle) :
  files w !! path = Some p ->
  session_for sess w = Some s ->
  scope_unused (reconstructed_scope w) w ->
  NoDup (var_name <$> param_decls (pk_class p) (pk_kwargs p)) ->
  Forall2 (fun d a => shape a = var_shape d)
          (param_decls (pk_class p) (pk_kwargs p)) (pk_params p) ->
  let vars := in_scope (reconstructed_scope w) <$>
                param_decls (pk_class p) (pk_kwargs p) in
  exists w',
    reconstruct_policy path sess w =
      (inr (Policy (pk_class p) s (pk_kwargs p) (reconstructed_scope w) vars),
       w') /\
    sess_run_read s vars w' =
      (inr (zip_with (fun v a => astype (var_dtype v) a) vars (pk_params p)),
       w').
Proof.
  intros Hfile Hsess Hfresh Hnd Hshapes vars.
  destruct (reconstruct_policy_builds path sess w s p Hfile Hsess Hfresh Hnd)
    as [Hrun Hdest].
  cbv zeta in Hrun, Hdest. fold vars in Hrun, Hdest.
  set (w1 := set_trainable_variables (trainable_variables w ++ vars)
               (set_graph_has_ops true w)) in *.
  destruct (set_tf_vars_effect (pk_params p) (Some (reconstructed_scope w))
              None (Some s) w1 vars s) as (w' & Hset & Hheld & _ & _).
  { exact Hdest. }
  { reflexivity. }
  { intros _. apply grown_graph_not_empty. }
  { unfold vars. apply Forall2_fmap_l.
    eapply Forall2_impl; [exact Hshapes|]. now intros d a Hda. }
  { now apply in_scope_names_NoDup. }
  assert (Hlen : length vars = length (pk_params p)).
  { unfold vars. rewrite length_fmap. exact (Forall2_length _ _ _ Hshapes). }
  exists w'. split.
  - rewrite Hrun. now rewrite (bind_inr _ _ _ _ _ Hset).
  - apply sess_run_read_exact.
    apply Forall2_same_length_lookup. split.
    + rewrite length_zip_with. lia.
    + intros i v b Hv Hb.
      apply lookup_zip_with_Some in Hb as (v' & a & -> & Hv' & Ha).
      rewrite Hv in Hv'. inversion Hv'; subst v'.
      exact (Hheld i v a Hv Ha).
Qed.

(** C9 (amended).  [reconstruct_policy] builds the new policy in the
    variable scope named [reconstructed_policy] (inside the scope current
    at the call): every call that returns has used that same, fixed name.
    The scope matches no variable of the [bc_supervised_loss/model] scope
    in which a trainer built its own policy, so it does not collide with
    the trainer's graph; and in a graph that does not use the scope yet,
    the call on a well-formed record returns. *)
Theorem reconstruct_policy_scope (path : string) (sess : option session)
    (w : world) :
  (forall (rv : policy) (w' : world),
     reconstruct_policy path sess w = (inr rv, w') ->
     pol_scope rv = scope_join (variable_scope w) "reconstructed_policy" /\
     forall name : string,
       scope_matches (pol_scope rv)
         (scope_join
            (scope_join (scope_join (variable_scope w) "bc_supervised_loss")
                        "model") name) = false) /\
  (forall (s : session) (p : pickle),
     files w !! path = Some p ->
     session_for sess w = Some s ->
     scope_unused (reconstructed_scope w) w ->
     NoDup (var_name <$> param_decls (pk_class p) (pk_kwargs p)) ->
     Forall2 (fun d a => shape a = var_shape d)
             (param_decls (pk_class p) (pk_kwargs p)) (pk_params p) ->
     exists (rv : policy) (w' : world),
       reconstruct_policy path sess w = (inr rv, w')).
Proof.
  split.
  - intros rv w' Hrun. apply reconstruct_policy_scope_inv in Hrun.
    split; [exact Hrun|]. intros name. rewrite Hrun.
    apply reconstructed_scope_misses_trainer.
  - intros s p Hfile Hsess Hfresh Hnd Hshapes.
    destruct (reconstruct_policy_run path sess w s p Hfile Hsess Hfresh Hnd
                Hshapes) as (w' & Hrun & _).
    eauto.
Qed.

End PersistenceClaims.

(** ** A freshly constructed trainer

    The hypotheses of the statements about training and persistence hold
    for every trainer the constructor returns in a graph that does not use
    the trainer's scope yet. *)

Section Construction.
Context `{RT : Runtime} `{!RuntimeLaws RT} `{!InitialValueTyped RT}.

(** A run of the parameter builder that returned has created one new
    variable per declaration; the declared names are pairwise distinct and
    none of the new names existed. *)
Lemma build_parameters_inv (decls : list tf_var) :
  forall (w : world) (vars : list tf_var) (w' : world),
  mapM get_variable decls w = (inr vars, w') ->
  vars = in_scope (variable_scope w) <$> decls /\
  w' = set_trainable_variables (trainable_variables w ++ vars) w /\
  NoDup (var_name <$> decls) /\
  Forall (fun d => var_name (in_scope (variable_scope w) d)
                     ∉ var_name <$> trainable_variables w) decls.
Proof.
  induction decls as [|d decls IH]; intros w vars w' Hrun.
  - cbn in Hrun. inversion Hrun; subst.
    split; [reflexivity|]. split; [|split; constructor].
    rewrite app_nil_r. now destruct w'.
  - rewrite mapM_cons in Hrun.
    destruct (decide (var_name (in_scope (variable_scope w) d)
                        ∈ var_name <$> trainable_variables w)) as [Hin|Hnew].
    { rewrite (bind_inl _ _ _ _ _ (get_variable_clash d w Hin)) in Hrun.
      discriminate. }
    rewrite (bind_inr _ _ _ _ _ (get_variable_run d w Hnew)) in Hrun.
    set (v := in_scope (variable_scope w) d) in *.
    set (w1 := set_trainable_variables (trainable_variables w ++ [v]) w) in *.
    destruct (mapM get_variable decls w1) as [[e|vs] w2] eqn:Erest.
    { rewrite (bind_inl _ _ _ _ _ Erest) in Hrun. discriminate. }
    rewrite (bind_inr _ _ _ _ _ Erest) in Hrun.
    inversion Hrun; subst vars w'. clear Hrun.
    apply IH in Erest as (-> & -> & Hnd & Hnew').
    change (variable_scope w1) with (variable_scope w) in *.
    change (trainable_variables w1) with (trainable_variables w ++ [v]) in *.
    rewrite Forall_forall in Hnew'.
    split; [reflexivity|]. split; [|split].
    + unfold w1, set_trainable_variables. cbn. now rewrite <- app_assoc.
    + rewrite fmap_cons. apply NoDup_cons. split; [|exact Hnd].
      intros Hdup. apply list_elem_of_fmap in Hdup as (d' & Heq & Hd').
      apply (Hnew' d' Hd'). rewrite fmap_app. apply elem_of_app. right.
      cbn. apply list_elem_of_singleton. now rewrite Heq.
    + apply Forall_cons. split; [exact Hnew|].
      apply Forall_forall. intros d' Hd' Hin. apply (Hnew' d' Hd').
      rewrite fmap_app. apply elem_of_app. now left.
Qed.

Lemma new_policy_inv (klass : policy_class) (sess : session)
    (kwargs : policy_kwargs) (w : world) (pol : policy) (w' : world) :
  new_policy klass sess kwargs w = (inr pol, w') ->
  pol = Policy klass sess kwargs (variable_scope w)
               (in_scope (variable_scope w) <$> param_decls klass kwargs) /\
  w' = set_trainable_variables
         (trainable_variables w ++
            (in_scope (variable_scope w) <$> param_decls klass kwargs))
         (set_graph_has_ops true w) /\
  NoDup (var_name <$> param_decls klass kwargs).
Proof.
  rewrite new_policy_unfold. unfold bind at 1.
  destruct (mapM get_variable (param_decls klass kwargs) _)
    as [[e|vars] w1] eqn:Eb; [discriminate|].
  apply build_parameters_inv in Eb as (-> & -> & Hnd & _).
  cbn. intros Heq. inversion Heq; subst. now repeat split.
Qed.

(** The scope in which a trainer constructed in world [w] builds its
    policy. *)
Lemma _build_tf_graph_inv (env : gym_env) (klass : policy_class)
    (sess : session) (w : world) kwargs pol vars op (w' : world) :
  let sc := scope_join (scope_join (variable_scope w) "bc_supervised_loss")
                       "model" in
  scope_unused sc w ->
  _build_tf_graph env klass sess w = (inr (kwargs, pol, vars, op), w') ->
  kwargs = PolicyKwargs (observation_space env) (action_space env) None 1 1000 /\
  vars = in_scope sc <$> param_decls klass kwargs /\
  NoDup (var_name <$> param_decls klass kwargs) /\
  w' = set_trainable_variables (trainable_variables w ++ vars)
         (set_graph_has_ops true w).
Proof.
  intros sc Hfresh.
  unfold _build_tf_graph, with_variable_scope at 1.
  unfold bind at 1. unfold with_variable_scope at 1.
  unfold bind at 1.
  set (kw := PolicyKwargs (observation_space env) (action_space env) None 1 1000).
  set (w_in := set_variable_scope _ (set_variable_scope _ w)).
  destruct (new_policy klass sess kw w_in) as [[e|p] w1] eqn:Enp;
    [discriminate|].
  apply new_policy_inv in Enp as (-> & -> & Hnd).
  change (variable_scope w_in) with sc.
  change (trainable_variables w_in) with (trainable_variables w).
  unfold get_variable_scope, get_collection, bind, get, ret. cbn.
  rewrite (collect_new_policy sc _ _ Hfresh).
  intros Heq. inversion Heq; subst. now repeat split.
Qed.

Lemma run_initializer_snoc (s : session)
    (acc : gmap (session * string) ndarray * rng) (l : list tf_var)
    (x : tf_var) :
  foldl (run_initializer s) acc (l ++ [x])
  = run_initializer s (foldl (run_initializer s) acc l) x.
Proof. now rewrite foldl_app. Qed.

(** After the initialisers ran, every variable holds an array of its
    shape. *)
Lemma initializers_shapes (s : session) (vars : list tf_var)
    (acc : gmap (session * string) ndarray * rng) :
  NoDup (var_name <$> vars) ->
  Forall (fun v => shape <$> (foldl (run_initializer s) acc vars).1 !! slot s v
                   = Some (var_shape v)) vars.
Proof.
  induction vars as [|x l IH] using rev_ind; intros Hnd; [constructor|].
  rewrite fmap_app in Hnd. apply NoDup_app in Hnd as (Hnd & Hdisj & _).
  rewrite run_initializer_snoc. specialize (IH Hnd).
  destruct (foldl (run_initializer s) acc l) as [m r].
  unfold run_initializer. cbn [fst snd].
  pose proof (initial_value_shape x r) as Hshape.
  destruct (initial_value x r) as [a r']. cbn [fst] in *.
  apply Forall_app. split.
  - rewrite Forall_forall in IH. apply Forall_forall. intros v Hv.
    rewrite lookup_insert_ne; [now apply IH|].
    unfold slot. intros Heq. apply (Hdisj (var_name v)).
    + apply list_elem_of_fmap. now exists v.
    + cbn. apply list_elem_of_singleton. congruence.
  - constructor; [|constructor].
    unfold slot. rewrite lookup_insert_eq. cbn. now rewrite Hshape.
Qed.

(** After the initialisers ran, every variable holds an array of its
    element type. *)
Lemma initializers_dtypes (s : session) (vars : list tf_var)
    (acc : gmap (session * string) ndarray * rng) :
  NoDup (var_name <$> vars) ->
  Forall (fun v => dtype <$> (foldl (run_initializer s) acc vars).1 !! slot s v
                   = Some (var_dtype v)) vars.
Proof.
  induction vars as [|x l IH] using rev_ind; intros Hnd; [constructor|].
  rewrite fmap_app in Hnd. apply NoDup_app in Hnd as (Hnd & Hdisj & _).
  rewrite run_initializer_snoc. specialize (IH Hnd).
  destruct (foldl (run_initializer s) acc l) as [m r].
  unfold run_initializer. cbn [fst snd].
  pose proof (initial_value_dtype x r) as Hdtype.
  destruct (initial_value x r) as [a r']. cbn [fst] in *.
  apply Forall_app. split.
  - rewrite Forall_forall in IH. apply Forall_forall. intros v Hv.
    rewrite lookup_insert_ne; [now apply IH|].
    unfold slot. intros Heq. apply (Hdisj (var_name v)).
    + apply list_elem_of_fmap. now exists v.
    + cbn. apply list_elem_of_singleton. congruence.
  - constructor; [|constructor].
    unfold slot. rewrite lookup_insert_eq. cbn. now rewrite Hdtype.
Qed.

Lemma well_shaped_initialised (t : BCTrainer) (w : world) :
  values_well_shaped t w -> vars_initialised t w.
Proof.
  unfold values_well_shaped, vars_initialised. intros Hshaped.
  eapply Forall_impl; [exact Hshaped|]. intros v Hv. cbn in Hv.
  destruct (var_values w !! slot (self_sess t) v); [eauto|discriminate].
Qed.

(** A trainer constructed in a graph with distinct variable names that uses
    neither the trainer's scope nor the reconstruction scope is ready for
    [train] and for [save_policy] followed by [reconstruct_policy]. *)
Lemma BCTrainer_init_ready (env : gym_env) (demos : option (list transition))
    (klass : policy_class) (B : Z) (oc : optimizer_class)
    (ok : option (gmap string Z)) (ns : option string) (reuse : bool)
    (w : world) (t : BCTrainer) (w' : world) :
  NoDup (var_name <$> trainable_variables w) ->
  scope_unused
    (scope_join (scope_join (variable_scope w) "bc_supervised_loss") "model")
    w ->
  scope_unused (reconstructed_scope w) w ->
  BCTrainer_init env demos klass B oc ok ns reuse w = (inr t, w') ->
  self_expert_dataset t = new_dataset <$> demos /\
  self_batch_size t = B /\
  default_session w' = Some (self_sess t) /\
  policy_variables_declared t /\
  values_well_shaped t w' /\
  values_well_typed t w' /\
  vars_initialised t w' /\
  scope_unused (reconstructed_scope w') w'.
Proof.
  intros Hnames Hfresh Hrec Hinit.
  apply BCTrainer_init_inv in Hinit
    as (sess & kwargs & pol & vars & op & w1 & Hdef & Hb & Hgvi & ->).
  apply _build_tf_graph_inv in Hb as (Hkw & Hvars & Hnd & ->); [|exact Hfresh].
  set (sc := scope_join (scope_join (variable_scope w) "bc_supervised_loss")
                        "model") in *.
  assert (Hall : NoDup (var_name <$> (trainable_variables w ++ vars))).
  { rewrite fmap_app. apply NoDup_app. split; [exact Hnames|]. split.
    - intros n Hold Hn. rewrite Hvars in Hn.
      apply list_elem_of_fmap in Hn as (v & -> & Hv).
      apply list_elem_of_fmap in Hv as (d & -> & _).
      apply list_elem_of_fmap in Hold as (v0 & Heq & Hv0).
      unfold scope_unused in Hfresh. rewrite Forall_forall in Hfresh.
      specialize (Hfresh v0 Hv0). rewrite <- Heq in Hfresh. cbn in Hfresh.
      now rewrite scope_matches_join in Hfresh.
    - rewrite Hvars. now apply in_scope_names_NoDup. }
  assert (Hshaped : values_well_shaped
            (Build_BCTrainer env klass B (new_dataset <$> demos) sess kwargs
               pol vars op) w').
  { unfold global_variables_initializer, modify in Hgvi.
    change (trainable_variables (set_trainable_variables _ _))
      with (trainable_variables w ++ vars) in Hgvi.
    pose proof (initializers_shapes sess (trainable_variables w ++ vars)
                  (var_values w, np_random w) Hall) as Hsh.
    cbn [var_values np_random set_trainable_variables set_graph_has_ops]
      in Hgvi.
    destruct (foldl (run_initializer sess) (var_values w, np_random w)
                    (trainable_variables w ++ vars)) as [vals r].
    inversion Hgvi; subst w'. unfold values_well_shaped. cbn.
    now apply Forall_app in Hsh as [_ Hsh]. }
  assert (Htyped : values_well_typed
            (Build_BCTrainer env klass B (new_dataset <$> demos) sess kwargs
               pol vars op) w').
  { unfold global_variables_initializer, modify in Hgvi.
    change (trainable_variables (set_trainable_variables _ _))
      with (trainable_variables w ++ vars) in Hgvi.
    pose proof (initializers_dtypes sess (trainable_variables w ++ vars)
                  (var_values w, np_random w) Hall) as Hty.
    cbn [var_values np_random set_trainable_variables set_graph_has_ops]
      in Hgvi.
    destruct (foldl (run_initializer sess) (var_values w, np_random w)
                    (trainable_variables w ++ vars)) as [vals r].
    inversion Hgvi; subst w'. unfold values_well_typed. cbn.
    now apply Forall_app in Hty as [_ Hty]. }
  split; [reflexivity|]. split; [reflexivity|].
  split; [|split; [|split; [|split; [|split]]]].
  - unfold global_variables_initializer, modify in Hgvi.
    destruct (foldl _ _ _) as [vals r] in Hgvi.
    inversion Hgvi; subst w'. exact Hdef.
  - split; cbn; [|exact Hnd].
    rewrite Hvars. clear. induction (param_decls klass kwargs); constructor;
      auto.
  - exact Hshaped.
  - exact Htyped.
  - now apply well_shaped_initialised.
  - unfold global_variables_initializer, modify in Hgvi.
    destruct (foldl _ _ _) as [vals r] in Hgvi.
    inversion Hgvi; subst w'. unfold scope_unused, reconstructed_scope. cbn.
    apply Forall_app. split; [exact Hrec|].
    rewrite Hvars. apply Forall_fmap, Forall_forall. intros d _.
    apply reconstructed_scope_misses_trainer.
Qed.

(** Round trip for a freshly constructed trainer: in a graph with distinct
    variable names that uses neither scope, whatever the environment, the
    policy class and the demonstrations, when the constructor returns a
    trainer then saving its policy to a writable path and reconstructing
    it yields a policy whose variables hold the trainer's parameter
    values. *)
Lemma fresh_trainer_round_trip (env : gym_env)
    (demos : option (list transition)) (klass : policy_class) (B : Z)
    (oc : optimizer_class) (ok : option (gmap string Z))
    (ns : option string) (reuse : bool) (w : world) (t : BCTrainer)
    (w' : world) (path : string) :
  NoDup (var_name <$> trainable_variables w) ->
  scope_unused
    (scope_join (scope_join (variable_scope w) "bc_supervised_loss") "model")
    w ->
  scope_unused (reconstructed_scope w) w ->
  BCTrainer_init env demos klass B oc ok ns reuse w = (inr t, w') ->
  path_writable path w' ->
  exists saved rv w'',
    sess_run_read (self_sess t) (self_policy_variables t) w' = (inr saved, w') /\
    (save_policy t path ;; reconstruct_policy path None) w' = (inr rv, w'') /\
    sess_run_read (self_sess t) (pol_variables rv) w'' = (inr saved, w'').
Proof.
  intros Hnames Hfresh Hrec Hinit Hpath.
  destruct (BCTrainer_init_ready _ _ _ _ _ _ _ _ _ _ _ Hnames Hfresh Hrec Hinit)
    as (_ & _ & Hsess & Hdecl & Hshaped & Htyped & _ & Hrec').
  destruct (save_then_reconstruct t path None w' (self_sess t)
              Hdecl Hshaped Htyped Hpath Hrec' Hsess)
    as (saved & rv & w'' & Hread & Hrun & _ & _ & Hsame).
  now exists saved, rv, w''.
Qed.

End Construction.

(** * Further properties *)

(** ** Parameter transfer: failures, frame, composition *)

Section SetTfVarsMore.
Context `{RT : Runtime}.

Lemma set_var_values_id (w : world) : set_var_values (var_values w) w = w.
Proof. now destruct w. Qed.

(** A run of [set_tf_vars] whose destination resolves, with a session and
    arrays of the variables' shapes, in a graph that holds operations when
    there is no variable to assign. *)
Lemma set_tf_vars_run (values : list ndarray) (scope : option string)
    (tf_vars : option (list tf_var)) (sess : option session) (w : world)
    (dest : list tf_var) (s : session) :
  destination scope tf_vars w = Some dest ->
  session_for sess w = Some s ->
  (dest = [] -> graph_is_empty w = false) ->
  Forall2 (fun v a => shape a = var_shape v) dest values ->
  set_tf_vars values scope tf_vars sess w =
    (inr tt,
     set_var_values (assign_all s (zip dest values) (var_values w)) w).
Proof.
  intros Hd Hs Hgraph Hsh.
  pose proof (Forall2_length _ _ _ Hsh) as Hlen.
  rewrite (set_tf_vars_resolved _ _ _ _ _ _ Hd).
  unfold bind. rewrite bool_decide_eq_true_2 by done. cbn.
  rewrite resolve_default_session, Hs.
  now apply sess_run_assign_run.
Qed.

(** The same run for no variable and no array in a graph without
    operations. *)
Lemma set_tf_vars_empty_graph (scope : option string)
    (tf_vars : option (list tf_var)) (sess : option session) (w : world)
    (s : session) :
  destination scope tf_vars w = Some [] ->
  session_for sess w = Some s ->
  graph_is_empty w = true ->
  set_tf_vars [] scope tf_vars sess w =
    (inl (RuntimeError empty_graph_msg), w).
Proof.
  intros Hd Hs Hempty.
  rewrite (set_tf_vars_resolved _ _ _ _ _ _ Hd).
  rewrite (bind_inr _ _ _ _ _ (assert_true _ w)).
  rewrite (bind_inr _ _ _ _ _ (resolve_default_session sess w)), Hs.
  now apply sess_run_assign_empty.
Qed.

(** X1.  [set_tf_vars] called with both [scope] and [tf_vars], or with
    neither, raises the assertion on the keyword arguments, whatever the
    values and the session, and changes nothing. *)
Theorem set_tf_vars_xor_kwargs (values : list ndarray)
    (scope : option string) (tf_vars : option (list tf_var))
    (sess : option session) (w : world) :
  (is_Some scope <-> is_Some tf_vars) ->
  set_tf_vars values scope tf_vars sess w = (inl (AssertionError xor_msg), w).
Proof.
  intros [Hst Hts]. destruct scope as [sc|], tf_vars as [vs|].
  - reflexivity.
  - destruct (Hst (mk_is_Some _ _ eq_refl)) as [x Hx]. discriminate.
  - destruct (Hts (mk_is_Some _ _ eq_refl)) as [x Hx]. discriminate.
  - reflexivity.
Qed.

(** X2.  With a resolved destination and as many values as variables, but
    no session given and no default session, [set_tf_vars] raises the
    session assertion and changes nothing. *)
Theorem set_tf_vars_no_session (values : list ndarray)
    (scope : option string) (tf_vars : option (list tf_var))
    (sess : option session) (w : world) (dest : list tf_var) :
  destination scope tf_vars w = Some dest ->
  length dest = length values ->
  session_for sess w = None ->
  set_tf_vars values scope tf_vars sess w =
    (inl (AssertionError no_session_msg), w).
Proof.
  intros Hd Hlen Hs.
  rewrite (set_tf_vars_resolved _ _ _ _ _ _ Hd).
  unfold bind. rewrite bool_decide_eq_true_2 by done. cbn.
  destruct sess as [s0|]; [discriminate|]. cbn in Hs.
  unfold get_default_session, bind, get, ret. now rewrite Hs.
Qed.

(** Whatever its arguments and outcome, [set_tf_vars] changes at most the
    variable values, and none when it raises. *)
Lemma set_tf_vars_frame (values : list ndarray) (scope : option string)
    (tf_vars : option (list tf_var)) (sess : option session) (w : world)
    (r : exn + unit) (w' : world) :
  set_tf_vars values scope tf_vars sess w = (r, w') ->
  w' = set_var_values (var_values w') w /\
  (forall e, r = inl e -> w' = w).
Proof.
  intros Hrun.
  assert (Hcases : (exists e, r = inl e /\ w' = w) \/
                   (exists m, r = inr tt /\ w' = set_var_values m w)).
  { revert Hrun. unfold set_tf_vars. unfold bind at 1.
    set (resolve := match scope with Some _ => _ | None => _ end).
    assert (Hres : (exists e, resolve w = (inl e, w)) \/
                   (exists vs, resolve w = (inr vs, w))).
    { unfold resolve. destruct scope as [sc|], tf_vars as [vs|]; cbn; eauto. }
    destruct Hres as [[e ->]|[vs ->]].
    { intros Heq. inversion Heq. eauto. }
    unfold bind at 1, assert.
    destruct (bool_decide (length vs = length values)); cbn [ret raise];
      [|intros Heq; inversion Heq; eauto].
    unfold bind at 1.
    assert (Hs : (match sess with
                  | Some s0 => ret (Some s0)
                  | None => get_default_session
                  end) w = (inr (session_for sess w), w))
      by (destruct sess; reflexivity).
    rewrite Hs. destruct (session_for sess w) as [s|];
      [|intros Heq; inversion Heq; eauto].
    unfold sess_run_assign, bind at 1, get.
    destruct (bool_decide (vs = []) && graph_is_empty w);
      [intros Heq; inversion Heq; eauto|].
    destruct (forallb _ _).
    - intros Heq. inversion Heq. eauto.
    - intros Heq. inversion Heq. eauto. }
  destruct Hcases as [(e & -> & ->)|(m & -> & ->)].
  - split; [now rewrite set_var_values_id|auto].
  - split; [reflexivity|discriminate].
Qed.


Lemma assign_all_indep (s : session) (prs : list (tf_var * ndarray))
    (m1 m2 : gmap (session * string) ndarray) (k : session * string) :
  k ∈ slot s <$> prs.*1 ->
  assign_all s prs m1 !! k = assign_all s prs m2 !! k.
Proof.
  revert m1 m2. induction prs as [|[v a] prs IH]; intros m1 m2 Hk.
  - cbn in Hk. now apply elem_of_nil in Hk.
  - rewrite !assign_all_cons.
    destruct (decide (k ∈ slot s <$> prs.*1)) as [Hin|Hout].
    + now apply IH.
    + rewrite !assign_all_other by done.
      rewrite !fmap_cons in Hk. apply elem_of_cons in Hk as [->|Hk]; [|done].
      cbn. now rewrite !lookup_insert_eq.
Qed.

(** A later assignment to (at least) the same variables hides an earlier
    one. *)
Lemma assign_all_override (s : session) (prs1 prs2 : list (tf_var * ndarray))
    (m : gmap (session * string) ndarray) :
  (forall k, k ∈ slot s <$> prs1.*1 -> k ∈ slot s <$> prs2.*1) ->
  assign_all s prs2 (assign_all s prs1 m) = assign_all s prs2 m.
Proof.
  intros Hsub. apply map_eq. intros k.
  destruct (decide (k ∈ slot s <$> prs2.*1)) as [Hin|Hout].
  - now apply assign_all_indep.
  - rewrite !assign_all_other; auto.
Qed.

(** X4.  Two transfers to the same pairwise distinct destination variables
    compose to the second one: after [set_tf_vars] with [values1] and then
    with [values2], the world is the one the second call alone produces
    (so a transfer is idempotent, and a later one fully overrides an
    earlier one). *)
Theorem set_tf_vars_overrides (values1 values2 : list ndarray)
    (scope : option string) (tf_vars : option (list tf_var))
    (sess : option session) (w : world) (dest : list tf_var) (s : session) :
  destination scope tf_vars w = Some dest ->
  session_for sess w = Some s ->
  NoDup (var_name <$> dest) ->
  Forall2 (fun v a => shape a = var_shape v) dest values1 ->
  Forall2 (fun v a => shape a = var_shape v) dest values2 ->
  (set_tf_vars values1 scope tf_vars sess ;;
   set_tf_vars values2 scope tf_vars sess) w
  = set_tf_vars values2 scope tf_vars sess w.
Proof.
  intros Hd Hs _ Hsh1 Hsh2.
  destruct (decide (dest = [] /\ graph_is_empty w = true))
    as [[-> Hempty]|Hgraph].
  { inversion Hsh1; subst. inversion Hsh2; subst.
    pose proof (set_tf_vars_empty_graph _ _ _ _ _ Hd Hs Hempty) as Hrun.
    now rewrite (bind_inl _ _ _ _ _ Hrun), Hrun. }
  assert (Hgraph' : dest = [] -> graph_is_empty w = false).
  { intros ->. destruct (graph_is_empty w); [|reflexivity].
    now destruct Hgraph. }
  rewrite (bind_inr _ _ _ _ _
             (set_tf_vars_run _ _ _ _ _ _ _ Hd Hs Hgraph' Hsh1)).
  set (w1 := set_var_values _ w).
  assert (Hd1 : destination scope tf_vars w1 = Some dest) by exact Hd.
  assert (Hs1 : session_for sess w1 = Some s) by exact Hs.
  assert (Hgraph1 : dest = [] -> graph_is_empty w1 = false) by exact Hgraph'.
  rewrite (set_tf_vars_run _ _ _ _ _ _ _ Hd1 Hs1 Hgraph1 Hsh2).
  rewrite (set_tf_vars_run _ _ _ _ _ _ _ Hd Hs Hgraph' Hsh2).
  f_equal. unfold w1, set_var_values. cbn. f_equal.
  apply assign_all_override. intros k.
  rewrite !fst_zip; [done| |].
  - rewrite (Forall2_length _ _ _ Hsh2). lia.
  - rewrite (Forall2_length _ _ _ Hsh1). lia.
Qed.

End SetTfVarsMore.

(** ** The constructor: failures, what it builds, what it leaves *)

Section ConstructorMore.
Context `{RT : Runtime} `{!RuntimeLaws RT}.

Lemma set_trainable_variables_nil (w : world) :
  set_trainable_variables (trainable_variables w ++ []) w = w.
Proof. rewrite app_nil_r. now destruct w. Qed.

(** Whatever its outcome, building parameters only appends variables to
    the graph. *)
Lemma build_parameters_frame (decls : list tf_var) :
  forall w : world,
  exists added,
    (mapM get_variable decls w).2 =
      set_trainable_variables (trainable_variables w ++ added) w.
Proof.
  induction decls as [|d decls IH]; intros w.
  - exists []. cbn. now rewrite set_trainable_variables_nil.
  - rewrite mapM_cons.
    destruct (decide (var_name (in_scope (variable_scope w) d)
                        ∈ var_name <$> trainable_variables w)) as [Hin|Hnew].
    { rewrite (bind_inl _ _ _ _ _ (get_variable_clash d w Hin)).
      exists []. cbn. now rewrite set_trainable_variables_nil. }
    rewrite (bind_inr _ _ _ _ _ (get_variable_run d w Hnew)).
    set (v := in_scope (variable_scope w) d).
    set (w1 := set_trainable_variables (trainable_variables w ++ [v]) w).
    destruct (IH w1) as [added Hadded].
    exists (v :: added).
    unfold bind at 1.
    destruct (mapM get_variable decls w1) as [[e|vs] w2]; cbn in *;
      rewrite Hadded; unfold w1, set_trainable_variables; cbn;
      now rewrite <- app_assoc.
Qed.

Lemma new_policy_frame (klass : policy_class) (sess : session)
    (kwargs : policy_kwargs) (w : world) :
  exists added,
    (new_policy klass sess kwargs w).2 =
      set_trainable_variables (trainable_variables w ++ added)
        (set_graph_has_ops true w).
Proof.
  destruct (build_parameters_frame (param_decls klass kwargs)
              (set_graph_has_ops true w)) as [added Hadded].
  exists added. rewrite new_policy_unfold. unfold bind at 1.
  destruct (mapM get_variable (param_decls klass kwargs) _) as [[e|vs] w1];
    exact Hadded.
Qed.

(** A policy whose first declared parameter already exists in the current
    scope cannot be built: no variable is created. *)
Lemma new_policy_clash (klass : policy_class) (sess : session)
    (kwargs : policy_kwargs) (w : world) (d : tf_var) (rest : list tf_var) :
  param_decls klass kwargs = d :: rest ->
  var_name (in_scope (variable_scope w) d)
    ∈ var_name <$> trainable_variables w ->
  new_policy klass sess kwargs w =
    (inl (ValueError
            (already_exists_msg (var_name (in_scope (variable_scope w) d)))),
     set_graph_has_ops true w).
Proof.
  intros Hdecls Hin. rewrite new_policy_unfold.
  rewrite Hdecls. apply bind_inl.
  rewrite mapM_cons. apply bind_inl.
  now apply (get_variable_clash d (set_graph_has_ops true w)).
Qed.

Lemma set_graph_has_ops_id (w : world) :
  graph_has_ops w = true -> set_graph_has_ops true w = w.
Proof. intros Hops. destruct w. cbn in *. now subst. Qed.

Lemma with_variable_scope_restores {A} (name : string) (body : M A)
    (w : world) :
  variable_scope (with_variable_scope name body w).2 = variable_scope w.
Proof.
  unfold with_variable_scope. now destruct (body _) as [r w'].
Qed.

(** The trainer's scope, seen from the world in which the constructor is
    called. *)
Lemma _build_tf_graph_run (env : gym_env) (klass : policy_class)
    (sess : session) (w : world) :
  let kw := PolicyKwargs (observation_space env) (action_space env)
                         None 1 1000 in
  let sc := scope_join (scope_join (variable_scope w) "bc_supervised_loss")
                       "model" in
  let vars := in_scope sc <$> param_decls klass kw in
  scope_unused sc w ->
  NoDup (var_name <$> param_decls klass kw) ->
  _build_tf_graph env klass sess w =
    (inr (kw, Policy klass sess kw sc vars, vars,
          Minimize (Optimizer AdamOptimizer ∅) sc),
     set_trainable_variables (trainable_variables w ++ vars)
       (set_graph_has_ops true w)).
Proof.
  intros kw sc vars Hfresh Hnd.
  unfold _build_tf_graph, with_variable_scope at 1.
  unfold bind at 1. unfold with_variable_scope at 1.
  unfold bind at 1. fold kw.
  set (w_in := set_variable_scope _ (set_variable_scope _ w)).
  assert (Hfresh' : scope_unused (variable_scope w_in) w_in) by exact Hfresh.
  rewrite (new_policy_run klass sess kw w_in Hnd Hfresh').
  change (variable_scope w_in) with sc.
  change (trainable_variables w_in) with (trainable_variables w).
  fold vars.
  unfold get_variable_scope, get_collection, bind, get, ret. cbn.
  unfold vars. now rewrite (collect_new_policy sc _ _ Hfresh).
Qed.

(** What a [_build_tf_graph] that returned did to the graph, whatever the
    graph held before. *)
Lemma _build_tf_graph_grows (env : gym_env) (klass : policy_class)
    (sess : session) (w : world) kwargs pol vars op (w' : world) :
  _build_tf_graph env klass sess w = (inr (kwargs, pol, vars, op), w') ->
  kwargs = PolicyKwargs (observation_space env) (action_space env) None 1 1000 /\
  w' = set_trainable_variables
         (trainable_variables w ++
            (in_scope (scope_join
                         (scope_join (variable_scope w) "bc_supervised_loss")
                         "model") <$> param_decls klass kwargs))
         (set_graph_has_ops true w).
Proof.
  unfold _build_tf_graph, with_variable_scope at 1.
  unfold bind at 1. unfold with_variable_scope at 1.
  unfold bind at 1.
  set (kw := PolicyKwargs (observation_space env) (action_space env) None 1 1000).
  set (w_in := set_variable_scope _ (set_variable_scope _ w)).
  destruct (new_policy klass sess kw w_in) as [[e|p] w1] eqn:Enp;
    [discriminate|].
  apply new_policy_inv in Enp as (-> & -> & Hnd).
  unfold get_variable_scope, get_collection, bind, get, ret. cbn.
  intros Heq. inversion Heq; subst. now split.
Qed.

Lemma initializer_graph (sess : session) (w : world) :
  exists vals r,
    global_variables_initializer sess w =
      (inr tt, set_adam_slots opt_init
                 (set_np_random r (set_var_values vals w))).
Proof.
  unfold global_variables_initializer, modify.
  destruct (foldl _ _ _) as [vals r]. eauto.
Qed.

Lemma graph_names_NoDup (sc : string) (old decls : list tf_var) :
  NoDup (var_name <$> old) ->
  Forall (fun v => scope_matches sc (var_name v) = false) old ->
  NoDup (var_name <$> decls) ->
  NoDup (var_name <$> (old ++ (in_scope sc <$> decls))).
Proof.
  intros Hold Hfresh Hnd.
  rewrite fmap_app. apply NoDup_app. split; [exact Hold|]. split.
  - intros n Hn Hnew.
    apply list_elem_of_fmap in Hnew as (v & -> & Hv).
    apply list_elem_of_fmap in Hv as (d & -> & _).
    apply list_elem_of_fmap in Hn as (v0 & Heq & Hv0).
    rewrite Forall_forall in Hfresh.
    specialize (Hfresh v0 Hv0). rewrite <- Heq in Hfresh. cbn in Hfresh.
    now rewrite scope_matches_join in Hfresh.
  - now apply in_scope_names_NoDup.
Qed.

(** X5.  Without a default session the constructor raises its assertion
    before building anything: no variable is created or assigned, and no
    file is written. *)
Theorem BCTrainer_init_no_session (env : gym_env)
    (demos : option (list transition)) (klass : policy_class) (B : Z)
    (oc : optimizer_class) (ok : option (gmap string Z))
    (ns : option string) (reuse : bool) (w : world) :
  default_session w = None ->
  exists w',
    BCTrainer_init env demos klass B oc ok ns reuse w =
      (inl (AssertionError need_session_msg), w') /\
    trainable_variables w' = trainable_variables w /\
    var_values w' = var_values w /\
    files w' = files w.
Proof.
  intros Hnone. exists w. split; [|now repeat split].
  unfold BCTrainer_init, get_default_session.
  unfold bind at 1, bind at 1, get. cbn [ret]. now rewrite Hnone.
Qed.

(** X6.  In a graph with distinct variable names that does not use the
    trainer's scope yet, with a default session and a policy class whose
    parameters have distinct names, the constructor returns.  The trainer
    runs in the default session, keeps the batch size and the dataset made
    from the demonstrations, and its policy variables are exactly the
    parameters its class declares, in declaration order, named under
    [bc_supervised_loss/model], appended to the graph, and each holding
    an array of its own shape. *)
Theorem BCTrainer_init_constructs (env : gym_env)
    (demos : option (list transition)) (klass : policy_class) (B : Z)
    (oc : optimizer_class) (ok : option (gmap string Z))
    (ns : option string) (reuse : bool) (w : world) (s : session) :
  let kw := PolicyKwargs (observation_space env) (action_space env)
                         None 1 1000 in
  let sc := scope_join (scope_join (variable_scope w) "bc_supervised_loss")
                       "model" in
  default_session w = Some s ->
  NoDup (var_name <$> trainable_variables w) ->
  scope_unused sc w ->
  NoDup (var_name <$> param_decls klass kw) ->
  exists t w',
    BCTrainer_init env demos klass B oc ok ns reuse w = (inr t, w') /\
    self_sess t = s /\
    self_batch_size t = B /\
    self_expert_dataset t = new_dataset <$> demos /\
    self_policy_kwargs t = kw /\
    self_policy_variables t = in_scope sc <$> param_decls klass kw /\
    pol_variables (self_policy t) = self_policy_variables t /\
    trainable_variables w' = trainable_variables w ++ self_policy_variables t /\
    variable_scope w' = variable_scope w /\
    values_well_shaped t w'.
Proof.
  intros kw sc Hsess Hnames Hfresh Hnd.
  set (vars := in_scope sc <$> param_decls klass kw).
  set (w1 := set_trainable_variables (trainable_variables w ++ vars)
               (set_graph_has_ops true w)).
  pose proof (_build_tf_graph_run env klass s w Hfresh Hnd) as Hbuild.
  cbv zeta in Hbuild. fold kw sc vars w1 in Hbuild.
  pose proof (initializers_shapes s (trainable_variables w ++ vars)
                (var_values w, np_random w)
                (graph_names_NoDup sc _ _ Hnames Hfresh Hnd)) as Hsh.
  destruct (foldl (run_initializer s) (var_values w, np_random w)
                  (trainable_variables w ++ vars)) as [vals r] eqn:Efold.
  exists (Build_BCTrainer env klass B (new_dataset <$> demos) s kw
            (Policy klass s kw sc vars) vars
            (Minimize (Optimizer AdamOptimizer ∅) sc)),
         (set_adam_slots opt_init (set_np_random r (set_var_values vals w1))).
  split.
  - unfold BCTrainer_init, get_default_session.
    unfold bind at 1, bind at 1, get. cbn [ret]. rewrite Hsess.
    rewrite (bind_inr _ _ _ _ _ Hbuild).
    unfold global_variables_initializer, modify, bind. cbn.
    rewrite Efold. now destruct demos.
  - repeat (split; [reflexivity|]).
    unfold values_well_shaped. cbn.
    now apply Forall_app in Hsh as [_ Hsh].
Qed.

(** X7.  Two trainers cannot be built in the same graph and scope: after a
    constructor call that returned a trainer whose policy class declares at
    least one parameter, a second call for the same environment and class
    raises [ValueError] on the first parameter, which already exists; it
    creates no variable and assigns none (in particular the first
    trainer's parameter values are not re-initialised). *)
Theorem BCTrainer_init_twice (env : gym_env)
    (demos demos2 : option (list transition)) (klass : policy_class)
    (B B2 : Z) (oc oc2 : optimizer_class) (ok ok2 : option (gmap string Z))
    (ns ns2 : option string) (reuse reuse2 : bool) (w : world)
    (t : BCTrainer) (w' : world) (d : tf_var) (rest : list tf_var) :
  BCTrainer_init env demos klass B oc ok ns reuse w = (inr t, w') ->
  param_decls klass (self_policy_kwargs t) = d :: rest ->
  exists w'',
    BCTrainer_init env demos2 klass B2 oc2 ok2 ns2 reuse2 w' =
      (inl (ValueError
              (already_exists_msg
                 (var_name
                    (in_scope
                       (scope_join
                          (scope_join (variable_scope w) "bc_supervised_loss")
                          "model") d)))), w'') /\
    trainable_variables w'' = trainable_variables w' /\
    var_values w'' = var_values w' /\
    adam_slots w'' = adam_slots w'.
Proof.
  intros Hinit Hdecls. exists w'. split; [|now repeat split].
  apply BCTrainer_init_inv in Hinit
    as (sess & kwargs & pol & vars & op & w1 & Hdef & Hb & Hgvi & ->).
  cbn [self_policy_kwargs] in Hdecls.
  apply _build_tf_graph_grows in Hb as [Hkw ->].
  destruct (initializer_graph sess
              (set_trainable_variables
                 (trainable_variables w ++
                    (in_scope
                       (scope_join
                          (scope_join (variable_scope w) "bc_supervised_loss")
                          "model") <$> param_decls klass kwargs))
                 (set_graph_has_ops true w)))
    as (vals & r & Hgvi').
  rewrite Hgvi' in Hgvi. inversion Hgvi as [Hw']. clear Hgvi Hgvi'.
  set (sc := scope_join (scope_join (variable_scope w) "bc_supervised_loss")
                        "model") in *.
  unfold BCTrainer_init, get_default_session.
  unfold bind at 1, bind at 1, get. cbn [ret].
  change (default_session _) with (default_session w). rewrite Hdef.
  unfold bind at 1.
  unfold _build_tf_graph, with_variable_scope at 1.
  unfold bind at 1. unfold with_variable_scope at 1.
  unfold bind at 1. rewrite <- Hkw.
  match goal with
  | |- context [new_policy klass sess kwargs ?w0] => set (w_in := w0)
  end.
  assert (Hclash : var_name (in_scope (variable_scope w_in) d)
                     ∈ var_name <$> trainable_variables w_in).
  { change (variable_scope w_in) with sc.
    change (trainable_variables w_in)
      with (trainable_variables w ++ (in_scope sc <$> param_decls klass kwargs)).
    rewrite Hdecls, fmap_app. apply elem_of_app. right.
    rewrite !fmap_cons. apply elem_of_cons. now left. }
  rewrite (new_policy_clash klass sess kwargs w_in d rest Hdecls Hclash).
  change (variable_scope w_in) with sc. cbn.
  f_equal.
Qed.

End ConstructorMore.

(** ** Training: edge cases, frame, callbacks, replacing the dataset *)

Section TrainMore.
Context `{RT : Runtime}.

(** X8.  With a dataset but a batch size of zero, [train] with
    [n_epochs >= 1] raises [ZeroDivisionError] when it computes the number
    of batches of its first epoch; nothing has been done by then. *)
Theorem train_zero_batch_size (t : BCTrainer) (d : dataset) (k : Z)
    (cb : option callback) (w : world) :
  self_expert_dataset t = Some d ->
  self_batch_size t = 0%Z ->
  (1 <= k)%Z ->
  train t k cb w =
    (inl (ZeroDivisionError "integer division or modulo by zero"), w).
Proof.
  intros Hd HB Hk. apply train_first_epoch_raises; [exact Hk|].
  unfold train_epoch. rewrite Hd, HB. reflexivity.
Qed.

Lemma training_frame_refl (s : session) (vars : list tf_var) (w : world) :
  training_frame s vars w w.
Proof. now repeat split. Qed.

Lemma training_frame_trans (s : session) (vars : list tf_var)
    (w w1 w2 : world) :
  training_frame s vars w w1 -> training_frame s vars w1 w2 ->
  training_frame s vars w w2.
Proof.
  intros [(H1 & H2 & H3 & H4) Hv1] [(H1' & H2' & H3' & H4') Hv2].
  split; [repeat split; congruence|].
  intros k Hk. rewrite (Hv2 k Hk). now apply Hv1.
Qed.

Lemma mapM_read_world (s : session) (vars : list tf_var) (w : world) :
  (mapM (read_variable s) vars w).2 = w.
Proof.
  induction vars as [|v vars IH]; [reflexivity|].
  rewrite mapM_cons. unfold bind at 1.
  unfold read_variable at 1, bind at 1, get.
  destruct (var_values w !! (s, var_name v)) as [a|]; [|reflexivity].
  cbn [ret]. unfold bind at 1.
  destruct (mapM (read_variable s) vars w) as [[e|vals] w1];
    cbn in IH; now subst.
Qed.

Lemma sess_run_read_world (s : session) (vars : list tf_var) (w : world) :
  (sess_run_read s vars w).2 = w.
Proof.
  unfold sess_run_read, bind at 1, get.
  destruct (_ !! _) as [v|]; [reflexivity|apply mapM_read_world].
Qed.

Lemma sess_run_train_frame (t : BCTrainer) (batch : list sample) (w : world) :
  training_frame (self_sess t) (self_policy_variables t) w
                 (sess_run_train t batch w).2.
Proof.
  unfold sess_run_train. unfold bind at 1.
  pose proof (sess_run_read_world (self_sess t) (self_policy_variables t) w)
    as Hw.
  destruct (sess_run_read (self_sess t) (self_policy_variables t) w)
    as [[e|params] w0]; cbn in Hw; subst w0;
    [apply training_frame_refl|].
  unfold bind at 1, get.
  destruct (run_train_op _ _ _ batch params (adam_slots w))
    as [[params' slots'] loss].
  cbn. split; [now repeat split|].
  intros k Hk. cbn. apply assign_all_other. intros Hin. apply Hk.
  apply list_elem_of_fmap in Hin as (v & -> & Hv).
  apply list_elem_of_fmap in Hv as ([v' a] & -> & Hva).
  apply list_elem_of_fmap. exists v'. split; [reflexivity|].
  now apply elem_of_zip_l in Hva.
Qed.

Lemma for_batches_frame (t : BCTrainer) (bs : list (list sample)) :
  forall (e0 : option float) (w : world),
  training_frame (self_sess t) (self_policy_variables t) w
                 (for_batches t bs e0 w).2.
Proof.
  induction bs as [|b bs IH]; intros e0 w; [apply training_frame_refl|].
  cbn [for_batches]. unfold bind at 1. unfold train_batch, bind at 1.
  pose proof (sess_run_train_frame t b w) as Hstep.
  destruct (sess_run_train t b w) as [[e|loss] w1]; [exact Hstep|].
  cbn in Hstep. cbn.
  eapply training_frame_trans; [exact Hstep|].
  eapply training_frame_trans; [|apply IH].
  now repeat split.
Qed.

Lemma train_epoch_frame (cb : option callback) (t : BCTrainer) (n : nat)
    (w : world) :
  training_frame (self_sess t) (self_policy_variables t) w
                 (train_epoch cb t n w).2 /\
  (forall t', (train_epoch cb t n w).1 = inr t' ->
              self_sess t' = self_sess t /\
              self_policy_variables t' = self_policy_variables t).
Proof.
  unfold train_epoch.
  destruct (self_expert_dataset t) as [d|];
    [|split; [apply training_frame_refl|intros ? Heq; discriminate Heq]].
  unfold floordiv.
  destruct (self_batch_size t =? 0)%Z;
    [split; [apply training_frame_refl|intros ? Heq; discriminate Heq]|].
  unfold bind. cbn [ret]. rewrite iterate_once_run.
  match goal with
  | |- context [for_batches t ?bs None ?w0] =>
      pose proof (for_batches_frame t bs None w0) as Hloop;
      destruct (for_batches t bs None w0) as [[e|ewma] w1]
  end.
  { split; [|intros ? Heq; discriminate Heq].
    eapply training_frame_trans; [|exact Hloop]. now repeat split. }
  cbn in Hloop.
  destruct ewma as [e|]; cbn [format_loss ret raise modify].
  - split.
    + eapply training_frame_trans; [|eapply training_frame_trans];
        [|exact Hloop|]; [now repeat split|].
      destruct cb; now repeat split.
    + destruct cb; cbn; intros t' Heq; inversion Heq; now subst.
  - split; [|intros ? Heq; discriminate Heq].
    eapply training_frame_trans; [|exact Hloop]. now repeat split.
Qed.

Lemma for_epochs_frame (cb : option callback) (epochs : list nat) :
  forall (t : BCTrainer) (w : world),
  training_frame (self_sess t) (self_policy_variables t) w
                 (for_epochs cb t epochs w).2.
Proof.
  induction epochs as [|n epochs IH]; intros t w;
    [apply training_frame_refl|].
  cbn [for_epochs]. unfold bind at 1.
  destruct (train_epoch_frame cb t n w) as [Hframe Hsame].
  destruct (train_epoch cb t n w) as [[e|t1] w1]; [exact Hframe|].
  cbn in Hframe. destruct (Hsame t1 eq_refl) as [Hs Hv].
  eapply training_frame_trans; [exact Hframe|].
  rewrite <- Hs, <- Hv. apply IH.
Qed.

(** X9.  Whatever its arguments and whether it returns or raises, [train]
    leaves the graph, the variable scope, the default session and the
    files as they were, and changes no variable value other than those of
    the trainer's own policy variables in the trainer's session. *)
Theorem train_frame (t : BCTrainer) (k : Z) (cb : option callback)
    (w : world) :
  same_graph w (train t k cb w).2 /\
  values_agree_outside (self_sess t) (self_policy_variables t)
                       w (train t k cb w).2.
Proof. apply for_epochs_frame. Qed.

End TrainMore.

Section TrainReports.
Context `{RT : Runtime} `{!RuntimeLaws RT}.

Lemma train_epoch_callback (cb : option callback) (t : BCTrainer)
    (d : dataset) (n : nat) (w : world) :
  self_expert_dataset t = Some d ->
  (0 < self_batch_size t <= Z.of_nat (n_samples d))%Z ->
  vars_initialised t w ->
  exists d' e w',
    train_epoch cb t n w = (inr (with_expert_dataset (Some d') t), w') /\
    n_samples d' = n_samples d /\
    vars_initialised t w' /\
    last (progress_log w') = Some (EpochLossEwma e) /\
    callback_log w' =
      callback_log w ++
        callback_entries cb (Z.of_nat (n_samples d) / self_batch_size t)
                         [n] [e].
Proof.
  intros Hd [Hpos Hle] Hinit.
  set (B := self_batch_size t) in *. set (N := n_samples d) in *.
  set (r := np_random_shuffle N (np_random w)).
  set (rows' := reorder r.1 (rows d)).
  set (bs := batches (Z.to_nat (Z.of_nat N / B)) (Z.to_nat B) rows').
  assert (Hrows : length rows' = N) by apply reorder_n_samples.
  assert (Hcount : length bs = Z.to_nat (Z.of_nat N / B))
    by apply batches_length.
  assert (Hinit1 : vars_initialised t (set_np_random r.2 w)) by exact Hinit.
  destruct (for_batches_run t bs None _ Hinit1)
    as (losses & w1 & Hrun & Hlen & _ & Hprog & Hcb & _ & Hinit').
  assert (Hone : (0 < Z.of_nat N / B)%Z) by (apply Z.div_str_pos; lia).
  destruct losses as [|l1 ls]; [cbn in Hlen; lia|].
  rewrite foldl_ewma_update_None in Hrun. cbn [ewma_of_losses] in Hrun.
  set (e := foldl ewma_step l1 ls) in *.
  set (w2 := set_progress_log (progress_log w1 ++ [EpochLossEwma e]) w1).
  exists (Dataset rows'), e,
         (match cb with
          | Some _ =>
              set_callback_log
                (callback_log w2 ++
                   [EpochLocals n (Z.of_nat N / B) e]) w2
          | None => w2
          end).
  split; [|split; [exact Hrows|]].
  - unfold train_epoch. rewrite Hd. unfold bind at 1. cbn [ret].
    unfold floordiv. fold B N.
    destruct (Z.eqb_spec B 0) as [?|_]; [lia|].
    unfold bind at 1. cbn [ret].
    unfold bind at 1. rewrite iterate_once_run. fold N r rows' bs B.
    rewrite (bind_inr _ _ _ _ _ Hrun).
    unfold bind at 1. cbn [format_loss ret].
    unfold bind at 1. cbn [modify].
    destruct cb; reflexivity.
  - destruct cb; cbn; (split; [exact Hinit'|]);
      (split; [now rewrite last_snoc|]); rewrite ?Hcb, ?app_nil_r;
      reflexivity.
Qed.

Lemma for_epochs_callback (cb : option callback) (len : nat) :
  forall (start : nat) (t : BCTrainer) (d : dataset) (w : world),
  self_expert_dataset t = Some d ->
  (0 < self_batch_size t <= Z.of_nat (n_samples d))%Z ->
  vars_initialised t w ->
  exists t' w' ewmas,
    for_epochs cb t (seq start len) w = (inr t', w') /\
    length ewmas = len /\
    callback_log w' =
      callback_log w ++
        callback_entries cb (Z.of_nat (n_samples d) / self_batch_size t)
                         (seq start len) ewmas.
Proof.
  induction len as [|len IH]; intros start t d w Hd Hb Hinit.
  - exists t, w, []. cbn. split; [reflexivity|]. split; [reflexivity|].
    destruct cb; cbn; now rewrite app_nil_r.
  - destruct (train_epoch_callback cb t d start w Hd Hb Hinit)
      as (d' & e & w1 & Hrun1 & Hn & Hinit1 & _ & Hcb1).
    destruct (IH (S start) (with_expert_dataset (Some d') t) d' w1)
      as (t' & w' & ewmas & Hrun & Hlen & Hcb).
    { reflexivity. }
    { cbn. now rewrite Hn. }
    { exact Hinit1. }
    exists t', w', (e :: ewmas). split; [|split].
    + cbn [seq for_epochs]. now rewrite (bind_inr _ _ _ _ _ Hrun1).
    + cbn. now rewrite Hlen.
    + rewrite Hcb, Hcb1. cbn [self_batch_size with_expert_dataset].
      rewrite Hn. destruct cb; cbn; now rewrite <- app_assoc.
Qed.

(** X10.  A [train] call that is given a callback calls it exactly once
    per epoch, in order, with the epoch number 0, 1, ..., n_epochs - 1 and
    with [total_batches = N // B]; without a callback nothing is called. *)
Theorem train_callback_calls (t : BCTrainer) (d : dataset) (k : Z)
    (cb : option callback) (w : world) :
  self_expert_dataset t = Some d ->
  (0 < self_batch_size t <= Z.of_nat (n_samples d))%Z ->
  vars_initialised t w ->
  exists t' w' ewmas,
    train t k cb w = (inr t', w') /\
    length ewmas = Z.to_nat k /\
    callback_log w' =
      callback_log w ++
        callback_entries cb (Z.of_nat (n_samples d) / self_batch_size t)
                         (seq 0 (Z.to_nat k)) ewmas.
Proof.
  intros Hd Hb Hinit. now apply for_epochs_callback.
Qed.

(** X11.  [set_expert_dataset] makes a trainer trainable on the new
    demonstrations, whatever dataset it had before (none included): it
    keeps the session, the policy and its variables, and a following
    [train] with [n_epochs = k] makes k * floor(N/B) optimiser steps for
    the N new demonstrations, each on exactly B pairs. *)
Theorem set_expert_dataset_then_train (t : BCTrainer)
    (demos : list transition) (k : Z) (cb : option callback) (w : world) :
  (0 < self_batch_size t <= Z.of_nat (length demos))%Z ->
  vars_initialised t w ->
  self_sess (set_expert_dataset t demos) = self_sess t /\
  self_policy (set_expert_dataset t demos) = self_policy t /\
  self_policy_variables (set_expert_dataset t demos)
    = self_policy_variables t /\
  exists t' w' steps,
    train (set_expert_dataset t demos) k cb w = (inr t', w') /\
    steps_log w' = steps_log w ++ steps /\
    length steps =
      Z.to_nat k * Z.to_nat (Z.of_nat (length demos) / self_batch_size t) /\
    Forall (fun b => Z.of_nat (length b) = self_batch_size t) steps.
Proof.
  intros Hb Hinit. repeat (split; [reflexivity|]).
  assert (Hn : n_samples (new_dataset demos) = length demos)
    by (unfold n_samples, new_dataset; cbn; apply length_fmap).
  destruct (for_epochs_run cb (seq 0 (Z.to_nat k))
              (set_expert_dataset t demos) (new_dataset demos) w)
    as (t' & w' & steps & Hrun & Hsteps & Hlen & Hsz).
  { reflexivity. }
  { rewrite Hn. exact Hb. }
  { exact Hinit. }
  exists t', w', steps. split; [exact Hrun|]. split; [exact Hsteps|].
  split.
  - rewrite length_seq, Hn in Hlen. exact Hlen.
  - eapply Forall_impl; [exact Hsz|]. cbn. intros b Hlb. lia.
Qed.

End TrainReports.

(** ** Persistence: what is written, failures, what reconstruction leaves *)

Section PersistenceMore.
Context `{RT : Runtime}.

(** X12.  [save_policy] on a trainer whose policy variables are
    initialised, for a path the file system lets it write (not the empty
    path; directories can be created and the file opened), returns; the
    file at the path then holds the policy class, the keyword arguments and
    the current values of the policy variables in order, whatever the path
    held before; every other file, every variable value and the graph are
    unchanged. *)
Theorem save_policy_writes (t : BCTrainer) (path : string) (w : world) :
  vars_initialised t w ->
  path_writable path w ->
  exists vals w',
    sess_run_read (self_sess t) (self_policy_variables t) w = (inr vals, w) /\
    save_policy t path w = (inr tt, w') /\
    files w' !! path
      = Some (Pickle (self_policy_class t) (self_policy_kwargs t) vals) /\
    (forall path', path' ≠ path -> files w' !! path' = files w !! path') /\
    var_values w' = var_values w /\
    trainable_variables w' = trainable_variables w.
Proof.
  intros Hinit Hpath.
  destruct (sess_run_read_run _ _ _ Hinit) as (vals & Hread & _).
  exists vals. eexists. split; [exact Hread|]. split.
  - exact (save_policy_run t path w vals Hread Hpath).
  - cbn. split; [apply lookup_insert_eq|]. split; [|now split].
    intros path' Hne. now apply lookup_insert_ne.
Qed.

(** A read of variables some of which are uninitialised raises on one of
    the uninitialised ones. *)
Lemma sess_run_read_uninitialised (s : session) (vars : list tf_var)
    (w : world) :
  Exists (fun v => var_values w !! slot s v = None) vars ->
  exists v,
    v ∈ vars /\ var_values w !! slot s v = None /\
    sess_run_read s vars w = (inl (FailedPreconditionError (var_name v)), w).
Proof.
  intros Hex. unfold sess_run_read, bind at 1, get.
  set (missing := uninitialised s vars w).
  assert (Hmissing : forall v, v ∈ missing ->
            v ∈ vars /\ var_values w !! slot s v = None).
  { intros v Hv. apply list_elem_of_In, filter_In in Hv as [Hv Hnone].
    split; [now apply list_elem_of_In|].
    now apply bool_decide_eq_true_1 in Hnone. }
  assert (Hlen : 0 < length missing).
  { apply Exists_exists in Hex as (v & Hv & Hnone).
    assert (Hin : v ∈ missing).
    { apply list_elem_of_In, filter_In. split; [now apply list_elem_of_In|].
      now apply bool_decide_eq_true_2. }
    destruct missing; [now apply elem_of_nil in Hin|cbn; lia]. }
  destruct (lookup_lt_is_Some_2 missing
              (tf_reported (var_name <$> missing) mod length missing))
    as [v Hv]; [apply Nat.mod_upper_bound; lia|].
  rewrite Hv. exists v.
  apply list_elem_of_lookup_2, Hmissing in Hv as [Hin Hnone].
  now repeat split.
Qed.

(** X13.  [save_policy] on a trainer some of whose policy variables have
    no value in the trainer's session raises, naming one of these
    uninitialised variables, and writes no file: the world is unchanged. *)
Theorem save_policy_uninitialised (t : BCTrainer) (path : string) (w : world) :
  ~ vars_initialised t w ->
  exists v,
    v ∈ self_policy_variables t /\
    var_values w !! slot (self_sess t) v = None /\
    save_policy t path w = (inl (FailedPreconditionError (var_name v)), w).
Proof.
  intros Hnot. unfold vars_initialised in Hnot.
  apply not_Forall_Exists in Hnot; [|intros v; apply _].
  destruct (sess_run_read_uninitialised (self_sess t)
              (self_policy_variables t) w) as (v & Hv & Hnone & Hrun).
  { eapply Exists_impl; [exact Hnot|]. cbn. intros v Hv.
    now apply eq_None_not_Some. }
  exists v. split; [exact Hv|]. split; [exact Hnone|].
  unfold save_policy. now rewrite (bind_inl _ _ _ _ _ Hrun).
Qed.

Lemma resolve_session_none (sess : option session) (w : world) :
  session_for sess w = None ->
  (match sess with
   | Some s => ret s
   | None =>
       d <- get_default_session ;;
       match d with
       | Some s => ret s
       | None => raise (AssertionError supply_session_msg)
       end
   end) w = (inl (AssertionError supply_session_msg), w).
Proof.
  destruct sess as [s0|]; cbn; intros Hs; [discriminate|].
  unfold get_default_session, bind, get, ret. now rewrite Hs.
Qed.

(** X14.  [reconstruct_policy] without a session argument and without a
    default session raises its assertion before the file is read (so also
    when the file does not exist) and changes nothing. *)
Theorem reconstruct_policy_no_session (path : string)
    (sess : option session) (w : world) :
  session_for sess w = None ->
  reconstruct_policy path sess w =
    (inl (AssertionError supply_session_msg), w).
Proof.
  intros Hs. unfold reconstruct_policy.
  now rewrite (bind_inl _ _ _ _ _ (resolve_session_none _ _ Hs)).
Qed.

(** X15.  [reconstruct_policy] with a session, for a path that holds no
    file, raises [FileNotFoundError]; no variable has been created. *)
Theorem reconstruct_policy_missing_file (path : string)
    (sess : option session) (w : world) (s : session) :
  session_for sess w = Some s ->
  files w !! path = None ->
  reconstruct_policy path sess w = (inl (FileNotFoundError path), w).
Proof.
  intros Hs Hfile. unfold reconstruct_policy.
  rewrite (bind_inr _ _ _ _ _ (resolve_session_run _ _ _ Hs)).
  unfold bind at 1, get. now rewrite Hfile.
Qed.

Lemma set_variable_scope_restore (sc : string) (w : world) :
  set_variable_scope (variable_scope w) (set_variable_scope sc w) = w.
Proof. now destruct w. Qed.

(** A [reconstruct_policy] whose first parameter already exists in its
    scope raises; in a graph that holds operations it leaves the world as
    it was. *)
Lemma reconstruct_policy_clash (path : string) (sess : option session)
    (w : world) (s : session) (p : pickle) (d : tf_var) (rest : list tf_var) :
  files w !! path = Some p ->
  session_for sess w = Some s ->
  graph_has_ops w = true ->
  param_decls (pk_class p) (pk_kwargs p) = d :: rest ->
  var_name (in_scope (reconstructed_scope w) d)
    ∈ var_name <$> trainable_variables w ->
  reconstruct_policy path sess w =
    (inl (ValueError
            (already_exists_msg
               (var_name (in_scope (reconstructed_scope w) d)))), w).
Proof.
  intros Hfile Hs Hops Hdecls Hin. unfold reconstruct_policy.
  rewrite (bind_inr _ _ _ _ _ (resolve_session_run _ _ _ Hs)).
  unfold bind at 1, get. rewrite Hfile.
  unfold bind at 1. cbn [ret].
  apply bind_inl.
  assert (Hw : set_variable_scope (variable_scope w)
                 (set_graph_has_ops true
                    (set_variable_scope (reconstructed_scope w) w)) = w).
  { destruct w. cbn in *. now subst. }
  rewrite <- Hw at 3.
  apply with_variable_scope_run.
  apply bind_inl.
  apply (new_policy_clash (pk_class p) s (pk_kwargs p)
           (set_variable_scope (reconstructed_scope w) w) d rest Hdecls).
  exact Hin.
Qed.

(** What a [reconstruct_policy] call that returned has done, whatever the
    graph held before. *)
Lemma reconstruct_policy_inv (path : string) (sess : option session)
    (w : world) (rv : policy) (w' : world) :
  reconstruct_policy path sess w = (inr rv, w') ->
  exists s p,
    session_for sess w = Some s /\
    files w !! path = Some p /\
    rv = Policy (pk_class p) s (pk_kwargs p) (reconstructed_scope w)
           (in_scope (reconstructed_scope w) <$>
              param_decls (pk_class p) (pk_kwargs p)) /\
    w' = set_var_values (var_values w')
           (set_trainable_variables
              (trainable_variables w ++ pol_variables rv)
              (set_graph_has_ops true w)).
Proof.
  unfold reconstruct_policy. unfold bind at 1.
  destruct (session_for sess w) as [s|] eqn:Es.
  2:{ rewrite (resolve_session_none _ _ Es). discriminate. }
  rewrite (resolve_session_run _ _ _ Es).
  unfold bind at 1, get.
  destruct (files w !! path) as [p|]; [|discriminate].
  unfold bind at 1. cbn [ret]. unfold bind at 1.
  unfold with_variable_scope, bind at 1.
  fold (reconstructed_scope w).
  destruct (new_policy (pk_class p) s (pk_kwargs p)
              (set_variable_scope (reconstructed_scope w) w))
    as [[e|pol] w1] eqn:Enp; [discriminate|].
  apply new_policy_inv in Enp as (-> & -> & _).
  unfold get_variable_scope, bind at 1, bind at 1, get. cbn [ret].
  unfold bind at 1.
  match goal with
  | |- context [set_tf_vars ?a ?b ?c ?d ?w0] =>
      destruct (set_tf_vars a b c d w0) as [[e|[]] w2] eqn:Eset
  end; [discriminate|].
  apply set_tf_vars_frame in Eset as [Hw2 _].
  cbn. intros Heq. inversion Heq; subst rv w'. clear Heq.
  exists s, p. split; [reflexivity|]. split; [reflexivity|].
  split; [reflexivity|].
  rewrite Hw2 at 1. reflexivity.
Qed.

(** X16.  A second reconstruction in the same graph fails: after a
    [reconstruct_policy] call that returned, for a record whose class
    declares at least one parameter, the same call raises [ValueError] on
    the first parameter, which now exists, and changes nothing. *)
Theorem reconstruct_policy_twice (path : string) (sess : option session)
    (w : world) (rv : policy) (w' : world) (d : tf_var) (rest : list tf_var) :
  reconstruct_policy path sess w = (inr rv, w') ->
  param_decls (pol_class rv) (pol_kwargs rv) = d :: rest ->
  reconstruct_policy path sess w' =
    (inl (ValueError
            (already_exists_msg
               (var_name (in_scope (reconstructed_scope w) d)))), w').
Proof.
  intros Hrun Hdecls.
  apply reconstruct_policy_inv in Hrun as (s & p & Hs & Hfile & -> & Hw').
  cbn [pol_class pol_kwargs pol_variables] in *.
  assert (Hscope : reconstructed_scope w' = reconstructed_scope w)
    by (rewrite Hw'; reflexivity).
  rewrite <- Hscope.
  apply (reconstruct_policy_clash path sess w' s p d rest).
  - rewrite Hw'. exact Hfile.
  - rewrite Hw'. exact Hs.
  - rewrite Hw'. reflexivity.
  - exact Hdecls.
  - rewrite Hscope, Hw'. cbn. rewrite Hdecls, fmap_app.
    apply elem_of_app. right. rewrite !fmap_cons. apply elem_of_cons.
    now left.
Qed.

(** Whatever its outcome, [reconstruct_policy] only appends variables to
    the graph and changes variable values. *)
Lemma reconstruct_policy_frame (path : string) (sess : option session)
    (w : world) :
  exists added m b,
    (reconstruct_policy path sess w).2 =
      set_var_values m
        (set_trainable_variables (trainable_variables w ++ added)
           (set_graph_has_ops b w)).
Proof.
  assert (Hid : exists added m b,
            w = set_var_values m
                  (set_trainable_variables (trainable_variables w ++ added)
                     (set_graph_has_ops b w))).
  { exists [], (var_values w), (graph_has_ops w). rewrite app_nil_r.
    now destruct w. }
  unfold reconstruct_policy. unfold bind at 1.
  destruct (session_for sess w) as [s|] eqn:Es.
  2:{ now rewrite (resolve_session_none _ _ Es). }
  rewrite (resolve_session_run _ _ _ Es).
  unfold bind at 1, get.
  destruct (files w !! path) as [p|]; [|exact Hid].
  unfold bind at 1. cbn [ret]. unfold bind at 1.
  unfold with_variable_scope, bind at 1.
  destruct (new_policy_frame (pk_class p) s (pk_kwargs p)
              (set_variable_scope
                 (scope_join (variable_scope w) "reconstructed_policy") w))
    as [added Hadded].
  destruct (new_policy _ _ _ _) as [[e|pol] w1]; cbn in Hadded; subst w1.
  { exists added, (var_values w), true. cbn. now destruct w. }
  unfold get_variable_scope, bind at 1, bind at 1, get. cbn [ret].
  unfold bind at 1.
  match goal with
  | |- context [set_tf_vars ?a ?b ?c ?d ?w0] =>
      destruct (set_tf_vars a b c d w0) as [[e|[]] w2] eqn:Eset
  end; apply set_tf_vars_frame in Eset as [Hw2 _];
    exists added, (var_values w2), true; cbn; rewrite Hw2 at 1; reflexivity.
Qed.

(** X17.  Whatever its arguments and whether it returns or raises,
    [reconstruct_policy] restores the variable scope, writes no file,
    keeps the default session, makes no optimiser step, and never removes
    or reorders a variable of the graph: it only appends. *)
Theorem reconstruct_policy_leaves (path : string) (sess : option session)
    (w : world) :
  variable_scope (reconstruct_policy path sess w).2 = variable_scope w /\
  files (reconstruct_policy path sess w).2 = files w /\
  default_session (reconstruct_policy path sess w).2 = default_session w /\
  steps_log (reconstruct_policy path sess w).2 = steps_log w /\
  trainable_variables w
    `prefix_of` trainable_variables (reconstruct_policy path sess w).2.
Proof.
  destruct (reconstruct_policy_frame path sess w) as (added & m & b & ->).
  cbn. repeat split. now exists added.
Qed.

(** X18.  A reconstruction in a graph that does not use its scope yet does
    not disturb what exists: the graph gains exactly the new policy's
    variables, and in every session every value of every variable the
    graph already had is unchanged; only the new policy's variables, in the
    session of the call, receive values. *)
Theorem reconstruct_policy_preserves (path : string) (sess : option session)
    (w : world) (s : session) (p : pickle) :
  files w !! path = Some p ->
  session_for sess w = Some s ->
  scope_unused (reconstructed_scope w) w ->
  NoDup (var_name <$> param_decls (pk_class p) (pk_kwargs p)) ->
  Forall2 (fun d a => shape a = var_shape d)
          (param_decls (pk_class p) (pk_kwargs p)) (pk_params p) ->
  exists rv w',
    reconstruct_policy path sess w = (inr rv, w') /\
    trainable_variables w' = trainable_variables w ++ pol_variables rv /\
    values_agree_outside s (pol_variables rv) w w' /\
    Forall (fun v => forall s', var_values w' !! slot s' v
                                = var_values w !! slot s' v)
           (trainable_variables w).
Proof.
  intros Hfile Hsess Hfresh Hnd Hshapes.
  destruct (reconstruct_policy_builds path sess w s p Hfile Hsess Hfresh Hnd)
    as [Hrun Hdest].
  cbv zeta in Hrun, Hdest.
  set (sc := reconstructed_scope w) in *.
  set (vars := in_scope sc <$> param_decls (pk_class p) (pk_kwargs p)) in *.
  set (w1 := set_trainable_variables (trainable_variables w ++ vars)
               (set_graph_has_ops true w)) in *.
  destruct (set_tf_vars_effect (pk_params p) (Some sc) None (Some s) w1 vars s)
    as (w' & Hset & _ & Hother & Hw').
  { exact Hdest. }
  { reflexivity. }
  { intros _. apply grown_graph_not_empty. }
  { unfold vars. apply Forall2_fmap_l.
    eapply Forall2_impl; [exact Hshapes|]. now intros d a Hda. }
  { now apply in_scope_names_NoDup. }
  exists (Policy (pk_class p) s (pk_kwargs p) sc vars), w'.
  split; [|split; [|split]].
  - rewrite Hrun. now rewrite (bind_inr _ _ _ _ _ Hset).
  - rewrite Hw'. reflexivity.
  - intros k Hk. now apply Hother.
  - apply Forall_forall. intros v Hv s'. apply Hother.
    intros Hin. apply list_elem_of_fmap in Hin as (v' & Heq & Hv').
    unfold vars in Hv'. apply list_elem_of_fmap in Hv' as (d & -> & _).
    unfold scope_unused in Hfresh. rewrite Forall_forall in Hfresh.
    specialize (Hfresh v Hv). unfold slot in Heq.
    assert (Hname : var_name v = var_name (in_scope sc d)) by congruence.
    rewrite Hname in Hfresh. cbn in Hfresh.
    unfold sc in Hfresh. now rewrite scope_matches_join in Hfresh.
Qed.

(** X19.  A reconstruction that fails on the parameter count is not rolled
    back: the variables of the policy it built stay in the graph, so a
    further reconstruction in the same graph of a record of a class with
    the same first parameter raises [ValueError], whatever arrays that
    record lists. *)
Theorem reconstruct_policy_not_rolled_back (path path2 : string)
    (sess : option session) (w : world) (s : session) (p p2 : pickle)
    (d : tf_var) (rest rest2 : list tf_var) :
  files w !! path = Some p ->
  files w !! path2 = Some p2 ->
  session_for sess w = Some s ->
  scope_unused (reconstructed_scope w) w ->
  NoDup (var_name <$> param_decls (pk_class p) (pk_kwargs p)) ->
  length (pk_params p) ≠ length (param_decls (pk_class p) (pk_kwargs p)) ->
  param_decls (pk_class p) (pk_kwargs p) = d :: rest ->
  param_decls (pk_class p2) (pk_kwargs p2) = d :: rest2 ->
  exists e w',
    reconstruct_policy path sess w = (inl e, w') /\
    trainable_variables w' =
      trainable_variables w ++
        (in_scope (reconstructed_scope w) <$>
           param_decls (pk_class p) (pk_kwargs p)) /\
    reconstruct_policy path2 sess w' =
      (inl (ValueError
              (already_exists_msg
                 (var_name (in_scope (reconstructed_scope w) d)))), w').
Proof.
  intros Hfile Hfile2 Hsess Hfresh Hnd Hne Hdecls Hdecls2.
  destruct (reconstruct_policy_builds path sess w s p Hfile Hsess Hfresh Hnd)
    as [Hrun Hdest].
  cbv zeta in Hrun, Hdest.
  set (sc := reconstructed_scope w) in *.
  set (vars := in_scope sc <$> param_decls (pk_class p) (pk_kwargs p)) in *.
  set (w1 := set_trainable_variables (trainable_variables w ++ vars)
               (set_graph_has_ops true w)) in *.
  exists (AssertionError (count_msg (length vars) (length (pk_params p)))), w1.
  split; [|split; [reflexivity|]].
  - rewrite Hrun. apply bind_inl.
    apply set_tf_vars_mismatch_run; [exact Hdest|].
    unfold vars. rewrite length_fmap. congruence.
  - apply (reconstruct_policy_clash path2 sess w1 s p2 d rest2);
      [exact Hfile2|exact Hsess|reflexivity|exact Hdecls2|].
    change (reconstructed_scope w1) with sc.
    change (trainable_variables w1) with (trainable_variables w ++ vars).
    unfold vars. rewrite Hdecls, fmap_app. apply elem_of_app. right.
    rewrite !fmap_cons. apply elem_of_cons. now left.
Qed.

End PersistenceMore.

(** ** The constructor's effect on the rest of the graph *)

Section ConstructorEffects.
Context `{RT : Runtime}.

(** After the initialisers ran, every variable holds what its own
    initialiser produced. *)
Lemma initializers_values (s : session) (vars : list tf_var)
    (acc : gmap (session * string) ndarray * rng) :
  NoDup (var_name <$> vars) ->
  Forall (fun v => exists r,
            (foldl (run_initializer s) acc vars).1 !! slot s v
            = Some (initial_value v r).1) vars.
Proof.
  induction vars as [|x l IH] using rev_ind; intros Hnd; [constructor|].
  rewrite fmap_app in Hnd. apply NoDup_app in Hnd as (Hnd & Hdisj & _).
  rewrite foldl_app. cbn [foldl]. specialize (IH Hnd).
  destruct (foldl (run_initializer s) acc l) as [m r].
  unfold run_initializer. cbn [fst snd].
  destruct (initial_value x r) as [a r'] eqn:Ei. cbn [fst] in *.
  apply Forall_app. split.
  - rewrite Forall_forall in IH. apply Forall_forall. intros v Hv.
    destruct (IH v Hv) as [r0 Hr0]. exists r0.
    rewrite lookup_insert_ne; [exact Hr0|].
    unfold slot. intros Heq. apply (Hdisj (var_name v)).
    + apply list_elem_of_fmap. now exists v.
    + cbn. apply list_elem_of_singleton. congruence.
  - constructor; [|constructor]. exists r.
    unfold slot. rewrite lookup_insert_eq. now rewrite Ei.
Qed.

(** X20.  The constructor initialises the whole graph, not only its own
    policy: after a call that returned, in a graph with distinct variable
    names that did not use the trainer's scope, every trainable variable
    of the graph, those that existed before included, holds in the
    trainer's session a value produced by its initialiser, whatever it
    held before. *)
Theorem BCTrainer_init_reinitialises (env : gym_env)
    (demos : option (list transition)) (klass : policy_class) (B : Z)
    (oc : optimizer_class) (ok : option (gmap string Z))
    (ns : option string) (reuse : bool) (w : world) (t : BCTrainer)
    (w' : world) :
  NoDup (var_name <$> trainable_variables w) ->
  scope_unused
    (scope_join (scope_join (variable_scope w) "bc_supervised_loss") "model")
    w ->
  BCTrainer_init env demos klass B oc ok ns reuse w = (inr t, w') ->
  trainable_variables w `prefix_of` trainable_variables w' /\
  Forall (fun v => exists r,
            var_values w' !! slot (self_sess t) v
            = Some (initial_value v r).1)
         (trainable_variables w').
Proof.
  intros Hnames Hfresh Hinit.
  apply BCTrainer_init_inv in Hinit
    as (sess & kwargs & pol & vars & op & w1 & _ & Hb & Hgvi & ->).
  apply _build_tf_graph_inv in Hb as (_ & Hvars & Hnd & ->); [|exact Hfresh].
  pose proof (initializers_values sess (trainable_variables w ++ vars)
                (var_values w, np_random w)) as Hvals.
  unfold global_variables_initializer, modify in Hgvi.
  cbn [trainable_variables var_values np_random set_trainable_variables
       set_graph_has_ops] in Hgvi.
  destruct (foldl (run_initializer sess) (var_values w, np_random w)
                  (trainable_variables w ++ vars)) as [vals r].
  inversion Hgvi; subst w'. cbn. split; [now exists vars|].
  apply Hvals. rewrite Hvars. now apply graph_names_NoDup.
Qed.

(** Whatever its outcome, [_build_tf_graph] only appends variables to the
    graph. *)
Lemma _build_tf_graph_frame (env : gym_env) (klass : policy_class)
    (sess : session) (w : world) :
  exists added,
    (_build_tf_graph env klass sess w).2 =
      set_trainable_variables (trainable_variables w ++ added)
        (set_graph_has_ops true w).
Proof.
  unfold _build_tf_graph, with_variable_scope at 1.
  unfold bind at 1. unfold with_variable_scope at 1.
  unfold bind at 1.
  set (kw := PolicyKwargs (observation_space env) (action_space env) None 1 1000).
  set (w_in := set_variable_scope _ (set_variable_scope _ w)).
  destruct (new_policy_frame klass sess kw w_in) as [added Hadded].
  exists added.
  destruct (new_policy klass sess kw w_in) as [[e|p] w1];
    cbn in Hadded; subst w1; cbn; now destruct w.
Qed.

Lemma BCTrainer_init_frame (env : gym_env)
    (demos : option (list transition)) (klass : policy_class) (B : Z)
    (oc : optimizer_class) (ok : option (gmap string Z))
    (ns : option string) (reuse : bool) (w : world) :
  exists added b,
    (exists e,
       BCTrainer_init env demos klass B oc ok ns reuse w =
         (inl e,
          set_trainable_variables (trainable_variables w ++ added)
            (set_graph_has_ops b w)))
    \/
    (exists t vals r,
       BCTrainer_init env demos klass B oc ok ns reuse w =
         (inr t,
          set_adam_slots opt_init
            (set_np_random r
               (set_var_values vals
                  (set_trainable_variables
                     (trainable_variables w ++ added)
                     (set_graph_has_ops b w)))))).
Proof.
  destruct (BCTrainer_init env demos klass B oc ok ns reuse w)
    as [res w'] eqn:Hrun.
  unfold BCTrainer_init, get_default_session in Hrun.
  unfold bind at 1, bind at 1, get in Hrun. cbn [ret] in Hrun.
  destruct (default_session w) as [sess|].
  2:{ inversion Hrun; subst res w'. exists [], (graph_has_ops w). left.
      eexists. rewrite app_nil_r. now destruct w. }
  unfold bind at 1 in Hrun.
  destruct (_build_tf_graph_frame env klass sess w) as [added Hadded].
  exists added, true.
  destruct (_build_tf_graph env klass sess w)
    as [[e|[[[kwargs pol] vars] op]] w1]; cbn in Hadded; subst w1.
  { inversion Hrun; subst res w'. left. now exists e. }
  cbv beta iota in Hrun. unfold bind at 1 in Hrun.
  match type of Hrun with
  | context [global_variables_initializer sess ?w0] =>
      destruct (initializer_graph sess w0) as (vals & r & Hgvi)
  end.
  rewrite Hgvi in Hrun. inversion Hrun; subst res w'.
  right. eexists _, vals, r. reflexivity.
Qed.

(** X21.  Whatever its arguments and whether it returns or raises, the
    constructor restores the variable scope, writes no file, keeps the
    default session, makes no optimiser step and only appends variables to
    the graph; and when it raises, every variable value and the optimiser's
    slots are as before. *)
Theorem BCTrainer_init_leaves (env : gym_env)
    (demos : option (list transition)) (klass : policy_class) (B : Z)
    (oc : optimizer_class) (ok : option (gmap string Z))
    (ns : option string) (reuse : bool) (w : world) :
  let r := BCTrainer_init env demos klass B oc ok ns reuse w in
  variable_scope r.2 = variable_scope w /\
  files r.2 = files w /\
  default_session r.2 = default_session w /\
  steps_log r.2 = steps_log w /\
  trainable_variables w `prefix_of` trainable_variables r.2 /\
  (forall e, r.1 = inl e ->
     var_values r.2 = var_values w /\
     adam_slots r.2 = adam_slots w).
Proof.
  cbv zeta.
  destruct (BCTrainer_init_frame env demos klass B oc ok ns reuse w)
    as (added & b & [[e ->]|(t & vals & r & ->)]); cbn.
  - do 4 (split; [reflexivity|]). split; [now exists added|].
    intros e0 _. now repeat split.
  - do 4 (split; [reflexivity|]). split; [now exists added|].
    intros e0 He. discriminate He.
Qed.

End ConstructorEffects.

(** * Concrete runs *)

Ltac by_computation := apply (bool_decide_unpack _); vm_compute; exact I.

Lemma demo_runtime_laws : RuntimeLaws Demo.runtime.
Proof.
  split.
  - intros n r. cbn. symmetry. apply Permutation_rev.
  - intros v r. reflexivity.
Qed.

Lemma demo_initial_value_typed : InitialValueTyped Demo.runtime.
Proof. intros v r. reflexivity. Qed.

Example demo_init_run :
  Demo.init_run 64 16 = (inr (Demo.trainer 64 16), Demo.world1 64 16).
Proof. vm_compute. reflexivity. Qed.

Example demo_three_epochs :
  length (steps_log
            (train (Demo.trainer 64 16) 3 None (Demo.world1 64 16)).2) = 12.
Proof. vm_compute. reflexivity. Qed.

Example demo_trained_values :
  sess_run_read 0 (self_policy_variables Demo.trained) Demo.trained_world
  = (inr [NdArray [2; 4] (replicate 8 2%Z) float32;
          NdArray [4] (replicate 4 3%Z) float32;
          NdArray [4; 2] (replicate 8 4%Z) float32;
          NdArray [2] (replicate 2 5%Z) float32],
     Demo.trained_world).
Proof. vm_compute. reflexivity. Qed.

Lemma save_reconstruct_round_trip_witness :
  exists saved rv w',
    sess_run_read (self_sess Demo.trained)
                  (self_policy_variables Demo.trained) Demo.trained_world
      = (inr saved, Demo.trained_world) /\
    (save_policy Demo.trained "policy.pkl" ;;
     reconstruct_policy "policy.pkl" None) Demo.trained_world = (inr rv, w') /\
    pol_class rv = self_policy_class Demo.trained /\
    pol_kwargs rv = self_policy_kwargs Demo.trained /\
    sess_run_read 0 (pol_variables rv) w' = (inr saved, w').
Proof.
  apply (save_reconstruct_round_trip Demo.trained "policy.pkl" None
           Demo.trained_world 0).
  - split; by_computation.
  - unfold values_well_shaped. by_computation.
  - unfold values_well_typed. by_computation.
  - split; [intros Heq; discriminate Heq|reflexivity].
  - unfold scope_unused. by_computation.
  - vm_compute. reflexivity.
Defined.

Example demo_first_reconstruction :
  reconstruct_policy "policy.pkl" None Demo.saved_world
  = (inr Demo.reconstructed, Demo.first_reconstruction.2).
Proof. vm_compute. reflexivity. Qed.

Lemma save_reconstruct_round_trip_counterexample :
  (* after a first round trip, a second one in the same graph raises *)
  (save_policy (Demo.trainer 4 2) "policy.pkl" ;;
   reconstruct_policy "policy.pkl" None) (Demo.world1 4 2)
    = (inr Demo.reconstructed, Demo.first_reconstruction.2) /\
  Demo.raised
    ((save_policy (Demo.trainer 4 2) "policy.pkl" ;;
      reconstruct_policy "policy.pkl" None) Demo.first_reconstruction.2)
    = Some (ValueError
        "Variable reconstructed_policy/model/pi_fc0/w already exists, disallowed.") /\
  (* a trainer built in a graph that holds a variable named
     bc_supervised_loss/model_aux/w counts it among its policy variables,
     saves five arrays, and the reconstruction raises on the count *)
  Demo.init_run_aux.1 = inr Demo.trainer_aux /\
  length (self_policy_variables Demo.trainer_aux) = 5 /\
  length (param_decls (self_policy_class Demo.trainer_aux)
                      (self_policy_kwargs Demo.trainer_aux)) = 4 /\
  Demo.raised
    ((save_policy Demo.trainer_aux "policy.pkl" ;;
      reconstruct_policy "policy.pkl" None) Demo.init_run_aux.2)
    = Some (AssertionError "4 tf variables but 5 values supplied") /\
  (* the empty path cannot be opened: nothing is saved *)
  save_policy (Demo.trainer 4 2) "" (Demo.world1 4 2)
    = (inl (FileNotFoundError ""), Demo.world1 4 2).
Proof.
  split; [vm_compute; reflexivity|].
  split; [vm_compute; reflexivity|].
  split; [vm_compute; reflexivity|].
  split; [reflexivity|].
  split; [reflexivity|].
  split; [vm_compute; reflexivity|].
  vm_compute. reflexivity.
Qed.

Lemma set_tf_vars_assigns_counterexample :
  (* one 64-bit array for one 32-bit variable: the call returns and the
     variable holds the converted array, not the input *)
  (set_tf_vars [Demo.arr_w64] None (Some [Demo.var_w]) (Some 0)
               Demo.world_pi).1 = inr tt /\
  var_values (set_tf_vars [Demo.arr_w64] None (Some [Demo.var_w]) (Some 0)
                          Demo.world_pi).2 !! slot 0 Demo.var_w
    = Some (NdArray [2; 2] [0%Z; 1%Z; 1%Z; 2%Z] float32) /\
  NdArray [2; 2] [0%Z; 1%Z; 1%Z; 2%Z] float32 <> Demo.arr_w64 /\
  (* no array for no variable in a graph without operations, by list and
     by scope: the call raises *)
  set_tf_vars [] None (Some []) (Some 0) Demo.world0
    = (inl (RuntimeError empty_graph_msg), Demo.world0) /\
  set_tf_vars [] (Some "pi") None (Some 0) Demo.world0
    = (inl (RuntimeError empty_graph_msg), Demo.world0) /\
  (* two arrays for a variable listed twice: the call returns and the
     variable cannot hold both *)
  (set_tf_vars [Demo.arr_b; Demo.arr_b2] None
               (Some [Demo.var_b; Demo.var_b]) (Some 0) Demo.world_pi).1
    = inr tt /\
  ~ (var_values (set_tf_vars [Demo.arr_b; Demo.arr_b2] None
                   (Some [Demo.var_b; Demo.var_b]) (Some 0)
                   Demo.world_pi).2 !! slot 0 Demo.var_b = Some Demo.arr_b /\
     var_values (set_tf_vars [Demo.arr_b; Demo.arr_b2] None
                   (Some [Demo.var_b; Demo.var_b]) (Some 0)
                   Demo.world_pi).2 !! slot 0 Demo.var_b = Some Demo.arr_b2).
Proof.
  split; [vm_compute; reflexivity|].
  split; [vm_compute; reflexivity|].
  split; [intros Heq; discriminate Heq|].
  split; [vm_compute; reflexivity|].
  split; [vm_compute; reflexivity|].
  split; [vm_compute; reflexivity|].
  intros [Hb Hb2]. rewrite Hb in Hb2. discriminate Hb2.
Qed.

Lemma set_tf_vars_assigns_witness :
  exists w',
    set_tf_vars [Demo.arr_w; Demo.arr_b] None (Some [Demo.var_w; Demo.var_b])
                (Some 0) Demo.world_pi = (inr tt, w') /\
    (forall i v a,
       [Demo.var_w; Demo.var_b] !! i = Some v ->
       [Demo.arr_w; Demo.arr_b] !! i = Some a ->
       var_values w' !! slot 0 v = Some a) /\
    (forall k, k ∉ slot 0 <$> [Demo.var_w; Demo.var_b] ->
               var_values w' !! k = var_values Demo.world_pi !! k).
Proof.
  apply (set_tf_vars_assigns [Demo.arr_w; Demo.arr_b] None
           (Some [Demo.var_w; Demo.var_b]) (Some 0) Demo.world_pi
           [Demo.var_w; Demo.var_b] 0).
  - reflexivity.
  - reflexivity.
  - reflexivity.
  - by_computation.
  - by_computation.
  - by_computation.
  - intros Heq. discriminate Heq.
Defined.

Lemma train_step_count_witness :
  exists t' w' steps,
    train (Demo.trainer 64 16) 3 None (Demo.world1 64 16) = (inr t', w') /\
    steps_log w' = steps_log (Demo.world1 64 16) ++ steps /\
    length steps = 3 * 4 /\
    Forall (fun b => Z.of_nat (length b) = 16%Z) steps.
Proof.
  apply (@train_step_count Demo.runtime demo_runtime_laws
           (Demo.trainer 64 16) (new_dataset (Demo.demos 64)) 3 None
           (Demo.world1 64 16)).
  - reflexivity.
  - vm_compute. split; [reflexivity|discriminate].
  - unfold vars_initialised. by_computation.
Defined.

Lemma loss_ewma_recurrence_witness :
  exists t' w' losses e,
    train_epoch None (Demo.trainer 64 16) 0 (Demo.world1 64 16) = (inr t', w') /\
    length losses = 4 /\
    progress_log w' =
      progress_log (Demo.world1 64 16) ++ (BatchLoss <$> losses) ++
        [EpochLossEwma e] /\
    ewma_of_losses losses = Some e.
Proof.
  apply (@loss_ewma_recurrence Demo.runtime demo_runtime_laws
           (Demo.trainer 64 16) (new_dataset (Demo.demos 64)) 0 None
           (Demo.world1 64 16)).
  - reflexivity.
  - vm_compute. split; [reflexivity|discriminate].
  - unfold vars_initialised. by_computation.
Defined.

Example demo_init_no_demos :
  BCTrainer_init Demo.env None Demo.mlp 32 AdamOptimizer None None false
                 Demo.world0
  = (inr (Demo.trainer_no_demos 32), Demo.world1 0 32).
Proof. vm_compute. reflexivity. Qed.

Lemma train_without_dataset_counterexample :
  BCTrainer_init Demo.env None Demo.mlp 32 AdamOptimizer None None false
                 Demo.world0
    = (inr (Demo.trainer_no_demos 32), Demo.world1 0 32) /\
  train (Demo.trainer_no_demos 32) 0 None (Demo.world1 0 32)
    = (inr (Demo.trainer_no_demos 32), Demo.world1 0 32).
Proof. split; [exact demo_init_no_demos|reflexivity]. Qed.

Lemma train_without_dataset_witness :
  train (Demo.trainer_no_demos 32) 1 None (Demo.world1 0 32)
    = (inl (AttributeError none_n_samples_msg), Demo.world1 0 32) /\
  train (Demo.trainer_no_demos 32) 0 None (Demo.world1 0 32)
    = (inr (Demo.trainer_no_demos 32), Demo.world1 0 32).
Proof.
  pose proof (train_without_dataset Demo.env Demo.mlp 32 AdamOptimizer None
                None false Demo.world0 (Demo.trainer_no_demos 32)
                (Demo.world1 0 32) demo_init_no_demos) as H.
  split.
  - apply (proj1 (H 1%Z None (Demo.world1 0 32))). discriminate.
  - apply (proj2 (H 0%Z None (Demo.world1 0 32))). discriminate.
Defined.

Lemma optimiser_arguments_unused_witness :
  BCTrainer_init Demo.env (Some (Demo.demos 64)) Demo.mlp 16
    GradientDescentOptimizer (Some {[ "learning_rate" := 1%Z ]}) None false
    Demo.world0
  = Demo.init_run 64 16 /\
  op_optimizer (self_train_op (Demo.trainer 64 16)) = Optimizer AdamOptimizer ∅.
Proof.
  pose proof (optimiser_arguments_unused Demo.env (Some (Demo.demos 64))
                Demo.mlp 16 GradientDescentOptimizer AdamOptimizer
                (Some {[ "learning_rate" := 1%Z ]}) None None false
                Demo.world0) as [Hsame Hadam].
  split; [exact Hsame|].
  apply (Hadam (Demo.trainer 64 16) (Demo.world1 64 16)).
  rewrite Hsame. exact demo_init_run.
Defined.

Lemma reconstruct_policy_count_mismatch_witness :
  exists w',
    reconstruct_policy "short.pkl" None Demo.world_short_record =
      (inl (AssertionError "4 tf variables but 3 values supplied"), w') /\
    var_values w' = var_values Demo.world_short_record.
Proof.
  apply (reconstruct_policy_count_mismatch "short.pkl" None
           Demo.world_short_record 0 Demo.short_record).
  - vm_compute. reflexivity.
  - reflexivity.
  - unfold scope_unused. by_computation.
  - by_computation.
  - vm_compute. discriminate.
Defined.

Lemma reconstruct_policy_count_mismatch_counterexample :
  (* five arrays for the four parameters of the recorded class, in a graph
     that holds a variable named reconstructed_policy_old/w: the call
     returns, and that variable has been assigned the first array *)
  length (pk_params Demo.long_record) = 5 /\
  length (param_decls (pk_class Demo.long_record)
                      (pk_kwargs Demo.long_record)) = 4 /\
  Demo.outcome (reconstruct_policy "long.pkl" None Demo.world_old)
    = Some Demo.reconstructed /\
  var_values Demo.world_old !! slot 0 Demo.var_old = Some Demo.arr_b /\
  var_values (reconstruct_policy "long.pkl" None Demo.world_old).2
    !! slot 0 Demo.var_old = Some Demo.arr_b2 /\
  (* three arrays for the four parameters, in a graph in which an earlier
     call has built a policy: the call raises on the existing variable,
     not on the count *)
  Demo.raised
    (reconstruct_policy "short.pkl" None
       (reconstruct_policy "short.pkl" None Demo.world_short_record).2)
    = Some (ValueError
        "Variable reconstructed_policy/model/pi_fc0/w already exists, disallowed.").
Proof.
  split; [reflexivity|].
  split; [reflexivity|].
  split; [vm_compute; reflexivity|].
  split; [vm_compute; reflexivity|].
  split; [vm_compute; reflexivity|].
  vm_compute. reflexivity.
Qed.

Lemma set_tf_vars_count_mismatch_witness :
  set_tf_vars (pk_params Demo.short_record) None
              (Some (param_decls Demo.mlp Demo.kwargs)) None Demo.world0
  = (inl (AssertionError "4 tf variables but 3 values supplied"), Demo.world0).
Proof.
  apply (set_tf_vars_count_mismatch (pk_params Demo.short_record) None
           (Some (param_decls Demo.mlp Demo.kwargs)) None Demo.world0
           (param_decls Demo.mlp Demo.kwargs)).
  - reflexivity.
  - vm_compute. discriminate.
Defined.

Lemma train_small_dataset_raises_witness :
  exists d' w',
    iterate_once (new_dataset (Demo.demos 1)) 2 (Demo.world1 1 2)
      = (inr (d', []), w') /\
    for_batches (Demo.trainer 1 2) [] None w' = (inr None, w') /\
    train (Demo.trainer 1 2) 3 None (Demo.world1 1 2)
      = (inl (TypeError format_none_msg), w') /\
    steps_log w' = steps_log (Demo.world1 1 2) /\
    progress_log w' = progress_log (Demo.world1 1 2) /\
    callback_log w' = callback_log (Demo.world1 1 2).
Proof.
  apply (train_small_dataset_raises (Demo.trainer 1 2)
           (new_dataset (Demo.demos 1)) 3 None (Demo.world1 1 2)).
  - reflexivity.
  - reflexivity.
  - discriminate.
Defined.

Lemma reconstruct_policy_scope_counterexample :
  reconstruct_policy "policy.pkl" None Demo.saved_world
    = (inr Demo.reconstructed, Demo.first_reconstruction.2) /\
  ~ scope_unused (reconstructed_scope Demo.first_reconstruction.2)
                 Demo.first_reconstruction.2 /\
  Demo.raised
    (reconstruct_policy "policy.pkl" None Demo.first_reconstruction.2)
    = Some (ValueError
        "Variable reconstructed_policy/model/pi_fc0/w already exists, disallowed.").
Proof.
  split; [exact demo_first_reconstruction|]. split.
  - unfold scope_unused. by_computation.
  - vm_compute. reflexivity.
Qed.

Lemma reconstruct_policy_scope_witness :
  (pol_scope Demo.reconstructed
     = scope_join (variable_scope Demo.saved_world) "reconstructed_policy" /\
   forall name : string,
     scope_matches (pol_scope Demo.reconstructed)
       (scope_join
          (scope_join (scope_join (variable_scope Demo.saved_world)
                                  "bc_supervised_loss") "model")
          name) = false) /\
  exists (rv : policy) (w' : world),
    reconstruct_policy "policy.pkl" None Demo.saved_world = (inr rv, w').
Proof.
  destruct (reconstruct_policy_scope "policy.pkl" None Demo.saved_world)
    as [Hevery Hfirst].
  split.
  - apply (Hevery Demo.reconstructed Demo.first_reconstruction.2).
    exact demo_first_reconstruction.
  - apply (Hfirst 0 Demo.saved_record).
    + vm_compute. reflexivity.
    + vm_compute. reflexivity.
    + unfold scope_unused. by_computation.
    + by_computation.
    + by_computation.
Defined.

(** ** Concrete runs of the further properties *)

Example demo_init_small :
  BCTrainer_init Demo.env (Some (Demo.demos 4)) Demo.mlp 2 AdamOptimizer None
                 None false Demo.world0
  = (inr (Demo.trainer 4 2), Demo.world1 4 2).
Proof. vm_compute. reflexivity. Qed.

Example demo_init_other :
  BCTrainer_init Demo.env (Some (Demo.demos 4)) Demo.mlp 2 AdamOptimizer None
                 None false Demo.world_other
  = (inr (Demo.trainer 4 2), Demo.world_other_init).
Proof. vm_compute. reflexivity. Qed.

Lemma set_tf_vars_xor_kwargs_witness :
  set_tf_vars [Demo.arr_w] (Some "pi") (Some [Demo.var_w]) (Some 0)
              Demo.world0
  = (inl (AssertionError xor_msg), Demo.world0).
Proof.
  apply (set_tf_vars_xor_kwargs [Demo.arr_w] (Some "pi") (Some [Demo.var_w])
           (Some 0) Demo.world0).
  split; intros _; eauto.
Defined.

Lemma set_tf_vars_no_session_witness :
  set_tf_vars [Demo.arr_w; Demo.arr_b] None (Some [Demo.var_w; Demo.var_b])
              None Demo.world_no_session
  = (inl (AssertionError no_session_msg), Demo.world_no_session).
Proof.
  apply (set_tf_vars_no_session [Demo.arr_w; Demo.arr_b] None
           (Some [Demo.var_w; Demo.var_b]) None Demo.world_no_session
           [Demo.var_w; Demo.var_b]); reflexivity.
Defined.


Lemma set_tf_vars_overrides_witness :
  (set_tf_vars [Demo.arr_w; Demo.arr_b] None
               (Some [Demo.var_w; Demo.var_b]) (Some 0) ;;
   set_tf_vars [Demo.arr_w; NdArray [2] [7%Z; 8%Z] float32] None
               (Some [Demo.var_w; Demo.var_b]) (Some 0)) Demo.world0
  = set_tf_vars [Demo.arr_w; NdArray [2] [7%Z; 8%Z] float32] None
                (Some [Demo.var_w; Demo.var_b]) (Some 0) Demo.world0.
Proof.
  apply (set_tf_vars_overrides [Demo.arr_w; Demo.arr_b]
           [Demo.arr_w; NdArray [2] [7%Z; 8%Z] float32] None
           (Some [Demo.var_w; Demo.var_b]) (Some 0) Demo.world0
           [Demo.var_w; Demo.var_b] 0).
  - reflexivity.
  - reflexivity.
  - by_computation.
  - by_computation.
  - by_computation.
Defined.

Lemma BCTrainer_init_no_session_witness :
  exists w',
    BCTrainer_init Demo.env (Some (Demo.demos 4)) Demo.mlp 2 AdamOptimizer
                   None None false Demo.world_no_session =
      (inl (AssertionError need_session_msg), w') /\
    trainable_variables w' = trainable_variables Demo.world_no_session /\
    var_values w' = var_values Demo.world_no_session /\
    files w' = files Demo.world_no_session.
Proof.
  apply (BCTrainer_init_no_session Demo.env (Some (Demo.demos 4)) Demo.mlp 2
           AdamOptimizer None None false Demo.world_no_session).
  reflexivity.
Defined.

Lemma BCTrainer_init_constructs_witness :
  exists t w',
    BCTrainer_init Demo.env (Some (Demo.demos 4)) Demo.mlp 2 AdamOptimizer
                   None None false Demo.world_other = (inr t, w') /\
    self_sess t = 0 /\
    self_batch_size t = 2%Z /\
    self_expert_dataset t = new_dataset <$> Some (Demo.demos 4) /\
    self_policy_kwargs t =
      PolicyKwargs (observation_space Demo.env) (action_space Demo.env)
                   None 1 1000 /\
    self_policy_variables t =
      in_scope
        (scope_join
           (scope_join (variable_scope Demo.world_other) "bc_supervised_loss")
           "model")
        <$> param_decls Demo.mlp
              (PolicyKwargs (observation_space Demo.env)
                            (action_space Demo.env) None 1 1000) /\
    pol_variables (self_policy t) = self_policy_variables t /\
    trainable_variables w' =
      trainable_variables Demo.world_other ++ self_policy_variables t /\
    variable_scope w' = variable_scope Demo.world_other /\
    values_well_shaped t w'.
Proof.
  apply (@BCTrainer_init_constructs Demo.runtime demo_runtime_laws Demo.env
           (Some (Demo.demos 4)) Demo.mlp 2 AdamOptimizer None None false
           Demo.world_other 0).
  - reflexivity.
  - by_computation.
  - unfold scope_unused. by_computation.
  - by_computation.
Defined.

Lemma BCTrainer_init_twice_witness :
  exists w'',
    BCTrainer_init Demo.env None Demo.mlp 8 GradientDescentOptimizer None None
                   true (Demo.world1 4 2) =
      (inl (ValueError
              (already_exists_msg
                 (var_name
                    (in_scope
                       (scope_join
                          (scope_join (variable_scope Demo.world0)
                                      "bc_supervised_loss") "model")
                       Demo.mlp_first)))), w'') /\
    trainable_variables w'' = trainable_variables (Demo.world1 4 2) /\
    var_values w'' = var_values (Demo.world1 4 2) /\
    adam_slots w'' = adam_slots (Demo.world1 4 2).
Proof.
  apply (BCTrainer_init_twice Demo.env (Some (Demo.demos 4)) None Demo.mlp
           2 8 AdamOptimizer GradientDescentOptimizer None None None None
           false true Demo.world0 (Demo.trainer 4 2) (Demo.world1 4 2)
           Demo.mlp_first Demo.mlp_rest).
  - exact demo_init_small.
  - reflexivity.
Defined.

Lemma train_zero_batch_size_witness :
  train (Demo.trainer 4 0) 2 None (Demo.world1 4 2)
  = (inl (ZeroDivisionError "integer division or modulo by zero"),
     Demo.world1 4 2).
Proof.
  apply (train_zero_batch_size (Demo.trainer 4 0)
           (new_dataset (Demo.demos 4)) 2 None (Demo.world1 4 2)).
  - reflexivity.
  - reflexivity.
  - discriminate.
Defined.

Lemma train_callback_calls_witness :
  exists t' w' ewmas,
    train (Demo.trainer 4 2) 3 (Some Demo.observer) (Demo.world1 4 2)
      = (inr t', w') /\
    length ewmas = Z.to_nat 3 /\
    callback_log w' =
      callback_log (Demo.world1 4 2) ++
        callback_entries (Some Demo.observer)
          (Z.of_nat (n_samples (new_dataset (Demo.demos 4)))
           / self_batch_size (Demo.trainer 4 2))
          (seq 0 (Z.to_nat 3)) ewmas.
Proof.
  apply (@train_callback_calls Demo.runtime demo_runtime_laws
           (Demo.trainer 4 2) (new_dataset (Demo.demos 4)) 3
           (Some Demo.observer) (Demo.world1 4 2)).
  - reflexivity.
  - vm_compute. split; [reflexivity|discriminate].
  - unfold vars_initialised. by_computation.
Defined.

Lemma set_expert_dataset_then_train_witness :
  self_sess (set_expert_dataset (Demo.trainer_no_demos 2) (Demo.demos 5))
    = self_sess (Demo.trainer_no_demos 2) /\
  self_policy (set_expert_dataset (Demo.trainer_no_demos 2) (Demo.demos 5))
    = self_policy (Demo.trainer_no_demos 2) /\
  self_policy_variables
    (set_expert_dataset (Demo.trainer_no_demos 2) (Demo.demos 5))
    = self_policy_variables (Demo.trainer_no_demos 2) /\
  exists t' w' steps,
    train (set_expert_dataset (Demo.trainer_no_demos 2) (Demo.demos 5)) 3
          None (Demo.world1 4 2) = (inr t', w') /\
    steps_log w' = steps_log (Demo.world1 4 2) ++ steps /\
    length steps =
      Z.to_nat 3 *
      Z.to_nat (Z.of_nat (length (Demo.demos 5))
                / self_batch_size (Demo.trainer_no_demos 2)) /\
    Forall (fun b => Z.of_nat (length b)
                     = self_batch_size (Demo.trainer_no_demos 2)) steps.
Proof.
  apply (@set_expert_dataset_then_train Demo.runtime demo_runtime_laws
           (Demo.trainer_no_demos 2) (Demo.demos 5) 3 None (Demo.world1 4 2)).
  - vm_compute. split; [reflexivity|discriminate].
  - unfold vars_initialised. by_computation.
Defined.

Lemma save_policy_writes_witness :
  exists vals w',
    sess_run_read (self_sess (Demo.trainer 4 2))
                  (self_policy_variables (Demo.trainer 4 2)) (Demo.world1 4 2)
      = (inr vals, Demo.world1 4 2) /\
    save_policy (Demo.trainer 4 2) "policy.pkl" (Demo.world1 4 2)
      = (inr tt, w') /\
    files w' !! "policy.pkl"
      = Some (Pickle (self_policy_class (Demo.trainer 4 2))
                     (self_policy_kwargs (Demo.trainer 4 2)) vals) /\
    (forall path', path' ≠ "policy.pkl" ->
                   files w' !! path' = files (Demo.world1 4 2) !! path') /\
    var_values w' = var_values (Demo.world1 4 2) /\
    trainable_variables w' = trainable_variables (Demo.world1 4 2).
Proof.
  apply (save_policy_writes (Demo.trainer 4 2) "policy.pkl" (Demo.world1 4 2)).
  - unfold vars_initialised. by_computation.
  - split; [intros Heq; discriminate Heq|reflexivity].
Defined.

Lemma save_policy_uninitialised_witness :
  exists v,
    v ∈ self_policy_variables (Demo.trainer 4 2) /\
    var_values Demo.world0 !! slot (self_sess (Demo.trainer 4 2)) v = None /\
    save_policy (Demo.trainer 4 2) "policy.pkl" Demo.world0
      = (inl (FailedPreconditionError (var_name v)), Demo.world0).
Proof.
  apply (save_policy_uninitialised (Demo.trainer 4 2) "policy.pkl"
           Demo.world0).
  unfold vars_initialised. by_computation.
Defined.

(** With the four policy variables uninitialised, the session of the
    demonstration runtime reports the last one. *)
Example demo_uninitialised_reported :
  save_policy (Demo.trainer 4 2) "policy.pkl" Demo.world0
  = (inl (FailedPreconditionError "bc_supervised_loss/model/model/pi/b"),
     Demo.world0).
Proof. vm_compute. reflexivity. Qed.

Lemma reconstruct_policy_no_session_witness :
  reconstruct_policy "missing.pkl" None Demo.world_no_session
  = (inl (AssertionError supply_session_msg), Demo.world_no_session).
Proof.
  apply (reconstruct_policy_no_session "missing.pkl" None
           Demo.world_no_session).
  reflexivity.
Defined.

Lemma reconstruct_policy_missing_file_witness :
  reconstruct_policy "missing.pkl" None Demo.world0
  = (inl (FileNotFoundError "missing.pkl"), Demo.world0).
Proof.
  apply (reconstruct_policy_missing_file "missing.pkl" None Demo.world0 0);
    reflexivity.
Defined.

Lemma reconstruct_policy_twice_witness :
  reconstruct_policy "policy.pkl" None Demo.first_reconstruction.2
  = (inl (ValueError
            (already_exists_msg
               (var_name (in_scope (reconstructed_scope Demo.saved_world)
                                   Demo.mlp_first)))),
     Demo.first_reconstruction.2).
Proof.
  apply (reconstruct_policy_twice "policy.pkl" None Demo.saved_world
           Demo.reconstructed Demo.first_reconstruction.2 Demo.mlp_first
           Demo.mlp_rest).
  - exact demo_first_reconstruction.
  - reflexivity.
Defined.

Lemma reconstruct_policy_preserves_witness :
  exists rv w',
    reconstruct_policy "policy.pkl" None Demo.saved_world = (inr rv, w') /\
    trainable_variables w' =
      trainable_variables Demo.saved_world ++ pol_variables rv /\
    values_agree_outside 0 (pol_variables rv) Demo.saved_world w' /\
    Forall (fun v => forall s', var_values w' !! slot s' v
                                = var_values Demo.saved_world !! slot s' v)
           (trainable_variables Demo.saved_world).
Proof.
  apply (reconstruct_policy_preserves "policy.pkl" None Demo.saved_world 0
           Demo.saved_record).
  - vm_compute. reflexivity.
  - vm_compute. reflexivity.
  - unfold scope_unused. by_computation.
  - by_computation.
  - by_computation.
Defined.

Lemma reconstruct_policy_not_rolled_back_witness :
  exists e w',
    reconstruct_policy "short.pkl" None Demo.world_short_record = (inl e, w') /\
    trainable_variables w' =
      trainable_variables Demo.world_short_record ++
        (in_scope (reconstructed_scope Demo.world_short_record) <$>
           param_decls (pk_class Demo.short_record)
                       (pk_kwargs Demo.short_record)) /\
    reconstruct_policy "short.pkl" None w' =
      (inl (ValueError
              (already_exists_msg
                 (var_name
                    (in_scope (reconstructed_scope Demo.world_short_record)
                              Demo.mlp_first)))), w').
Proof.
  apply (reconstruct_policy_not_rolled_back "short.pkl" "short.pkl" None
           Demo.world_short_record 0 Demo.short_record Demo.short_record
           Demo.mlp_first Demo.mlp_rest Demo.mlp_rest).
  - vm_compute. reflexivity.
  - vm_compute. reflexivity.
  - reflexivity.
  - unfold scope_unused. by_computation.
  - by_computation.
  - vm_compute. discriminate.
  - reflexivity.
  - reflexivity.
Defined.

Lemma BCTrainer_init_reinitialises_witness :
  trainable_variables Demo.world_other
    `prefix_of` trainable_variables Demo.world_other_init /\
  Forall (fun v => exists r,
            var_values Demo.world_other_init
              !! slot (self_sess (Demo.trainer 4 2)) v
            = Some (@initial_value Demo.runtime v r).1)
         (trainable_variables Demo.world_other_init).
Proof.
  apply (BCTrainer_init_reinitialises Demo.env (Some (Demo.demos 4)) Demo.mlp
           2 AdamOptimizer None None false Demo.world_other
           (Demo.trainer 4 2) Demo.world_other_init).
  - by_computation.
  - unfold scope_unused. by_computation.
  - exact demo_init_other.
Defined.

Lemma BCTrainer_init_leaves_witness :
  let r := BCTrainer_init Demo.env None Demo.mlp 8 AdamOptimizer None None
                          false (Demo.world1 4 2) in
  variable_scope r.2 = variable_scope (Demo.world1 4 2) /\
  files r.2 = files (Demo.world1 4 2) /\
  default_session r.2 = default_session (Demo.world1 4 2) /\
  steps_log r.2 = steps_log (Demo.world1 4 2) /\
  trainable_variables (Demo.world1 4 2) `prefix_of` trainable_variables r.2 /\
  (forall e, r.1 = inl e ->
     var_values r.2 = var_values (Demo.world1 4 2) /\
     adam_slots r.2 = adam_slots (Demo.world1 4 2)).
Proof.
  exact (BCTrainer_init_leaves Demo.env None Demo.mlp 8 AdamOptimizer None
           None false (Demo.world1 4 2)).
Defined.
